(** * MatchHistogram: the curve engine of [MatchHistogram.cpp]

    A shallow embedding of [IntDiv], of the class [CurveData] (methods
    [Create], [Process], [Show], [Debug]) and of the filter glue
    ([MatchHistogramGetFrame], [MatchHistogramCreate]), followed by the
    properties of the specification that were checked against it.

    Conventions of the embedding:
    - C [int] and [unsigned int] are 32 bits wide.  Values are kept in [Z];
      every place where the C++ code reduces a value to a machine type is
      written out: [wrap_uint] for [unsigned int] arithmetic, [to_int] for a
      conversion to [int] (and for [int] arithmetic, taken with the
      two's-complement wrap-around that the supported targets show),
      [to_uchar] for a store into an [unsigned char].
    - The arrays [sum], [div], [curve] and all pixel buffers are lists of
      [Z], read with [rd] and written with [wr] at a [Z] index.
    - [for] loops are folds over the index range; the loops that [break]
      and the [while] loop are recursive functions, the latter with fuel. *)

From Stdlib Require Import ZArith Lia Bool String.
From stdpp Require Import base list list_numbers.

Local Open Scope Z_scope.

(** ** Machine integers *)

Definition wrap_uint (z : Z) : Z := z mod 2 ^ 32.
Definition to_int (z : Z) : Z := (z + 2 ^ 31) mod 2 ^ 32 - 2 ^ 31.
Definition to_uchar (z : Z) : Z := z mod 256.

Definition INT_MAX : Z := 2 ^ 31 - 1.
Definition INT_MIN : Z := - 2 ^ 31.

(** [static inline int IntDiv(int x, int y)]:
    [((x < 0) ^ (y < 0)) ? ((x - (y >> 1)) / y) : ((x + (y >> 1)) / y)].
    C's [/] truncates ([Z.quot]); [>>] on [int] is the arithmetic shift.
    An overflow of the sum or of the difference is undefined behaviour in
    C++; the embedding gives it the two's-complement result.  The C++
    division has no result when [y] is 0 and when the dividend is [INT_MIN]
    and [y] is -1; [IntDiv] is the value of the call when its division has
    a result, [IntDiv_traps] below tells when it has none, and
    [Create_outcome] is [Create] with these cases taken into account. *)
Definition IntDiv (x y : Z) : Z :=
  if xorb (x <? 0) (y <? 0)
  then to_int (to_int (x - Z.shiftr y 1) ÷ y)
  else to_int (to_int (x + Z.shiftr y 1) ÷ y).

(** ** Arrays and loops *)

Definition rd (a : list Z) (i : Z) : Z := a !!! Z.to_nat i.
Definition wr (a : list Z) (i v : Z) : list Z := <[Z.to_nat i := v]> a.

(** [for (i = lo; i < hi; i++) body] *)
Definition for_up {St : Type} (lo hi : Z) (body : Z -> St -> St) (s : St) : St :=
  fold_left (fun s i => body i s) (seqZ lo (hi - lo)) s.

(** [for (i = hi; i > lo; i--) body] *)
Definition for_down {St : Type} (hi lo : Z) (body : Z -> St -> St) (s : St) : St :=
  fold_left (fun s k => body (hi - k) s) (seqZ 0 (hi - lo)) s.

Global Arguments for_up : simpl never.
Global Arguments for_down : simpl never.

(** [for (q = p; <n more values>; q++) if (d[q] != 0) { r = q; break; }],
    with [r] initialised to [-1]. *)
Fixpoint scan_up (d : list Z) (p : Z) (n : nat) : Z :=
  match n with
  | O => -1
  | S n' => if negb (rd d p =? 0) then p else scan_up d (p + 1) n'
  end.

(** The same search with [q--]. *)
Fixpoint scan_down (d : list Z) (p : Z) (n : nat) : Z :=
  match n with
  | O => -1
  | S n' => if negb (rd d p =? 0) then p else scan_down d (p - 1) n'
  end.

Definition clampZ (v : Z) : Z := Z.min (Z.max v 0) 255.

(** ** class CurveData *)

Record CurveData : Type := mkCurveData
  { sum : list Z;      (* unsigned int sum[256]   *)
    div : list Z;      (* unsigned int div[256]   *)
    curve : list Z }.  (* unsigned char curve[256] *)

Definition set_sum (s : CurveData) (i v : Z) : CurveData :=
  {| sum := wr (sum s) i v; div := div s; curve := curve s |}.
Definition set_div (s : CurveData) (i v : Z) : CurveData :=
  {| sum := sum s; div := wr (div s) i v; curve := curve s |}.
Definition set_curve (s : CurveData) (i v : Z) : CurveData :=
  {| sum := sum s; div := div s; curve := wr (curve s) i v |}.

(** [curve[i] = v; sum[i] = curve[i]; div[i] = 1;] with [v] an [int]. *)
Definition mark (s : CurveData) (i v : Z) : CurveData :=
  let s1 := set_curve s i (to_uchar v) in
  let s2 := set_sum s1 i (rd (curve s1) i) in
  set_div s2 i 1.

Global Arguments mark : simpl never.

(** *** Create: clear, populate, raw curve *)

Definition clear_data (s : CurveData) : CurveData :=
  for_up 0 256 (fun i s => set_div (set_sum s i 0) i 0) s.

(** [sum[ptr1[w]] += ptr2[w]; div[ptr1[w]] += 1;] *)
Definition tally (k v : Z) (s : CurveData) : CurveData :=
  let s1 := set_sum s k (wrap_uint (rd (sum s) k + v)) in
  set_div s1 k (wrap_uint (rd (div s1) k + 1)).

Definition populate_row (ptr1 ptr2 : list Z) (off width : Z) (s : CurveData)
  : CurveData :=
  for_up 0 width (fun w s => tally (rd ptr1 (off + w)) (rd ptr2 (off + w)) s) s.

(** The row loop; the first component is the offset that [ptr1 += stride;
    ptr2 += stride] has reached. *)
Definition populate (ptr1 ptr2 : list Z) (width height stride : Z)
  (s : CurveData) : Z * CurveData :=
  for_up 0 height
    (fun _ os => (fst os + stride, populate_row ptr1 ptr2 (fst os) width (snd os)))
    (0, s).

Definition raw_value (s : CurveData) (i : Z) : Z :=
  to_uchar (IntDiv (to_int (rd (sum s) i)) (to_int (rd (div s) i))).

Definition raw_curve (s : CurveData) : CurveData :=
  for_up 0 256
    (fun i s => if negb (rd (div s) i =? 0)
                then set_curve s i (raw_value s i)
                else set_curve s i 0) s.

(** *** Create: postprocessing *)

(** The loop that computes [flat]; the recursion stops at the [break]. *)
Fixpoint flat_loop (d : list Z) (idx : list Z) (flat : Z) : Z :=
  match idx with
  | [] => flat
  | i :: rest =>
      if negb (rd d i =? 0)
      then (if flat =? -1 then flat_loop d rest i else -1)
      else flat_loop d rest flat
  end.

Definition find_flat (s : CurveData) : Z := flat_loop (div s) (seqZ 0 256) (-1).

Definition uniform (flat : Z) (s : CurveData) : CurveData :=
  for_up 0 256 (fun i s => set_curve s i (rd (curve s) flat)) s.

(** The body of the gap-interpolation loop.  The operands around [IntDiv]
    are bytes and indices, so this [int] arithmetic is exact. *)
Definition fill_one (i : Z) (s : CurveData) : CurveData :=
  if rd (div s) i =? 0 then
    let prev := scan_down (div s) (i - 1) (Z.to_nat i) in
    let next := scan_up (div s) (i + 1) (Z.to_nat (255 - i)) in
    if negb (prev =? -1) && negb (next =? -1) then
      mark s i (clampZ (rd (curve s) prev
                        + IntDiv ((i - prev) * (rd (curve s) next - rd (curve s) prev))
                                 (next - prev)))
    else s
  else s.

Definition fill_gaps (s : CurveData) : CurveData := for_up 0 256 fill_one s.

Definition extend_bottom (s : CurveData) : CurveData :=
  if rd (div s) 0 =? 0 then
    let first := scan_up (div s) 0 256 in
    for_up 0 first
      (fun i s =>
         if first * 2 - i <=? 255 then
           if negb (rd (div s) (first * 2 - i) =? 0) then
             mark s i (clampZ (rd (curve s) first * 2 - rd (curve s) (first * 2 - i)))
           else s
         else s) s
  else s.

Definition extend_top (s : CurveData) : CurveData :=
  if rd (div s) 255 =? 0 then
    let last := scan_down (div s) 255 256 in
    for_down 255 last
      (fun i s =>
         if 0 <=? last * 2 - i then
           if negb (rd (div s) (last * 2 - i) =? 0) then
             mark s i (clampZ (rd (curve s) last * 2 - rd (curve s) (last * 2 - i)))
           else s
         else s) s
  else s.

(** [while (div[0] == 0 || div[255] == 0) { ... }]; [None] when the fuel
    runs out before the condition turns false. *)
Fixpoint extend_loop (fuel : nat) (s : CurveData) : option CurveData :=
  match fuel with
  | O => None
  | S fuel' =>
      if (rd (div s) 0 =? 0) || (rd (div s) 255 =? 0)
      then extend_loop fuel' (extend_top (extend_bottom s))
      else Some s
  end.

Definition smooth_one (smoothing_window : Z) (i : Z) (s : CurveData) : CurveData :=
  for_up (- smoothing_window) smoothing_window
    (fun j s =>
       let ij := to_int (i + j) in
       if (0 <=? ij) && (ij <? 256) then
         let s1 := set_sum s i (wrap_uint (rd (sum s) i + rd (curve s) ij)) in
         set_div s1 i (wrap_uint (rd (div s1) i + 1))
       else s)
    (set_div (set_sum s i 0) i 0).

Definition smooth (smoothing_window : Z) (s : CurveData) : CurveData :=
  if 0 <? smoothing_window then for_up 0 256 (smooth_one smoothing_window) s
  else s.

Definition final_curve (s : CurveData) : CurveData :=
  for_up 0 256 (fun i s => set_curve s i (raw_value s i)) s.

(** Stages 2 and 3 (gap interpolation, boundary extrapolation). *)
Definition interpolate (fuel : nat) (s : CurveData) : option CurveData :=
  extend_loop fuel (fill_gaps s).

(** The body of [if (!raw) { ... }]. *)
Definition postprocess (fuel : nat) (smoothing_window : Z) (s : CurveData)
  : option CurveData :=
  let flat := find_flat s in
  if negb (flat =? -1) then Some (uniform flat s)
  else match interpolate fuel s with
       | Some s' => Some (final_curve (smooth smoothing_window s'))
       | None => None
       end.

(** The state after the two loops "Clear data" and "Populate data". *)
Definition accumulation_pass (this : CurveData) (ptr1 ptr2 : list Z)
  (width height stride : Z) : CurveData :=
  snd (populate ptr1 ptr2 width height stride (clear_data this)).

(** The state before [if (!raw)]. *)
Definition accumulate (this : CurveData) (ptr1 ptr2 : list Z)
  (width height stride : Z) : CurveData :=
  raw_curve (accumulation_pass this ptr1 ptr2 width height stride).

Definition Create (fuel : nat) (this : CurveData) (ptr1 ptr2 : list Z)
  (width height stride : Z) (raw : bool) (smoothing_window : Z)
  : option CurveData :=
  let s := accumulate this ptr1 ptr2 width height stride in
  if negb raw then postprocess fuel smoothing_window s else Some s.

(** *** Divisions without a result

    [a / b] on [int] has no result when [b] is 0, and when [a] is [INT_MIN]
    and [b] is -1: the program is stopped there (by a hardware trap on the
    usual targets).  [IntDiv_traps x y] tells whether the division of the
    call [IntDiv(x, y)] is one of these. *)
Definition IntDiv_traps (x y : Z) : bool :=
  let dividend :=
    if xorb (x <? 0) (y <? 0)
    then to_int (x - Z.shiftr y 1)
    else to_int (x + Z.shiftr y 1) in
  (y =? 0) || ((dividend =? INT_MIN) && (y =? -1)).

(** Whether a call of [IntDiv] in the loop "Raw curve" has no result; the
    loop leaves [sum] and [div] as they are. *)
Definition raw_traps (s : CurveData) : bool :=
  existsb (fun i => negb (rd (div s) i =? 0)
                    && IntDiv_traps (to_int (rd (sum s) i)) (to_int (rd (div s) i)))
    (seqZ 0 256).

(** The same for the call in the body of the gap-interpolation loop, and
    for the whole loop: the second component of the loop state records a
    call without a result. *)
Definition fill_one_traps (i : Z) (s : CurveData) : bool :=
  if rd (div s) i =? 0 then
    let prev := scan_down (div s) (i - 1) (Z.to_nat i) in
    let next := scan_up (div s) (i + 1) (Z.to_nat (255 - i)) in
    negb (prev =? -1) && negb (next =? -1)
    && IntDiv_traps ((i - prev) * (rd (curve s) next - rd (curve s) prev))
         (next - prev)
  else false.

Definition fill_gaps_traps (s : CurveData) : bool :=
  snd (for_up 0 256
         (fun i st => (fill_one i (fst st), snd st || fill_one_traps i (fst st)))
         (s, false)).

(** The same for the last loop of [Create], [curve[i] = IntDiv(sum[i],
    div[i])] for every [i]. *)
Definition final_traps (s : CurveData) : bool :=
  existsb (fun i => IntDiv_traps (to_int (rd (sum s) i)) (to_int (rd (div s) i)))
    (seqZ 0 256).

(** Whether a division of the body of [if (!raw) { ... }] has no result;
    the last loop is reached when the [while] loop has ended. *)
Definition postprocess_traps (fuel : nat) (smoothing_window : Z) (s : CurveData)
  : bool :=
  if negb (find_flat s =? -1) then false
  else fill_gaps_traps s
       || match interpolate fuel s with
          | Some s' => final_traps (smooth smoothing_window s')
          | None => false
          end.

Definition Create_traps (fuel : nat) (this : CurveData) (ptr1 ptr2 : list Z)
  (width height stride : Z) (raw : bool) (smoothing_window : Z) : bool :=
  let s := accumulation_pass this ptr1 ptr2 width height stride in
  raw_traps s
  || (if negb raw then postprocess_traps fuel smoothing_window (raw_curve s)
      else false).

(** What a call of [Create] does: it returns with the object in a state, it
    is stopped at a division without a result, or its [while] loop has not
    ended within [fuel] evaluations of the loop condition. *)
Inductive Outcome : Type :=
  | Returns (st : CurveData)
  | Traps
  | Unfinished.

Definition Create_outcome (fuel : nat) (this : CurveData) (ptr1 ptr2 : list Z)
  (width height stride : Z) (raw : bool) (smoothing_window : Z) : Outcome :=
  if Create_traps fuel this ptr1 ptr2 width height stride raw smoothing_window
  then Traps
  else match Create fuel this ptr1 ptr2 width height stride raw smoothing_window with
       | Some st => Returns st
       | None => Unfinished
       end.

(** ** Process, Show, Debug *)

(** [void Process(const uint8_t *srcp, uint8_t *dstp, int width, int height,
    int stride)]: the result is the destination plane; the first component
    of the loop state is the offset that [srcp += stride; dstp += stride]
    has reached. *)
Definition Process (s : CurveData) (srcp dstp : list Z)
  (width height stride : Z) : list Z :=
  snd (for_up 0 height
         (fun _ od =>
            (fst od + stride,
             for_up 0 width
               (fun w d => wr d (fst od + w) (rd (curve s) (rd srcp (fst od + w))))
               (snd od)))
         (0, dstp)).

(** [void Show(uint8_t *ptr, int stride, uint8_t color)] *)
Definition Show (s : CurveData) (ptr : list Z) (stride color : Z) : list Z :=
  for_up 0 256 (fun i p => wr p ((255 - rd (curve s) i) * stride + i) color) ptr.

(** [void Debug(uint8_t *ptr, int stride)]; [j <= curve[i]] is
    [j < curve[i] + 1]. *)
Definition Debug (s : CurveData) (ptr : list Z) (stride : Z) : list Z :=
  let bars :=
    for_up 0 256
      (fun i p =>
         for_up 0 (rd (curve s) i + 1)
           (fun j p => wr p ((255 - j) * stride + i) (rd (curve s) i)) p)
      ptr in
  for_up 0 256
    (fun i p =>
       if 0 <? rd (curve s) i
       then wr p ((255 - rd (curve s) i) * stride + i) 255
       else p)
    bars.

(** ** The filter: frames and video information

    The VapourSynth objects that the filter receives are modelled by their
    contents.  A frame is the list of its planes; a format is the record of
    the fields that the filter reads. *)

Module VS.

Inductive ColorFamily : Type := cmGray | cmRGB | cmYUV | cmYCoCg | cmCompat.

Record Format : Type := mkFormat
  { colorFamily : ColorFamily;
    bitsPerSample : Z;
    numPlanes : Z;
    subSamplingW : Z;
    subSamplingH : Z }.

(** [format] is [None] for a clip of variable format (a null pointer);
    [width] and [height] are 0 for a clip of variable dimensions. *)
Record VideoInfo : Type := mkVideoInfo
  { format : option Format;
    width : Z;
    height : Z }.

Record Plane : Type := mkPlane
  { p_width : Z;       (* getFrameWidth  *)
    p_height : Z;      (* getFrameHeight *)
    p_stride : Z;      (* getStride      *)
    p_data : list Z }. (* getReadPtr / getWritePtr *)

Abbreviation Frame := (list Plane).

End VS.

Global Instance ColorFamily_eq_dec : EqDecision VS.ColorFamily.
Proof. solve_decision. Defined.

Global Instance Format_eq_dec : EqDecision VS.Format.
Proof. solve_decision. Defined.

Global Instance Plane_inhabited : Inhabited VS.Plane :=
  stdpp.base.populate (VS.mkPlane 0 0 0 []).

Definition plane_at (f : VS.Frame) (p : Z) : VS.Plane := f !!! Z.to_nat p.

(** A store through [getWritePtr(f, p)]. *)
Definition with_data (f : VS.Frame) (p : Z) (data : list Z) : VS.Frame :=
  let pl := plane_at f p in
  <[Z.to_nat p := VS.mkPlane (VS.p_width pl) (VS.p_height pl) (VS.p_stride pl) data]> f.

(** [struct MatchHistogramData], without the three node references: the
    frames of the clips are arguments of [MatchHistogramGetFrame]. *)
Record MatchHistogramData : Type := mkData
  { raw : bool;
    show : bool;
    debug : bool;
    smoothing_window : Z;
    process : list Z;         (* int process[3] *)
    vi : VS.VideoInfo }.

(** [fillPlane]: [memset(data, value, width)] for each of [height] rows. *)
Definition fillPlane (data : list Z) (width height stride value : Z) : list Z :=
  snd (for_up 0 height
         (fun _ od =>
            (fst od + stride,
             for_up 0 width (fun x d => wr d (fst od + x) (to_uchar value)) (snd od)))
         (0, data)).

(** Modelled from the VapourSynth API ([newVideoFrame2] is declared in
    VapourSynth.h, which is not part of the repository): plane [p] of the
    new frame is plane [planes[p]] of [plane_src[p]] when that frame is
    given, and fresh memory otherwise, here plane [p] of [fresh]. *)
Definition newVideoFrame2 (n : Z) (plane_src : list (option VS.Frame))
  (planes : list Z) (fresh : VS.Frame) : VS.Frame :=
  (fun p => match plane_src !!! Z.to_nat p with
            | Some f => plane_at f (rd planes p)
            | None => plane_at fresh p
            end) <$> seqZ 0 n.

(** [for (int plane = 0; plane < n; plane++)] with a body that can fail to
    return. *)
Fixpoint plane_loop {St : Type} (body : Z -> St -> option St) (ps : list Z)
  (st : St) : option St :=
  match ps with
  | [] => Some st
  | p :: rest =>
      match body p st with
      | Some st' => plane_loop body rest st'
      | None => None
      end
  end.

Definition plane_selected (d : MatchHistogramData) (plane : Z) : bool :=
  negb (rd (process d) plane =? 0).

(** The body of the plane loop of the branch "Not debug". *)
Definition frame_step (d : MatchHistogramData) (fmt : VS.Format) (fuel : nat)
  (src1 src2 src3 : VS.Frame) (plane : Z) (st : CurveData * VS.Frame)
  : option (CurveData * VS.Frame) :=
  let '(curve, dst) := st in
  let src3dst_stride := VS.p_stride (plane_at dst plane) in
  let processed :=
    if plane_selected d plane then
      match Create fuel curve
              (VS.p_data (plane_at src1 plane)) (VS.p_data (plane_at src2 plane))
              (VS.p_width (plane_at src1 plane)) (VS.p_height (plane_at src1 plane))
              (VS.p_stride (plane_at src1 plane)) (raw d) (smoothing_window d) with
      | Some curve' =>
          Some (curve',
                with_data dst plane
                  (Process curve' (VS.p_data (plane_at src3 plane))
                     (VS.p_data (plane_at dst plane))
                     (VS.p_width (plane_at src3 plane))
                     (VS.p_height (plane_at src3 plane)) src3dst_stride))
      | None => None
      end
    else Some (curve, dst) in
  match processed with
  | None => None
  | Some (curve, dst) =>
      if show d then
        let filled :=
          with_data dst plane
            (fillPlane (VS.p_data (plane_at dst plane))
               (Z.shiftr 256 (if plane =? 0 then 0 else VS.subSamplingW fmt))
               (Z.shiftr 256 (if plane =? 0 then 0 else VS.subSamplingH fmt))
               src3dst_stride (if plane =? 0 then 16 else 128)) in
        if plane_selected d plane then
          Some (curve,
                with_data filled 0
                  (Show curve (VS.p_data (plane_at filled 0))
                     (VS.p_stride (plane_at filled 0))
                     (rd [235; 160; 96] plane)))
        else Some (curve, filled)
      else Some (curve, dst)
  end.

(** The body of the plane loop of the branch [if (d->debug)]. *)
Definition debug_step (d : MatchHistogramData) (fuel : nat)
  (src1 src2 : VS.Frame) (plane : Z) (st : CurveData * VS.Frame)
  : option (CurveData * VS.Frame) :=
  let '(curve, dst) := st in
  let pl := plane_at dst plane in
  let dst :=
    with_data dst plane
      (fillPlane (VS.p_data pl) (VS.p_width pl) (VS.p_height pl) (VS.p_stride pl)
         (if plane =? 0 then 0 else 128)) in
  if negb (plane_selected d plane) then Some (curve, dst)
  else
    match Create fuel curve
            (VS.p_data (plane_at src1 plane)) (VS.p_data (plane_at src2 plane))
            (VS.p_width (plane_at src1 plane)) (VS.p_height (plane_at src1 plane))
            (VS.p_stride (plane_at src1 plane)) (raw d) (smoothing_window d) with
    | Some curve' =>
        Some (curve',
              with_data dst 0
                (Debug curve' (VS.p_data (plane_at dst 0)) (VS.p_stride (plane_at dst 0))))
    | None => None
    end.

(** [MatchHistogramGetFrame] once all frames are ready.  [curve] is the
    local object [CurveData curve], whose arrays are not initialised;
    [fresh] is what [newVideoFrame] and [newVideoFrame2] allocate.  The
    result is [None] when [Create] does not return, and when
    [d->vi.format] is null. *)
Definition MatchHistogramGetFrame (d : MatchHistogramData) (fuel : nat)
  (curve : CurveData) (fresh src1 src2 src3 : VS.Frame) : option VS.Frame :=
  match VS.format (vi d) with
  | None => None
  | Some fmt =>
      if debug d then
        option_map snd
          (plane_loop (debug_step d fuel src1 src2) (seqZ 0 (VS.numPlanes fmt))
             (curve, fresh))
      else
        let plane_src :=
          [ if plane_selected d 0 then None else Some src3;
            if plane_selected d 1 then None else Some src3;
            if plane_selected d 2 then None else Some src3 ] in
        let dst := newVideoFrame2 (VS.numPlanes fmt) plane_src [0; 1; 2] fresh in
        option_map snd
          (plane_loop (frame_step d fmt fuel src1 src2 src3)
             (seqZ 0 (VS.numPlanes fmt)) (curve, dst))
  end.

(** ** MatchHistogramCreate *)

(** The arguments of the filter ([VSMap *in]): the video information of the
    clips, and the optional integers, [None] when the key is absent.
    [clip1] and [clip2] are mandatory in the registration string. *)
Record Args : Type := mkArgs
  { arg_clip1 : VS.VideoInfo;
    arg_clip2 : VS.VideoInfo;
    arg_clip3 : option VS.VideoInfo;
    arg_raw : option Z;
    arg_show : option Z;
    arg_debug : option Z;
    arg_smoothing_window : option Z;
    arg_planes : option (list Z) }.

(** Modelled from VSHelper.h, which is not part of the repository:
    [int64ToIntS] converts an [int64_t] to [int] with saturation. *)
Definition int64ToIntS (i : Z) : Z :=
  if INT_MAX <? i then INT_MAX else if i <? INT_MIN then INT_MIN else i.

(** [!!vsapi->propGetInt(in, key, 0, &err); if (err) flag = false;] *)
Definition flag (o : option Z) : bool :=
  match o with Some v => negb (v =? 0) | None => false end.

Inductive CreateResult : Type :=
  | Error (msg : string)                (* setError, no filter *)
  | Filter (data : MatchHistogramData). (* createFilter with [data] *)

(** The loop over the elements of [planes]. *)
Fixpoint select_planes (n : Z) (planes : list Z) (process : list Z)
  : CreateResult + list Z :=
  match planes with
  | [] => inr process
  | v :: rest =>
      let o := int64ToIntS v in
      if (o <? 0) || (n <=? o)
      then inl (Error "MatchHistogram: plane index out of range")
      else if negb (rd process o =? 0)
      then inl (Error "MatchHistogram: plane specified twice")
      else select_planes n rest (wr process o 1)
  end.

Definition MatchHistogramCreate (a : Args) : CreateResult :=
  let d_raw := flag (arg_raw a) in
  let d_show := flag (arg_show a) in
  let d_debug := flag (arg_debug a) in
  let d_show := if d_debug then false else d_show in
  let d_smoothing_window :=
    match arg_smoothing_window a with Some v => int64ToIntS v | None => 8 end in
  if d_smoothing_window <? 0
  then Error "MatchHistogram: smoothing_window must not be negative."
  else
  let d_vi := arg_clip1 a in
  let vi2 := arg_clip2 a in
  let vi3 := match arg_clip3 a with Some c => c | None => arg_clip1 a end in
  if negb (bool_decide (VS.format d_vi = VS.format vi2))
     || negb (bool_decide (VS.format d_vi = VS.format vi3))
  then Error "MatchHistogram: the clips must have the same format."
  else
  if negb (VS.width d_vi =? VS.width vi2) || negb (VS.height d_vi =? VS.height vi2)
  then Error "MatchHistogram: the first two clips must have the same dimensions."
  else
  match VS.format d_vi with
  | None => Error "MatchHistogram: the clips must have constant format and dimensions."
  | Some fmt =>
  if (VS.width d_vi =? 0) || (VS.height d_vi =? 0)
     || (VS.width vi3 =? 0) || (VS.height vi3 =? 0)
  then Error "MatchHistogram: the clips must have constant format and dimensions."
  else
  if bool_decide (VS.colorFamily fmt = VS.cmRGB) || (8 <? VS.bitsPerSample fmt)
  then Error "MatchHistogram: the clips must have 8 bits per sample and must not be RGB."
  else
  let n := VS.numPlanes fmt in
  let m := match arg_planes a with Some l => Z.of_nat (length l) | None => -1 end in
  let d_process := if m <=? 0 then [1; 0; 0] else [0; 0; 0] in
  match select_planes n (default [] (arg_planes a)) d_process with
  | inl err => err
  | inr d_process =>
  if d_show && ((VS.width d_vi <? 256) || (VS.height d_vi <? 256)
                || (VS.width vi3 <? 256) || (VS.height vi3 <? 256))
  then Error "MatchHistogram: clips must be at least 256x256 pixels when show is True."
  else
  if d_debug then
    if 1 <? rd d_process 0 + rd d_process 1 + rd d_process 2
    then Error "MatchHistogram: only one plane can be processed at a time when debug is True."
    else Filter (mkData d_raw d_show d_debug d_smoothing_window d_process
                   (VS.mkVideoInfo (VS.format d_vi) 256 256))
  else Filter (mkData d_raw d_show d_debug d_smoothing_window d_process vi3)
  end
  end.

(** * The notions of the statements *)

(** The state of the object: three arrays of 256 entries. *)
Definition wf (s : CurveData) : Prop :=
  length (sum s) = 256%nat /\ length (div s) = 256%nat /\ length (curve s) = 256%nat.

Definition defined (s : CurveData) (i : Z) : Prop := rd (div s) i <> 0.

(** ** Rounding division *)

(** [q] is the integer nearest to the rational [x / y] (for [0 < y]), a tie
    being resolved away from zero. *)
Definition nearest_away (x y q : Z) : Prop :=
  2 * Z.abs (x - q * y) <= y /\
  (2 * Z.abs (x - q * y) = y -> Z.abs x < Z.abs (q * y)).

(** ** Planes, and what the accumulation pass is meant to compute *)

(** An 8-bit plane of [width] x [height] samples: the sample of row [h] and
    column [w] is the byte of [buf] at offset [h * stride + w]. *)
Definition plane_ok (buf : list Z) (width height stride : Z) : Prop :=
  forall h w, 0 <= h < height -> 0 <= w < width ->
    0 <= h * stride + w < Z.of_nat (length buf) /\
    0 <= rd buf (h * stride + w) < 256.

(** The (key, value) pairs of two planes, in the order of the two loops. *)
Definition row_pixels (ptr1 ptr2 : list Z) (off width : Z) : list (Z * Z) :=
  (fun w => (rd ptr1 (off + w), rd ptr2 (off + w))) <$> seqZ 0 width.

Definition plane_pixels (ptr1 ptr2 : list Z) (width height stride : Z)
  : list (Z * Z) :=
  mjoin ((fun h => row_pixels ptr1 ptr2 (h * stride) width) <$> seqZ 0 height).

(** The mathematical sum of the value samples co-located with key [v], and
    the number of these samples. *)
Definition exact_sum (px : list (Z * Z)) (v : Z) : Z :=
  foldr (fun kx acc => if fst kx =? v then snd kx + acc else acc) 0 px.

Definition exact_count (px : list (Z * Z)) (v : Z) : Z :=
  foldr (fun kx acc => if fst kx =? v then 1 + acc else acc) 0 px.

Definition tally_all (px : list (Z * Z)) (s : CurveData) : CurveData :=
  fold_left (fun s kx => tally (fst kx) (snd kx) s) px s.

Definition in_uint (s : CurveData) : Prop :=
  forall v, 0 <= v < 256 ->
    0 <= rd (sum s) v < 2 ^ 32 /\ 0 <= rd (div s) v < 2 ^ 32.


Definition pixels_ok (px : list (Z * Z)) : Prop :=
  Forall (fun kx => 0 <= fst kx < 256 /\ 0 <= snd kx < 256) px.

(** ** Invariants of the postprocessing *)

(** The defined indices have no gap between them. *)
Definition contiguous (s : CurveData) : Prop :=
  forall a b c, 0 <= a -> a < b -> b < c -> c < 256 ->
    defined s a -> defined s c -> defined s b.

(** At a defined index the curve is the rounded quotient of [sum] and [div]. *)
Definition consistent (s : CurveData) : Prop :=
  forall i, 0 <= i < 256 -> defined s i -> rd (curve s) i = raw_value s i.

Definition two_defined (s : CurveData) : Prop :=
  exists a b, 0 <= a < b /\ b < 256 /\ defined s a /\ defined s b.

Definition all_defined (s : CurveData) : Prop :=
  forall i, 0 <= i < 256 -> defined s i.

(** [s'] defines every index that [s] defines. *)
Definition extends (s s' : CurveData) : Prop :=
  forall j, 0 <= j < 256 -> defined s j -> defined s' j.

(** The number of undefined indices: the measure of the [while] loop. *)
Definition undefined_count (s : CurveData) : nat :=
  length (filter (fun i => rd (div s) i = 0) (seqZ 0 256)).

(** What the [while] loop maintains. *)
Definition good (s : CurveData) : Prop :=
  wf s /\ consistent s /\ contiguous s /\ two_defined s.

(** ** Notions used by the statements about [Create] *)

Definition sample (buf : list Z) (stride h w : Z) : Z := rd buf (h * stride + w).

(** The key plane holds at least two distinct pixel values. *)
Definition two_key_values (ptr1 : list Z) (width height stride : Z) : Prop :=
  exists h1 w1 h2 w2,
    (0 <= h1 < height /\ 0 <= w1 < width) /\
    (0 <= h2 < height /\ 0 <= w2 < width) /\
    sample ptr1 stride h1 w1 <> sample ptr1 stride h2 w2.

(** Every slot is defined and holds the rounded quotient of its
    accumulators (which accumulation, interpolation, extrapolation or
    smoothing have set). *)
Definition fully_defined (st : CurveData) : Prop :=
  forall i, 0 <= i < 256 ->
    rd (div st) i <> 0 /\ rd (curve st) i = raw_value st i /\
    0 <= rd (curve st) i < 256.

(** What "a smoothing window of 0 is a no-op" says of an object state [s0]
    reached before [if (!raw)], for which [flat] stays [-1]. *)
Definition window0_noop (s0 : CurveData) : Prop :=
  (forall fuel,
     option_map curve (postprocess fuel 0 s0)
     = option_map curve (interpolate fuel s0)) /\
  (forall fuel s1, interpolate fuel s0 = Some s1 -> smooth 0 s1 = s1) /\
  (forall fuel s1, postprocess fuel 0 s0 = Some s1 ->
     exists s2, postprocess fuel 0 s1 = Some s2 /\ curve s2 = curve s1) /\
  ((exists i, 0 <= i < 256 /\ defined s0 i) ->
   exists s1, postprocess 257 0 s0 = Some s1).

(** The sum of all value samples, and a key plane that is [k] everywhere. *)
Definition sample_total (px : list (Z * Z)) : Z :=
  foldr (fun kx acc => snd kx + acc) 0 px.

Definition constant_key (ptr1 : list Z) (width height stride k : Z) : Prop :=
  forall h w, 0 <= h < height -> 0 <= w < width -> sample ptr1 stride h w = k.

(** ** The picture that [Debug] draws *)

(** The curve holds bytes. *)
Definition curve_ok (s : CurveData) : Prop :=
  forall i, 0 <= i < 256 -> 0 <= rd (curve s) i < 256.

(** The pixel of column [x] and row [r] of a plane. *)
Definition pixel (ptr : list Z) (stride x r : Z) : Z := rd ptr (r * stride + x).

(** What [Debug] leaves at column [x], row [r], written from the code: the
    bar of grey level [curve[x]] from row 255 up to row [255 - curve[x]],
    its top pixel set to 255 when [curve[x] > 0], the rest untouched. *)
Definition debug_pixel (s : CurveData) (ptr : list Z) (stride x r : Z) : Z :=
  let c := rd (curve s) x in
  if (0 <? c) && (r =? 255 - c) then 255
  else if 255 - c <=? r then c
  else pixel ptr stride x r.

(** ** The configuration errors, as the specification lists them *)

Inductive ConfigError : Type :=
  | NegativeWindow | FormatMismatch | DimensionMismatch | NotConstant
  | UnsupportedFormat | PlaneOutOfRange | PlaneTwice | ShowTooSmall
  | DebugManyPlanes.

Definition message (k : ConfigError) : string :=
  match k with
  | NegativeWindow => "MatchHistogram: smoothing_window must not be negative."
  | FormatMismatch => "MatchHistogram: the clips must have the same format."
  | DimensionMismatch =>
      "MatchHistogram: the first two clips must have the same dimensions."
  | NotConstant =>
      "MatchHistogram: the clips must have constant format and dimensions."
  | UnsupportedFormat =>
      "MatchHistogram: the clips must have 8 bits per sample and must not be RGB."
  | PlaneOutOfRange => "MatchHistogram: plane index out of range"
  | PlaneTwice => "MatchHistogram: plane specified twice"
  | ShowTooSmall =>
      "MatchHistogram: clips must be at least 256x256 pixels when show is True."
  | DebugManyPlanes =>
      "MatchHistogram: only one plane can be processed at a time when debug is True."
  end.

Definition clip3_info (a : Args) : VS.VideoInfo :=
  default (arg_clip1 a) (arg_clip3 a).

Definition planes_of (a : Args) : list Z := default [] (arg_planes a).

Definition not_constant (v : VS.VideoInfo) : Prop :=
  VS.format v = None \/ VS.width v = 0 \/ VS.height v = 0.

Definition too_small (v : VS.VideoInfo) : Prop :=
  VS.width v < 256 \/ VS.height v < 256.

(** [error_holds show_active k a]: the configuration error [k] holds of the
    arguments [a]; [show_active] says when [show] counts as requested. *)
Definition error_holds (show_active : Args -> bool) (k : ConfigError) (a : Args)
  : Prop :=
  match k with
  | NegativeWindow =>
      exists v, arg_smoothing_window a = Some v /\ v < 0
  | FormatMismatch =>
      VS.format (arg_clip1 a) <> VS.format (arg_clip2 a) \/
      VS.format (arg_clip1 a) <> VS.format (clip3_info a)
  | DimensionMismatch =>
      VS.width (arg_clip1 a) <> VS.width (arg_clip2 a) \/
      VS.height (arg_clip1 a) <> VS.height (arg_clip2 a)
  | NotConstant =>
      not_constant (arg_clip1 a) \/ not_constant (arg_clip2 a) \/
      not_constant (clip3_info a)
  | UnsupportedFormat =>
      exists fmt, VS.format (arg_clip1 a) = Some fmt /\
        (VS.colorFamily fmt = VS.cmRGB \/ 8 < VS.bitsPerSample fmt)
  | PlaneOutOfRange =>
      exists fmt v, VS.format (arg_clip1 a) = Some fmt /\ v ∈ planes_of a /\
        ~ (0 <= v < VS.numPlanes fmt)
  | PlaneTwice => ~ NoDup (planes_of a)
  | ShowTooSmall =>
      show_active a = true /\
      (too_small (arg_clip1 a) \/ too_small (clip3_info a))
  | DebugManyPlanes =>
      flag (arg_debug a) = true /\ (1 < length (planes_of a))%nat
  end.

(** [show] as the claim words it ("show requested"), and as the code has
    it: [if (d.debug) d.show = false;]. *)
Definition show_requested (a : Args) : bool := flag (arg_show a).
Definition show_in_effect (a : Args) : bool :=
  flag (arg_show a) && negb (flag (arg_debug a)).

(** The formats that VapourSynth hands out have one to three planes. *)
Definition formats_ok (a : Args) : Prop :=
  forall fmt, VS.format (arg_clip1 a) = Some fmt -> 1 <= VS.numPlanes fmt <= 3.

(** [d.process[0] + d.process[1] + d.process[2]] *)
Definition selected_count (process : list Z) : Z :=
  rd process 0 + rd process 1 + rd process 2.

(** * Concrete inputs *)

Definition blank : CurveData :=
  {| sum := replicate 256 0; div := replicate 256 0; curve := replicate 256 0 |}.

(** A checker for [plane_ok], to evaluate it on concrete planes. *)
Definition plane_okb (buf : list Z) (width height stride : Z) : bool :=
  forallb (fun h =>
    forallb (fun w =>
      let off := h * stride + w in
      (0 <=? off) && (off <? Z.of_nat (length buf))
      && (0 <=? rd buf off) && (rd buf off <? 256))
      (seqZ 0 width))
    (seqZ 0 height).

(** A checker for [curve_ok]. *)
Definition curve_okb (s : CurveData) : bool :=
  forallb (fun i => (0 <=? rd (curve s) i) && (rd (curve s) i <? 256)) (seqZ 0 256).

(** The curve of the specification's scenario: [curve[100] = 50]. *)
Definition scenario_curve : CurveData := set_curve blank 100 50.

(** ** Large planes

    A plane of [n] samples that all hold [c], and the sizes of some frames:
    4096 x 2160 (DCI 4K), 7680 x 4320 (8K UHD), and planes of 2^32 pixels
    and more, whose pixel counts no longer fit the 32-bit counters. *)
Definition flat_plane (n c : Z) : list Z := replicate (Z.to_nat n) c.

Global Arguments flat_plane : simpl never.

(** 65536 rows of key 0 followed by one row of key 1, 65536 samples each. *)
Definition two_tone_key : list Z :=
  flat_plane (65536 * 65536) 0 ++ flat_plane 65536 1.

(** ** A concrete request to the filter: 256 x 256 frames of a YUV 4:4:4
    format, [planes = [0]], [show = true]. *)
Definition yuv444 : VS.Format := VS.mkFormat VS.cmYUV 8 3 0 0.

Definition black_frame : VS.Frame :=
  [ VS.mkPlane 256 256 256 (flat_plane (256 * 256) 0);
    VS.mkPlane 256 256 256 (flat_plane (256 * 256) 0);
    VS.mkPlane 256 256 256 (flat_plane (256 * 256) 0) ].

Definition show_request : MatchHistogramData :=
  {| raw := true; show := true; debug := false; smoothing_window := 8;
     process := [1; 0; 0];
     vi := VS.mkVideoInfo (Some yuv444) 256 256 |}.

(** A 2 x 2 frame of three planes, and the request [planes = [0]]. *)
Definition small_frame (a b c : list Z) : VS.Frame :=
  [ VS.mkPlane 2 2 2 a; VS.mkPlane 2 2 2 b; VS.mkPlane 2 2 2 c ].

Definition plain_request : MatchHistogramData :=
  {| raw := false; show := false; debug := false; smoothing_window := 8;
     process := [1; 0; 0];
     vi := VS.mkVideoInfo (Some yuv444) 2 2 |}.

Definition small_src1 : VS.Frame := small_frame [10; 20; 10; 30] [1; 2; 3; 4] [5; 6; 7; 8].
Definition small_src2 : VS.Frame := small_frame [50; 60; 70; 80] [4; 3; 2; 1] [8; 7; 6; 5].
Definition small_src3 : VS.Frame := small_frame [10; 20; 30; 10] [9; 9; 8; 8] [7; 7; 6; 6].
Definition small_fresh : VS.Frame := small_frame [0; 0; 0; 0] [0; 0; 0; 0] [0; 0; 0; 0].

(** The frame that the filter returns for [plain_request]. *)
Definition plain_output : VS.Frame :=
  Eval vm_compute in
    default [] (MatchHistogramGetFrame plain_request 257 blank small_fresh
                  small_src1 small_src2 small_src3).

(** A request with [show] and [debug] on 16 x 16 clips. *)
Definition tiny_clip : VS.VideoInfo := VS.mkVideoInfo (Some yuv444) 16 16.

Definition show_debug_args : Args :=
  {| arg_clip1 := tiny_clip; arg_clip2 := tiny_clip; arg_clip3 := None;
     arg_raw := None; arg_show := Some 1; arg_debug := Some 1;
     arg_smoothing_window := None; arg_planes := None |}.


(** * Notions of the further properties *)

(** The samples of a [width] x [height] plane among the offsets of its
    buffer: offset [o] is column [o mod stride] of row [o / stride]. *)
Definition in_rect (width height stride o : Z) : bool :=
  (o / stride <? height) && (o mod stride <? width).

(** ** The in-place [Process] of the two-clip version

    [unnamed/part_000] holds the version of the file that takes two clips;
    its [void Process(uint8_t *ptr, int width, int height, int stride)]
    rewrites the plane in place: [ptr[w] = curve[ptr[w]]]. *)
Module V1.

Definition Process (s : CurveData) (ptr : list Z) (width height stride : Z)
  : list Z :=
  snd (for_up 0 height
         (fun _ od =>
            (fst od + stride,
             for_up 0 width
               (fun w d => wr d (fst od + w) (rd (curve s) (rd d (fst od + w))))
               (snd od)))
         (0, ptr)).

End V1.

(** ** Concrete curves

    The curve that [Create] computes for the 2 x 2 planes of keys
    [10 20 / 10 30] and values [50 60 / 70 80], with the default smoothing
    window and without smoothing. *)
Definition small_curve : CurveData :=
  Eval vm_compute in
    default blank (Create 257 blank [10; 20; 10; 30] [50; 60; 70; 80] 2 2 2 false 8).

Definition small_curve0 : CurveData :=
  Eval vm_compute in
    default blank (Create 257 blank [10; 20; 10; 30] [50; 60; 70; 80] 2 2 2 false 0).

(** ** The values that the postprocessing writes

    [gap_value s i prev next] is what the gap interpolation stores at index
    [i] between the defined indices [prev] and [next]; [mirror_value s i m]
    is what the extrapolation stores at [i], mirrored around the end [m] of
    the defined span. *)
Definition gap_value (s : CurveData) (i prev next : Z) : Z :=
  clampZ (rd (curve s) prev
          + IntDiv ((i - prev) * (rd (curve s) next - rd (curve s) prev))
                   (next - prev)).

Definition mirror_value (s : CurveData) (i m : Z) : Z :=
  clampZ (rd (curve s) m * 2 - rd (curve s) (m * 2 - i)).

(** [s] holds at every index that [s0] defines what [s0] holds there. *)
Definition keeps (s0 s : CurveData) : Prop :=
  forall j, 0 <= j < 256 -> defined s0 j ->
    rd (curve s) j = rd (curve s0) j /\ rd (div s) j = rd (div s0) j /\
    rd (sum s) j = rd (sum s0) j.

(** The curve is the identity at every defined index. *)
Definition identity_on_defined (s : CurveData) : Prop :=
  forall j, 0 <= j < 256 -> defined s j -> rd (curve s) j = j.

(** The result of [Create] with [raw] set on the 2 x 2 planes above. *)
Definition small_raw : CurveData :=
  Eval vm_compute in
    default blank (Create 0 blank [10; 20; 10; 30] [50; 60; 70; 80] 2 2 2 true 8).

(** Between the indices [a] and [b], both defined, every defined index
    holds a value between [lo] and [hi]. *)
Definition bounded_on (a b lo hi : Z) (s : CurveData) : Prop :=
  defined s a /\ defined s b /\
  forall j, a <= j <= b -> defined s j -> lo <= rd (curve s) j <= hi.

(** A 2 x 2 plane with two pixel values, and the curve that matches it
    against itself without smoothing. *)
Definition self_curve : CurveData :=
  Eval vm_compute in
    default blank (Create 257 blank [10; 20; 10; 30] [10; 20; 10; 30] 2 2 2 false 0).

(** ** The window of the smoothing *)

(** [c[lo] + ... + c[hi - 1]] *)
Definition range_sum (c : list Z) (lo hi : Z) : Z :=
  for_up lo hi (fun j acc => acc + rd c j) 0.

(** The entries [window_lo w i .. window_hi w i - 1] of the curve are those
    that the smoothing with window [w] averages at index [i]: the indices
    [i + j] for [- w <= j < w] that fall into the array. *)
Definition window_lo (w i : Z) : Z := Z.max 0 (i - w).
Definition window_hi (w i : Z) : Z := Z.min 256 (i + w).

(** What the smoothing with window [w] makes of the identity curve: the
    rounded mean of the indices of the window, which is [i] where the
    window is not clipped. *)
Definition smoothed_identity (w i : Z) : Z :=
  if i <? w then (i + w) / 2
  else if i <=? 256 - w then i
  else (i - w + 256) / 2.

(** ** A request with two 640 x 480 clips and no optional argument, and the
    data of the filter that it creates. *)
Definition sd_clip : VS.VideoInfo := VS.mkVideoInfo (Some yuv444) 640 480.

Definition default_args : Args :=
  {| arg_clip1 := sd_clip; arg_clip2 := sd_clip; arg_clip3 := None;
     arg_raw := None; arg_show := None; arg_debug := None;
     arg_smoothing_window := None; arg_planes := None |}.

Definition default_data : MatchHistogramData :=
  {| raw := false; show := false; debug := false; smoothing_window := 8;
     process := [1; 0; 0]; vi := sd_clip |}.

(** ** Planes with new contents *)

(** The plane [pl] with the contents [data], and the plane [pl] after
    [fillPlane] over its whole width and height. *)
Definition set_data (pl : VS.Plane) (data : list Z) : VS.Plane :=
  VS.mkPlane (VS.p_width pl) (VS.p_height pl) (VS.p_stride pl) data.

Definition filled (pl : VS.Plane) (value : Z) : VS.Plane :=
  set_data pl
    (fillPlane (VS.p_data pl) (VS.p_width pl) (VS.p_height pl) (VS.p_stride pl)
       value).

(** The request [debug = true] with the default plane. *)
Definition debug_request : MatchHistogramData :=
  {| raw := false; show := false; debug := true; smoothing_window := 8;
     process := [1; 0; 0];
     vi := VS.mkVideoInfo (Some yuv444) 256 256 |}.

(** ** The counts that the divisions of [Create] can take

    Every defined index has a [div] entry between 1 and 2^32 - 2: as an
    [int] it is neither 0 nor -1. *)
Definition counts_ok (s : CurveData) : Prop :=
  forall i, 0 <= i < 256 -> defined s i -> 1 <= rd (div s) i <= 2 ^ 32 - 2.
(** * Basic facts *)

Lemma to_int_small z : - 2 ^ 31 <= z < 2 ^ 31 -> to_int z = z.
Proof. intros H. unfold to_int. rewrite Z.mod_small; lia. Qed.

Lemma to_int_range z : - 2 ^ 31 <= to_int z < 2 ^ 31.
Proof.
  unfold to_int. pose proof (Z.mod_pos_bound (z + 2 ^ 31) (2 ^ 32)). lia.
Qed.

Lemma wrap_uint_small z : 0 <= z < 2 ^ 32 -> wrap_uint z = z.
Proof. intros H. unfold wrap_uint. apply Z.mod_small; lia. Qed.

Lemma wrap_uint_range z : 0 <= wrap_uint z < 2 ^ 32.
Proof. unfold wrap_uint. apply Z.mod_pos_bound. lia. Qed.

Lemma wrap_uint_add_l a b : wrap_uint (wrap_uint a + b) = wrap_uint (a + b).
Proof. unfold wrap_uint. apply Zplus_mod_idemp_l. Qed.

Lemma to_uchar_small z : 0 <= z < 256 -> to_uchar z = z.
Proof. intros H. unfold to_uchar. apply Z.mod_small; lia. Qed.

Lemma to_uchar_range z : 0 <= to_uchar z < 256.
Proof. unfold to_uchar. apply Z.mod_pos_bound. lia. Qed.

Lemma clampZ_range v : 0 <= clampZ v < 256.
Proof. unfold clampZ. lia. Qed.

Lemma length_wr a i v : length (wr a i v) = length a.
Proof. unfold wr. apply length_insert. Qed.

Lemma rd_wr_eq a i v :
  0 <= i -> (Z.to_nat i < length a)%nat -> rd (wr a i v) i = v.
Proof.
  intros Hi Hl. unfold rd, wr.
  apply list_lookup_total_correct. by apply list_lookup_insert_eq.
Qed.

Lemma rd_wr_ne a i j v : 0 <= i -> 0 <= j -> i <> j -> rd (wr a i v) j = rd a j.
Proof.
  intros Hi Hj Hne. unfold rd, wr.
  rewrite !list_lookup_total_alt, list_lookup_insert_ne; [done | lia].
Qed.

Lemma rd_wr a i j v :
  0 <= i -> 0 <= j -> (Z.to_nat i < length a)%nat ->
  rd (wr a i v) j = if i =? j then v else rd a j.
Proof.
  intros Hi Hj Hl. destruct (Z.eqb_spec i j) as [->|Hne].
  - by apply rd_wr_eq.
  - by apply rd_wr_ne.
Qed.

Lemma rd_replicate n x i : 0 <= i < Z.of_nat n -> rd (replicate n x) i = x.
Proof.
  intros H. unfold rd. apply list_lookup_total_correct, lookup_replicate_2. lia.
Qed.

Lemma for_up_nil {St} lo hi (body : Z -> St -> St) s :
  hi <= lo -> for_up lo hi body s = s.
Proof. intros H. unfold for_up. by rewrite seqZ_nil by lia. Qed.

Lemma for_up_snoc {St} lo hi (body : Z -> St -> St) s :
  lo <= hi -> for_up lo (hi + 1) body s = body hi (for_up lo hi body s).
Proof.
  intros H. unfold for_up.
  replace (hi + 1 - lo) with ((hi - lo) + 1) by lia.
  rewrite seqZ_app by lia. rewrite fold_left_app.
  replace (lo + (hi - lo)) with hi by lia.
  rewrite seqZ_cons by lia. by rewrite seqZ_nil by lia.
Qed.

(** Loop invariants: [P i s] holds before the iteration with index [i]. *)
Lemma for_up_ind {St} (P : Z -> St -> Prop) lo hi (body : Z -> St -> St) s :
  lo <= hi -> P lo s ->
  (forall i s, lo <= i < hi -> P i s -> P (i + 1) (body i s)) ->
  P hi (for_up lo hi body s).
Proof.
  intros Hle H0 Hstep.
  assert (forall n : nat, lo + Z.of_nat n <= hi ->
            P (lo + Z.of_nat n) (for_up lo (lo + Z.of_nat n) body s)) as Hn.
  { induction n as [|n IH]; intros Hb.
    - rewrite Z.add_0_r, for_up_nil by lia. exact H0.
    - replace (lo + Z.of_nat (S n)) with (lo + Z.of_nat n + 1) by lia.
      rewrite for_up_snoc by lia. apply Hstep; [lia|]. apply IH. lia. }
  specialize (Hn (Z.to_nat (hi - lo))).
  replace (lo + Z.of_nat (Z.to_nat (hi - lo))) with hi in Hn by lia.
  apply Hn. lia.
Qed.

Lemma for_down_ind {St} (P : Z -> St -> Prop) hi lo (body : Z -> St -> St) s :
  lo <= hi -> P hi s ->
  (forall i s, lo < i <= hi -> P i s -> P (i - 1) (body i s)) ->
  P lo (for_down hi lo body s).
Proof.
  intros Hle H0 Hstep.
  assert (for_down hi lo body s
          = for_up 0 (hi - lo) (fun k s => body (hi - k) s) s) as ->
    by (unfold for_down, for_up; by rewrite Z.sub_0_r).
  replace lo with (hi - (hi - lo)) at 1 by lia.
  apply (for_up_ind (fun k s => P (hi - k) s)); [lia | by rewrite Z.sub_0_r |].
  intros k s' Hk HP. replace (hi - (k + 1)) with (hi - k - 1) by lia.
  apply Hstep; [lia | done].
Qed.

Lemma wf_set_sum s i v : wf s -> wf (set_sum s i v).
Proof. unfold wf, set_sum; simpl. by rewrite length_wr. Qed.
Lemma wf_set_div s i v : wf s -> wf (set_div s i v).
Proof. unfold wf, set_div; simpl. by rewrite length_wr. Qed.
Lemma wf_set_curve s i v : wf s -> wf (set_curve s i v).
Proof. unfold wf, set_curve; simpl. by rewrite length_wr. Qed.
Lemma wf_mark s i v : wf s -> wf (mark s i v).
Proof. intros H. unfold mark. by apply wf_set_div, wf_set_sum, wf_set_curve. Qed.

Lemma wf_blank : wf blank.
Proof. repeat split. Qed.

(** Reading the three arrays after [mark]. *)
Lemma mark_div s i v j :
  wf s -> 0 <= i < 256 -> 0 <= j ->
  rd (div (mark s i v)) j = if i =? j then 1 else rd (div s) j.
Proof.
  intros (_ & Hd & _) Hi Hj. unfold mark; simpl. apply rd_wr; lia.
Qed.

Lemma mark_curve s i v j :
  wf s -> 0 <= i < 256 -> 0 <= j ->
  rd (curve (mark s i v)) j = if i =? j then to_uchar v else rd (curve s) j.
Proof.
  intros (_ & _ & Hc) Hi Hj. unfold mark; simpl. apply rd_wr; lia.
Qed.

Lemma mark_sum s i v j :
  wf s -> 0 <= i < 256 -> 0 <= j ->
  rd (sum (mark s i v)) j = if i =? j then to_uchar v else rd (sum s) j.
Proof.
  intros (Hs & _ & Hc) Hi Hj. unfold mark; simpl.
  rewrite rd_wr by lia. rewrite rd_wr_eq by lia. done.
Qed.

(** * IntDiv *)

Lemma nearest_away_unique x y q1 q2 :
  0 < y -> nearest_away x y q1 -> nearest_away x y q2 -> q1 = q2.
Proof.
  unfold nearest_away. intros Hy [H1 T1] [H2 T2].
  assert (- y <= (q1 - q2) * y <= y) as Hd by lia.
  assert (-1 <= q1 - q2 <= 1) as Hd' by nia.
  destruct (Z.eq_dec q1 q2) as [|Hne]; [done|]. exfalso.
  assert (q1 = q2 + 1 \/ q2 = q1 + 1) as [-> | ->] by lia.
  - destruct (Z_lt_le_dec q2 0); nia.
  - destruct (Z_lt_le_dec q1 0); nia.
Qed.

(** The quotient that [IntDiv] computes when nothing overflows. *)
Lemma round_quot_nonneg x y :
  0 <= x -> 0 < y -> nearest_away x y ((x + y / 2) ÷ y).
Proof.
  intros Hx Hy. pose proof (Z.div_mod y 2 ltac:(lia)) as Hh.
  pose proof (Z.mod_pos_bound y 2 ltac:(lia)) as Hr.
  assert (0 <= y / 2) as Hh0 by (apply Z.div_pos; lia).
  rewrite Z.quot_div_nonneg by lia.
  pose proof (Z.div_mod (x + y / 2) y ltac:(lia)) as Hq.
  pose proof (Z.mod_pos_bound (x + y / 2) y ltac:(lia)) as Hm.
  assert (0 <= (x + y / 2) / y) as Hq0 by (apply Z.div_pos; lia).
  set (q := (x + y / 2) / y) in *. set (h := y / 2) in *.
  set (m := (x + h) mod y) in *.
  assert (x - q * y = m - h) as E by lia.
  unfold nearest_away. rewrite E. split; [lia|].
  intros Ht. assert (m - h = - h) as Em by lia.
  assert (q * y = x + h) as Eq by lia. rewrite Eq. lia.
Qed.

Lemma round_quot_neg x y :
  x < 0 -> 0 < y -> nearest_away x y ((x - y / 2) ÷ y).
Proof.
  intros Hx Hy.
  replace (x - y / 2) with (- (- x + y / 2)) by lia.
  rewrite Z.quot_opp_l by lia.
  destruct (round_quot_nonneg (- x) y) as [H1 H2]; [lia | lia |].
  set (q := (- x + y / 2) ÷ y) in *. unfold nearest_away.
  replace (x - - q * y) with (- (- x - q * y)) by lia.
  replace (- q * y) with (- (q * y)) by lia.
  rewrite !Z.abs_opp. rewrite Z.abs_opp in H2. done.
Qed.

Lemma round_quot_bound z y :
  0 < y -> Z.min z 0 <= z ÷ y <= Z.max z 0.
Proof.
  intros Hy. destruct (Z_lt_le_dec z 0) as [Hz|Hz].
  - replace z with (- - z) at 2 3 by lia. rewrite Z.quot_opp_l by lia.
    rewrite Z.quot_div_nonneg by lia.
    assert (0 <= - z / y) by (apply Z.div_pos; lia).
    assert (- z / y <= - z) by (apply Z.div_le_upper_bound; nia). lia.
  - rewrite Z.quot_div_nonneg by lia.
    assert (0 <= z / y) by (apply Z.div_pos; lia).
    assert (z / y <= z) by (apply Z.div_le_upper_bound; nia). lia.
Qed.

Lemma IntDiv_no_overflow x y :
  0 < y -> INT_MIN <= x - y / 2 -> x + y / 2 <= INT_MAX ->
  IntDiv x y = if x <? 0 then (x - y / 2) ÷ y else (x + y / 2) ÷ y.
Proof.
  unfold INT_MIN, INT_MAX. intros Hy Hlo Hhi. unfold IntDiv.
  assert (0 <= y / 2) as Hh0 by (apply Z.div_pos; lia).
  rewrite Z.shiftr_div_pow2 by lia. change (2 ^ 1) with 2.
  replace (y <? 0) with false by (symmetry; apply Z.ltb_ge; lia).
  rewrite xorb_false_r.
  destruct (Z.ltb_spec x 0) as [Hx|Hx].
  - rewrite (to_int_small (x - y / 2)) by lia.
    pose proof (round_quot_bound (x - y / 2) y Hy). apply to_int_small. lia.
  - rewrite (to_int_small (x + y / 2)) by lia.
    pose proof (round_quot_bound (x + y / 2) y Hy). apply to_int_small. lia.
Qed.

Lemma IntDiv_1 c : 0 <= c < 256 -> IntDiv c 1 = c.
Proof.
  intros H. rewrite IntDiv_no_overflow; unfold INT_MIN, INT_MAX;
    change (1 / 2) with 0; try lia.
  destruct (Z.ltb_spec c 0); [lia|]. rewrite Z.add_0_r. apply Z.quot_1_r.
Qed.

(** * The scenario of the specification *)

Example scenario_raw :
  option_map curve (Create 0 blank [10;10;10;10] [50;60;70;80] 2 2 2 true 8)
  = Some (replicate 10 0 ++ [65] ++ replicate 245 0).
Proof. vm_compute. reflexivity. Qed.

Example scenario_uniform :
  option_map curve (Create 0 blank [10;10;10;10] [50;60;70;80] 2 2 2 false 8)
  = Some (replicate 256 65).
Proof. vm_compute. reflexivity. Qed.


(** * The accumulation pass *)

Lemma fold_left_fmap {A B C} (f : A -> C -> A) (g : B -> C) (l : list B) (a : A) :
  fold_left f (g <$> l) a = fold_left (fun a x => f a (g x)) l a.
Proof. revert a. induction l as [|x l IH]; intros a; simpl; [done | apply IH]. Qed.

Lemma populate_row_pixels ptr1 ptr2 off width s :
  populate_row ptr1 ptr2 off width s
  = tally_all (row_pixels ptr1 ptr2 off width) s.
Proof.
  unfold populate_row, tally_all, row_pixels, for_up.
  rewrite fold_left_fmap, Z.sub_0_r. done.
Qed.

Lemma tally_all_app px1 px2 s :
  tally_all (px1 ++ px2) s = tally_all px2 (tally_all px1 s).
Proof. unfold tally_all. apply fold_left_app. Qed.

Lemma plane_pixels_succ ptr1 ptr2 width h stride :
  0 <= h ->
  plane_pixels ptr1 ptr2 width (h + 1) stride
  = plane_pixels ptr1 ptr2 width h stride ++ row_pixels ptr1 ptr2 (h * stride) width.
Proof.
  intros Hh. unfold plane_pixels.
  rewrite seqZ_app by lia. rewrite fmap_app, join_app.
  rewrite (seqZ_cons (0 + h) 1) by lia. rewrite (seqZ_nil _ (Z.pred 1)) by lia.
  simpl. by rewrite app_nil_r.
Qed.

Lemma populate_pixels ptr1 ptr2 width height stride s :
  snd (populate ptr1 ptr2 width height stride s)
  = tally_all (plane_pixels ptr1 ptr2 width height stride) s.
Proof.
  unfold populate. destruct (Z_le_gt_dec height 0) as [Hh|Hh].
  { rewrite for_up_nil by lia. unfold plane_pixels. by rewrite seqZ_nil by lia. }
  apply (for_up_ind (fun h os =>
           fst os = h * stride /\
           snd os = tally_all (plane_pixels ptr1 ptr2 width h stride) s)); [lia | done |].
  intros h [off s'] Hr [Hoff Hs]; simpl in *. split; [lia|].
  rewrite plane_pixels_succ, tally_all_app by lia.
  rewrite populate_row_pixels. by rewrite Hs, Hoff.
Qed.

Lemma wf_tally k x s : wf s -> wf (tally k x s).
Proof. intros H. unfold tally. by apply wf_set_div, wf_set_sum. Qed.

Lemma tally_sum k x s v :
  wf s -> 0 <= k < 256 -> 0 <= v ->
  rd (sum (tally k x s)) v
  = if k =? v then wrap_uint (rd (sum s) k + x) else rd (sum s) v.
Proof. intros (Hs & _ & _) Hk Hv. unfold tally; simpl. apply rd_wr; lia. Qed.

Lemma tally_div k x s v :
  wf s -> 0 <= k < 256 -> 0 <= v ->
  rd (div (tally k x s)) v
  = if k =? v then wrap_uint (rd (div s) k + 1) else rd (div s) v.
Proof. intros (_ & Hd & _) Hk Hv. unfold tally; simpl. apply rd_wr; lia. Qed.

Lemma tally_curve k x s : curve (tally k x s) = curve s.
Proof. done. Qed.

Lemma tally_all_spec px : forall s,
  wf s -> in_uint s -> pixels_ok px ->
  wf (tally_all px s) /\ curve (tally_all px s) = curve s /\
  forall v, 0 <= v < 256 ->
    rd (sum (tally_all px s)) v = wrap_uint (rd (sum s) v + exact_sum px v) /\
    rd (div (tally_all px s)) v = wrap_uint (rd (div s) v + exact_count px v).
Proof.
  induction px as [|[k x] px IH]; intros s Hwf Hin Hpx.
  - simpl. split; [done|]. split; [done|]. intros v Hv.
    rewrite !Z.add_0_r. destruct (Hin v Hv). by rewrite !wrap_uint_small.
  - apply Forall_cons in Hpx as [[Hk Hx] Hpx]. simpl in Hk, Hx.
    change (tally_all ((k, x) :: px) s) with (tally_all px (tally k x s)).
    destruct (IH (tally k x s)) as (Hwf' & Hc & Hv'); [by apply wf_tally | | done |].
    { intros v Hv. rewrite tally_sum, tally_div by (done || lia).
      destruct (Hin v Hv). destruct (k =? v); auto using wrap_uint_range. }
    split; [done|]. split; [by rewrite Hc|]. intros v Hv.
    destruct (Hv' v Hv) as [-> ->]. rewrite tally_sum, tally_div by (done || lia).
    simpl. destruct (Z.eqb_spec k v) as [->|Hne].
    + rewrite !wrap_uint_add_l. split; f_equal; lia.
    + done.
Qed.

Lemma exact_sum_app px1 px2 v :
  exact_sum (px1 ++ px2) v = exact_sum px1 v + exact_sum px2 v.
Proof.
  induction px1 as [|kx px1 IH]; simpl; [done|]. rewrite IH.
  destruct (fst kx =? v); lia.
Qed.

Lemma exact_count_app px1 px2 v :
  exact_count (px1 ++ px2) v = exact_count px1 v + exact_count px2 v.
Proof.
  induction px1 as [|kx px1 IH]; simpl; [done|]. rewrite IH.
  destruct (fst kx =? v); lia.
Qed.

Lemma exact_count_nonneg px v : 0 <= exact_count px v <= Z.of_nat (length px).
Proof.
  induction px as [|kx px IH]; simpl; [lia|]. destruct (fst kx =? v); lia.
Qed.

Lemma exact_count_pos px v : (exists x, (v, x) ∈ px) -> 0 < exact_count px v.
Proof.
  intros [x Hin]. induction px as [|kx px IH]; [by apply elem_of_nil in Hin|].
  simpl. pose proof (exact_count_nonneg px v).
  apply elem_of_cons in Hin as [<-|Hin]; simpl.
  - rewrite Z.eqb_refl. lia.
  - specialize (IH Hin). destruct (fst kx =? v); lia.
Qed.

Lemma exact_sum_bound px v :
  pixels_ok px -> 0 <= exact_sum px v <= 255 * exact_count px v.
Proof.
  induction 1 as [|kx px [_ Hx] _ IH]; simpl; [lia|].
  destruct (fst kx =? v); lia.
Qed.

Lemma plane_pixels_ok ptr1 ptr2 width height stride :
  plane_ok ptr1 width height stride -> plane_ok ptr2 width height stride ->
  pixels_ok (plane_pixels ptr1 ptr2 width height stride).
Proof.
  intros H1 H2. apply Forall_forall. intros kx Hin.
  unfold plane_pixels in Hin. apply list_elem_of_join in Hin as (row & Hkx & Hrow).
  apply list_elem_of_fmap in Hrow as (h & -> & Hh). apply elem_of_seqZ in Hh.
  unfold row_pixels in Hkx. apply list_elem_of_fmap in Hkx as (w & -> & Hw).
  apply elem_of_seqZ in Hw. simpl.
  destruct (H1 h w) as [_ ?]; [lia | lia |].
  destruct (H2 h w) as [_ ?]; [lia | lia |]. done.
Qed.

Lemma plane_pixels_elem ptr1 ptr2 width height stride h w :
  0 <= h < height -> 0 <= w < width ->
  (rd ptr1 (h * stride + w), rd ptr2 (h * stride + w))
  ∈ plane_pixels ptr1 ptr2 width height stride.
Proof.
  intros Hh Hw. unfold plane_pixels. apply list_elem_of_join.
  exists (row_pixels ptr1 ptr2 (h * stride) width). split.
  - unfold row_pixels. apply list_elem_of_fmap. exists w. split; [done|].
    apply elem_of_seqZ. lia.
  - apply list_elem_of_fmap. exists h. split; [done|]. apply elem_of_seqZ. lia.
Qed.

Lemma length_row_pixels ptr1 ptr2 off width :
  0 <= width -> Z.of_nat (length (row_pixels ptr1 ptr2 off width)) = width.
Proof. intros H. unfold row_pixels. rewrite length_fmap, length_seqZ. lia. Qed.

Lemma length_plane_pixels ptr1 ptr2 width height stride :
  0 <= width -> 0 <= height ->
  Z.of_nat (length (plane_pixels ptr1 ptr2 width height stride)) = width * height.
Proof.
  intros Hw Hh.
  assert (forall n : nat,
            Z.of_nat (length (plane_pixels ptr1 ptr2 width (Z.of_nat n) stride))
            = width * Z.of_nat n) as Hn.
  { induction n as [|n IH]; [simpl; lia|].
    replace (Z.of_nat (S n)) with (Z.of_nat n + 1) by lia.
    rewrite plane_pixels_succ by lia. rewrite length_app, Nat2Z.inj_add, IH.
    rewrite length_row_pixels by lia. lia. }
  specialize (Hn (Z.to_nat height)). by rewrite Z2Nat.id in Hn by lia.
Qed.

Lemma clear_data_spec s :
  wf s ->
  wf (clear_data s) /\ curve (clear_data s) = curve s /\
  forall v, 0 <= v < 256 ->
    rd (sum (clear_data s)) v = 0 /\ rd (div (clear_data s)) v = 0.
Proof.
  intros Hwf. unfold clear_data.
  apply (for_up_ind (fun i s' =>
    wf s' /\ curve s' = curve s /\
    forall v, 0 <= v < i -> rd (sum s') v = 0 /\ rd (div s') v = 0)); [lia | | ].
  - split; [done|]. split; [done|]. intros v Hv. lia.
  - intros i s' Hi (Hwf' & Hc & Hz). split; [by apply wf_set_div, wf_set_sum|].
    split; [done|]. intros v Hv. simpl. destruct Hwf' as (Hs & Hd & _).
    rewrite !rd_wr by lia. destruct (Z.eqb_spec i v); [done|]. apply Hz. lia.
Qed.

Lemma raw_value_ext s s' i :
  sum s' = sum s -> div s' = div s -> raw_value s' i = raw_value s i.
Proof. intros Hs Hd. unfold raw_value. by rewrite Hs, Hd. Qed.

Lemma raw_curve_spec s :
  wf s ->
  wf (raw_curve s) /\ sum (raw_curve s) = sum s /\ div (raw_curve s) = div s /\
  forall v, 0 <= v < 256 ->
    rd (curve (raw_curve s)) v = if rd (div s) v =? 0 then 0 else raw_value s v.
Proof.
  intros Hwf. unfold raw_curve.
  apply (for_up_ind (fun i s' =>
    wf s' /\ sum s' = sum s /\ div s' = div s /\
    forall v, 0 <= v < i ->
      rd (curve s') v = if rd (div s) v =? 0 then 0 else raw_value s v)); [lia | | ].
  - repeat (split; [done|]). intros v Hv. lia.
  - intros i s' Hi (Hwf' & Hs & Hd & Hc).
    assert (forall x, wf (set_curve s' i x) /\ sum (set_curve s' i x) = sum s /\
                      div (set_curve s' i x) = div s) as Hx
      by (intros x; split; [by apply wf_set_curve | done]).
    rewrite (raw_value_ext s s') by done. rewrite Hd.
    destruct Hwf' as (_ & _ & Hlc).
    destruct (Z.eqb_spec (rd (div s) i) 0) as [Hz|Hz]; simpl;
      (destruct (Hx 0) as (? & ? & ?); destruct (Hx (raw_value s i)) as (? & ? & ?);
       repeat (split; [done|]); intros v Hv; rewrite rd_wr by lia;
       destruct (Z.eqb_spec i v) as [<-|Hne];
       [ destruct (Z.eqb_spec (rd (div s) i) 0); done | apply Hc; lia ]).
Qed.

Lemma final_curve_spec s :
  wf s ->
  wf (final_curve s) /\ sum (final_curve s) = sum s /\
  div (final_curve s) = div s /\
  forall v, 0 <= v < 256 -> rd (curve (final_curve s)) v = raw_value s v.
Proof.
  intros Hwf. unfold final_curve.
  apply (for_up_ind (fun i s' =>
    wf s' /\ sum s' = sum s /\ div s' = div s /\
    forall v, 0 <= v < i -> rd (curve s') v = raw_value s v)); [lia | | ].
  - repeat (split; [done|]). intros v Hv. lia.
  - intros i s' Hi (Hwf' & Hs & Hd & Hc).
    split; [by apply wf_set_curve|]. split; [done|]. split; [done|].
    intros v Hv. simpl. destruct Hwf' as (_ & _ & Hlc). rewrite rd_wr by lia.
    destruct (Z.eqb_spec i v) as [<-|Hne]; [by apply raw_value_ext | apply Hc; lia].
Qed.

Lemma uniform_spec flat s :
  wf s -> 0 <= flat < 256 ->
  wf (uniform flat s) /\ sum (uniform flat s) = sum s /\
  div (uniform flat s) = div s /\
  forall v, 0 <= v < 256 -> rd (curve (uniform flat s)) v = rd (curve s) flat.
Proof.
  intros Hwf Hf. unfold uniform.
  cut (let s' := for_up 0 256 (fun i s0 => set_curve s0 i (rd (curve s0) flat)) s in
       wf s' /\ sum s' = sum s /\ div s' = div s /\
       forall v, 0 <= v < 256 ->
         rd (curve s') v = if v <? 256 then rd (curve s) flat else rd (curve s) v).
  { cbv zeta. intros (? & ? & ? & Hc). repeat (split; [done|]). intros v Hv.
    rewrite Hc by done. destruct (Z.ltb_spec v 256); [done | lia]. }
  apply (for_up_ind (fun i s' =>
    wf s' /\ sum s' = sum s /\ div s' = div s /\
    forall v, 0 <= v < 256 ->
      rd (curve s') v = if v <? i then rd (curve s) flat else rd (curve s) v));
    [lia | | ].
  - repeat (split; [done|]). intros v Hv. destruct (Z.ltb_spec v 0); [lia | done].
  - intros i s' Hi (Hwf' & Hs & Hd & Hc).
    split; [by apply wf_set_curve|]. split; [done|]. split; [done|].
    intros v Hv. simpl. destruct Hwf' as (_ & _ & Hlc). rewrite rd_wr by lia.
    assert (rd (curve s') flat = rd (curve s) flat) as Hfl.
    { rewrite Hc by done. by destruct (flat <? i). }
    destruct (Z.eqb_spec i v) as [<-|Hne].
    + rewrite Hfl. destruct (Z.ltb_spec i (i + 1)); [done | lia].
    + rewrite Hc by done.
      destruct (Z.ltb_spec v i), (Z.ltb_spec v (i + 1)); done || lia.
Qed.

(** The state that [Create] has reached before [if (!raw)]. *)
Lemma accumulate_spec this ptr1 ptr2 width height stride :
  wf this ->
  plane_ok ptr1 width height stride -> plane_ok ptr2 width height stride ->
  let px := plane_pixels ptr1 ptr2 width height stride in
  let s := accumulate this ptr1 ptr2 width height stride in
  wf s /\
  forall v, 0 <= v < 256 ->
    rd (sum s) v = wrap_uint (exact_sum px v) /\
    rd (div s) v = wrap_uint (exact_count px v) /\
    rd (curve s) v = if rd (div s) v =? 0 then 0 else raw_value s v.
Proof.
  intros Hwf H1 H2 px s.
  destruct (clear_data_spec this Hwf) as (Hwf0 & _ & Hz).
  assert (in_uint (clear_data this)) as Hin.
  { intros v Hv. destruct (Hz v Hv) as [-> ->]. lia. }
  pose proof (plane_pixels_ok _ _ _ _ _ H1 H2) as Hpx.
  destruct (tally_all_spec _ _ Hwf0 Hin Hpx) as (Hwf1 & _ & Ht).
  fold px in Ht.
  assert (s = raw_curve (tally_all px (clear_data this))) as Es
    by (subst s px; unfold accumulate, accumulation_pass; by rewrite populate_pixels).
  destruct (raw_curve_spec (tally_all px (clear_data this)) Hwf1)
    as (Hwf2 & Hs & Hd & Hc).
  rewrite <- Es in Hwf2, Hs, Hd, Hc. clearbody s px.
  split; [done|]. intros v Hv.
  destruct (Ht v Hv) as [Hsv Hdv]. destruct (Hz v Hv) as [Hz1 Hz2].
  rewrite Hz1 in Hsv. rewrite Hz2 in Hdv. rewrite Z.add_0_l in Hsv, Hdv.
  rewrite Hs, Hd. split; [done|]. split; [done|]. rewrite (Hc v Hv).
  destruct (rd (div (tally_all px (clear_data this))) v =? 0); [done|].
  symmetry. by apply raw_value_ext.
Qed.

(** * The searches *)

Lemma scan_up_spec d n : forall p,
  0 <= p ->
  let r := scan_up d p n in
  (r = -1 /\ forall q, p <= q < p + Z.of_nat n -> rd d q = 0) \/
  (p <= r < p + Z.of_nat n /\ rd d r <> 0 /\ forall q, p <= q < r -> rd d q = 0).
Proof.
  induction n as [|n IH]; intros p Hp; simpl.
  - left. split; [done|]. intros q Hq. lia.
  - destruct (Z.eqb_spec (rd d p) 0) as [Hz|Hz]; simpl.
    + destruct (IH (p + 1) ltac:(lia)) as [[Hr Hall]|(Hr & Hd & Hall)].
      * left. split; [done|]. intros q Hq.
        destruct (Z.eq_dec q p) as [->|]; [done | apply Hall; lia].
      * right. split; [lia|]. split; [done|]. intros q Hq.
        destruct (Z.eq_dec q p) as [->|]; [done | apply Hall; lia].
    + right. split; [lia|]. split; [done|]. intros q Hq. lia.
Qed.

Lemma scan_down_spec d n : forall p,
  Z.of_nat n <= p + 1 ->
  let r := scan_down d p n in
  (r = -1 /\ forall q, p - Z.of_nat n < q <= p -> rd d q = 0) \/
  (p - Z.of_nat n < r <= p /\ rd d r <> 0 /\ forall q, r < q <= p -> rd d q = 0).
Proof.
  induction n as [|n IH]; intros p Hp; simpl.
  - left. split; [done|]. intros q Hq. lia.
  - destruct (Z.eqb_spec (rd d p) 0) as [Hz|Hz]; simpl.
    + destruct (IH (p - 1) ltac:(lia)) as [[Hr Hall]|(Hr & Hd & Hall)].
      * left. split; [done|]. intros q Hq.
        destruct (Z.eq_dec q p) as [->|]; [done | apply Hall; lia].
      * right. split; [lia|]. split; [done|]. intros q Hq.
        destruct (Z.eq_dec q p) as [->|]; [done | apply Hall; lia].
    + right. split; [lia|]. split; [done|]. intros q Hq. lia.
Qed.

Lemma flat_loop_set d idx f :
  f <> -1 ->
  (flat_loop d idx f = f /\ Forall (fun i => rd d i = 0) idx) \/
  (flat_loop d idx f = -1 /\ Exists (fun i => rd d i <> 0) idx).
Proof.
  intros Hf. induction idx as [|i idx IH]; simpl.
  - left. done.
  - destruct (Z.eqb_spec (rd d i) 0) as [Hz|Hz]; simpl.
    + destruct IH as [[? ?]|[? ?]]; [left | right]; split; auto.
    + destruct (Z.eqb_spec f (-1)); [done|]. right. split; auto.
Qed.

Lemma flat_loop_unset d idx :
  Forall (fun i => i <> -1) idx ->
  let r := flat_loop d idx (-1) in
  (r = -1 /\ Forall (fun i => rd d i = 0) idx) \/
  (r <> -1 /\ exists l1 l2, idx = l1 ++ r :: l2 /\ rd d r <> 0 /\
     Forall (fun i => rd d i = 0) l1 /\ Forall (fun i => rd d i = 0) l2) \/
  (r = -1 /\ exists l1 a l2, idx = l1 ++ a :: l2 /\ rd d a <> 0 /\
     Exists (fun i => rd d i <> 0) l2).
Proof.
  induction idx as [|i idx IH]; intros Hidx; simpl.
  - left. done.
  - apply Forall_cons in Hidx as [Hi Hidx]. specialize (IH Hidx). simpl in IH.
    destruct (Z.eqb_spec (rd d i) 0) as [Hz|Hz]; simpl.
    + destruct IH as [[? ?]|[(? & l1 & l2 & E & ? & ? & ?)|(? & l1 & a & l2 & E & ? & ?)]].
      * left. auto.
      * right; left. split; [done|]. exists (i :: l1), l2.
        split; [simpl; by rewrite <- E | auto].
      * right; right. split; [done|]. exists (i :: l1), a, l2.
        split; [simpl; by rewrite <- E | auto].
    + destruct (flat_loop_set d idx i Hi) as [[-> ?]|[-> ?]].
      * right; left. split; [done|]. exists [], idx. auto.
      * right; right. split; [done|]. exists [], i, idx. auto.
Qed.

Lemma elem_of_middle (l1 l2 : list Z) x : x ∈ l1 ++ x :: l2.
Proof. apply elem_of_app. right. apply elem_of_cons. by left. Qed.

Lemma elem_of_after (l1 l2 : list Z) a x : x ∈ l2 -> x ∈ l1 ++ a :: l2.
Proof. intros H. apply elem_of_app. right. apply elem_of_cons. by right. Qed.

Lemma seqZ_no_minus_one n : Forall (fun i => i <> -1) (seqZ 0 n).
Proof. apply Forall_seqZ. lia. Qed.

(** [flat] stays [-1] when two indices are defined. *)
Lemma find_flat_two s a b :
  0 <= a < b -> b < 256 -> defined s a -> defined s b -> find_flat s = -1.
Proof.
  unfold defined, find_flat. intros Hab Hb Ha Hdb.
  assert (a ∈ seqZ 0 256) as Hina by (apply elem_of_seqZ; lia).
  assert (b ∈ seqZ 0 256) as Hinb by (apply elem_of_seqZ; lia).
  destruct (flat_loop_unset (div s) (seqZ 0 256) (seqZ_no_minus_one _))
    as [[_ Hall]|[(_ & l1 & l2 & E & _ & H1 & H2)|[? _]]]; [| |done].
  - rewrite Forall_forall in Hall. by specialize (Hall a Hina).
  - exfalso. rewrite E in Hina, Hinb. rewrite Forall_forall in H1, H2.
    set (r := flat_loop (div s) (seqZ 0 256) (-1)) in *.
    assert (forall x, x ∈ l1 ++ r :: l2 -> rd (div s) x <> 0 -> x = r) as Hx.
    { intros x Hin Hd. apply elem_of_app in Hin as [Hin|Hin]; [by apply H1 in Hin|].
      apply elem_of_cons in Hin as [?|Hin]; [done | by apply H2 in Hin]. }
    pose proof (Hx a Hina Ha). pose proof (Hx b Hinb Hdb). lia.
Qed.

(** [flat] is the only defined index when there is exactly one. *)
Lemma find_flat_one s k :
  0 <= k < 256 -> defined s k ->
  (forall i, 0 <= i < 256 -> i <> k -> rd (div s) i = 0) ->
  find_flat s = k.
Proof.
  unfold defined, find_flat. intros Hk Hd Hother.
  assert (k ∈ seqZ 0 256) as Hin by (apply elem_of_seqZ; lia).
  pose proof (NoDup_seqZ 0 256) as Hnd.
  destruct (flat_loop_unset (div s) (seqZ 0 256) (seqZ_no_minus_one _))
    as [[_ Hall]|[(_ & l1 & l2 & E & Hr & _ & _)|(_ & l1 & a & l2 & E & Ha & Hex)]].
  - rewrite Forall_forall in Hall. by specialize (Hall k Hin).
  - set (r := flat_loop (div s) (seqZ 0 256) (-1)) in *.
    assert (r ∈ seqZ 0 256) as Hrin by (rewrite E; apply elem_of_middle).
    apply elem_of_seqZ in Hrin. destruct (Z.eq_dec r k) as [|Hne]; [done|].
    exfalso. apply Hr, Hother; [lia | done].
  - exfalso. apply Exists_exists in Hex as (b & Hb & Hdb).
    rewrite E in Hnd. apply NoDup_app in Hnd as (_ & _ & Hnd).
    apply NoDup_cons in Hnd as [Hnotin _].
    assert (a ∈ seqZ 0 256) as Hain by (rewrite E; apply elem_of_middle).
    assert (b ∈ seqZ 0 256) as Hbin by (rewrite E; by apply elem_of_after).
    apply elem_of_seqZ in Hain, Hbin.
    assert (a = k) as -> by (destruct (Z.eq_dec a k); [done | exfalso; apply Ha, Hother; lia]).
    assert (b = k) as -> by (destruct (Z.eq_dec b k); [done | exfalso; apply Hdb, Hother; lia]).
    done.
Qed.

(** When [flat] is [-1], no index is defined or at least two are. *)
Lemma find_flat_none s :
  find_flat s = -1 ->
  (forall i, 0 <= i < 256 -> rd (div s) i = 0) \/
  (exists a b, 0 <= a < b /\ b < 256 /\ defined s a /\ defined s b).
Proof.
  unfold defined, find_flat. intros Hf.
  pose proof (NoDup_seqZ 0 256) as Hnd.
  destruct (flat_loop_unset (div s) (seqZ 0 256) (seqZ_no_minus_one _))
    as [[_ Hall]|[(Hr & _)|(_ & l1 & a & l2 & E & Ha & Hex)]]; [| done |].
  - left. intros i Hi. rewrite Forall_forall in Hall. apply Hall, elem_of_seqZ. lia.
  - right. apply Exists_exists in Hex as (b & Hb & Hdb).
    rewrite E in Hnd. apply NoDup_app in Hnd as (_ & _ & Hnd).
    apply NoDup_cons in Hnd as [Hnotin _].
    assert (a ∈ seqZ 0 256) as Hain by (rewrite E; apply elem_of_middle).
    assert (b ∈ seqZ 0 256) as Hbin by (rewrite E; by apply elem_of_after).
    apply elem_of_seqZ in Hain, Hbin.
    assert (a <> b) as Hne by (intros ->; done).
    destruct (Z_lt_le_dec a b); [exists a, b | exists b, a]; repeat split; auto; lia.
Qed.

(** A value other than [-1] is the index of the only defined entry. *)
Lemma find_flat_some s :
  find_flat s <> -1 ->
  0 <= find_flat s < 256 /\ defined s (find_flat s) /\
  forall i, 0 <= i < 256 -> i <> find_flat s -> rd (div s) i = 0.
Proof.
  unfold defined, find_flat. intros Hf.
  pose proof (NoDup_seqZ 0 256) as Hnd.
  destruct (flat_loop_unset (div s) (seqZ 0 256) (seqZ_no_minus_one _))
    as [[? _]|[(_ & l1 & l2 & E & Hr & H1 & H2)|(? & _)]]; [done | | done].
  set (r := flat_loop (div s) (seqZ 0 256) (-1)) in *.
  assert (r ∈ seqZ 0 256) as Hrin by (rewrite E; apply elem_of_middle).
  apply elem_of_seqZ in Hrin. split; [lia|]. split; [done|].
  intros i Hi Hne. assert (i ∈ seqZ 0 256) as Hin by (apply elem_of_seqZ; lia).
  rewrite E in Hin. rewrite Forall_forall in H1, H2.
  apply elem_of_app in Hin as [Hin|Hin]; [by apply H1|].
  apply elem_of_cons in Hin as [?|Hin]; [done | by apply H2].
Qed.

(** * Gap interpolation and boundary extrapolation *)

Lemma raw_value_mark s i v :
  wf s -> 0 <= i < 256 -> raw_value (mark s i v) i = to_uchar v.
Proof.
  intros Hwf Hi. unfold raw_value.
  rewrite mark_sum, mark_div by (done || lia). rewrite Z.eqb_refl.
  pose proof (to_uchar_range v).
  rewrite !to_int_small by lia. rewrite IntDiv_1 by lia. by apply to_uchar_small.
Qed.

Lemma mark_other s i v j :
  wf s -> 0 <= i < 256 -> 0 <= j -> i <> j ->
  rd (div (mark s i v)) j = rd (div s) j /\
  rd (curve (mark s i v)) j = rd (curve s) j /\
  raw_value (mark s i v) j = raw_value s j.
Proof.
  intros Hwf Hi Hj Hne. unfold raw_value.
  rewrite mark_div, mark_curve, mark_sum by (done || lia).
  destruct (Z.eqb_spec i j); done.
Qed.

Lemma mark_defined s i v j :
  wf s -> 0 <= i < 256 -> 0 <= j ->
  defined (mark s i v) j <-> (j = i \/ defined s j).
Proof.
  intros Hwf Hi Hj. unfold defined. rewrite mark_div by (done || lia).
  destruct (Z.eqb_spec i j); [split; [auto | lia] | split; [auto | intros [?|?]; done || lia]].
Qed.

Lemma mark_consistent s i v :
  wf s -> 0 <= i < 256 -> consistent s -> consistent (mark s i v).
Proof.
  intros Hwf Hi Hc j Hj Hd. destruct (Z.eq_dec i j) as [<-|Hne].
  - rewrite raw_value_mark, mark_curve by (done || lia). by rewrite Z.eqb_refl.
  - destruct (mark_other s i v j) as (Hdv & -> & ->); [done | lia | lia | done |].
    apply Hc; [done|]. unfold defined in *. by rewrite <- Hdv.
Qed.

Lemma fill_one_spec i s :
  wf s -> consistent s -> 0 <= i < 256 ->
  let s' := fill_one i s in
  wf s' /\ consistent s' /\
  (forall j, 0 <= j -> j <> i -> rd (div s') j = rd (div s) j) /\
  (defined s i -> defined s' i) /\
  ((exists p, 0 <= p < i /\ defined s p) ->
   (exists n, i < n < 256 /\ defined s n) -> defined s' i) /\
  (defined s' i ->
   defined s i \/ ((exists p, 0 <= p < i /\ defined s p) /\
                   (exists n, i < n < 256 /\ defined s n))).
Proof.
  intros Hwf Hc Hi. unfold fill_one.
  destruct (Z.eqb_spec (rd (div s) i) 0) as [Hz|Hz];
    [|cbv zeta; repeat (split; [done|]); by left].
  pose proof (scan_down_spec (div s) (Z.to_nat i) (i - 1) ltac:(lia)) as Hp.
  pose proof (scan_up_spec (div s) (Z.to_nat (255 - i)) (i + 1) ltac:(lia)) as Hn.
  cbv zeta in Hp, Hn.
  set (prev := scan_down (div s) (i - 1) (Z.to_nat i)) in *.
  set (next := scan_up (div s) (i + 1) (Z.to_nat (255 - i))) in *.
  destruct (Z.eqb_spec prev (-1)) as [Hp1|Hp1]; cbn [negb andb].
  { destruct Hp as [[_ Hall]|(Hr & _)]; [|lia].
    repeat (split; [done|]). split; [|auto]. intros (p & Hpr & Hpd) _. exfalso.
    apply Hpd, Hall. lia. }
  destruct (Z.eqb_spec next (-1)) as [Hn1|Hn1]; cbn [negb andb].
  { destruct Hn as [[_ Hall]|(Hr & _)]; [|lia].
    repeat (split; [done|]). split; [|auto]. intros _ (n & Hnr & Hnd). exfalso.
    apply Hnd, Hall. lia. }
  destruct Hp as [[? _]|(Hpr & Hpd & _)]; [lia|].
  destruct Hn as [[? _]|(Hnr & Hnd & _)]; [lia|].
  split; [by apply wf_mark|]. split; [by apply mark_consistent|].
  split; [|split; [|split]].
  - intros j Hj Hne. rewrite mark_div by (done || lia).
    destruct (Z.eqb_spec i j); [lia | done].
  - intros _. apply mark_defined; auto; lia.
  - intros _ _. apply mark_defined; auto; lia.
  - intros _. right. split; [exists prev | exists next]; (split; [lia | done]).
Qed.

Lemma fill_gaps_spec s :
  wf s -> consistent s ->
  wf (fill_gaps s) /\ consistent (fill_gaps s) /\ extends s (fill_gaps s) /\
  contiguous (fill_gaps s).
Proof.
  intros Hwf Hc. unfold fill_gaps.
  cut (let s' := for_up 0 256 fill_one s in
       wf s' /\ consistent s' /\ extends s s' /\
       (forall j, 256 <= j -> rd (div s') j = rd (div s) j) /\
       (forall a b c, 0 <= a -> a < b -> b < c -> c < 256 -> b < 256 ->
          defined s' a -> defined s' c -> defined s' b)).
  { cbv zeta. intros (? & ? & ? & _ & Hcont). repeat (split; [done|]).
    intros a b c ? ? ? ? ? ?. apply (Hcont a b c); auto; lia. }
  apply (for_up_ind (fun i s' =>
    wf s' /\ consistent s' /\ extends s s' /\
    (forall j, i <= j -> rd (div s') j = rd (div s) j) /\
    (forall a b c, 0 <= a -> a < b -> b < c -> c < 256 -> b < i ->
       defined s' a -> defined s' c -> defined s' b))); [lia | | ].
  - split; [done|]. split; [done|]. split; [by intros j|]. split; [done|]. intros; lia.
  - intros i s' Hi (Hwf' & Hc' & Hext & Hsame & Hcont).
    destruct (fill_one_spec i s' Hwf' Hc' Hi)
      as (Hwf'' & Hc'' & Hoth & Hkeep & Hnew & Hback).
    set (s'' := fill_one i s') in *.
    assert (forall j, 0 <= j -> j <> i -> (defined s'' j <-> defined s' j)) as Hdef.
    { intros j Hj Hne. unfold defined. by rewrite Hoth. }
    split; [done|]. split; [done|]. split.
    { intros j Hj Hd. destruct (Z.eq_dec j i) as [->|Hne].
      - apply Hkeep, Hext; done.
      - apply Hdef; [lia | done |]. by apply Hext. }
    split.
    { intros j Hj. rewrite Hoth by lia. apply Hsame. lia. }
    intros a b c Ha Hab Hbc Hc256 Hb Hda Hdc.
    assert (defined s' a) as Hda' by (apply Hdef; [lia | lia | done]).
    destruct (Z.eq_dec b i) as [->|Hbi].
    + apply Hnew; [exists a; split; [lia|done]|].
      exists c. split; [lia|]. apply Hdef; [lia | lia | done].
    + apply Hdef; [lia | done |].
      destruct (Z.eq_dec c i) as [->|Hci].
      * destruct (Hback Hdc) as [Hdi|[_ (n & Hn & Hdn)]].
        -- apply (Hcont a b i); auto; lia.
        -- apply (Hcont a b n); auto; lia.
      * apply (Hcont a b c); auto; [lia|]. apply Hdef; [lia | done | done].
Qed.

Lemma extend_bottom_spec s :
  good s ->
  let s' := extend_bottom s in
  good s' /\ extends s s' /\
  (rd (div s) 0 = 0 -> exists x, 0 <= x < 256 /\ ~ defined s x /\ defined s' x).
Proof.
  intros (Hwf & Hc & Hcont & Htwo). unfold extend_bottom.
  destruct (Z.eqb_spec (rd (div s) 0) 0) as [Hz|Hz];
    [|cbv zeta; split; [done|]; split; [by intros j|done]].
  pose proof (scan_up_spec (div s) 256 0 ltac:(lia)) as Hf. cbv zeta in Hf.
  set (first := scan_up (div s) 0 256) in *.
  destruct Htwo as (a0 & b0 & Hab & Hb & Hda & Hdb).
  destruct Hf as [[_ Hall]|(Hr & Hfd & Hbelow)].
  { exfalso. apply Hda, Hall. lia. }
  assert (1 <= first) as Hf1 by (destruct (Z.eq_dec first 0) as [E|]; [by rewrite E in Hfd | lia]).
  assert (first <= a0) as Hfa
    by (destruct (Z_lt_le_dec a0 first); [exfalso; apply Hda, Hbelow; lia | done]).
  assert (defined s (first + 1)) as Hnext.
  { destruct (Z.eq_dec b0 (first + 1)) as [<-|]; [done|].
    apply (Hcont first (first + 1) b0); auto; lia. }
  set (body := fun i s0 =>
         if first * 2 - i <=? 255
         then if negb (rd (div s0) (first * 2 - i) =? 0)
              then mark s0 i (clampZ (rd (curve s0) first * 2
                                      - rd (curve s0) (first * 2 - i)))
              else s0
         else s0).
  assert (let s' := for_up 0 first body s in
          wf s' /\ consistent s' /\
          (forall j, first <= j -> rd (div s') j = rd (div s) j) /\
          (forall j, 0 <= j < first ->
             (defined s' j <-> first * 2 - j <= 255 /\ defined s (first * 2 - j))))
    as Hloop.
  { apply (for_up_ind (fun i s' =>
      wf s' /\ consistent s' /\
      (forall j, i <= j -> rd (div s') j = rd (div s) j) /\
      (forall j, 0 <= j < i ->
         (defined s' j <-> first * 2 - j <= 255 /\ defined s (first * 2 - j)))));
      [lia | | ].
    - repeat (split; [done|]). intros j Hj. lia.
    - intros i s' Hi (Hwf' & Hc' & Hsame & Hlow). unfold body.
      rewrite (Hsame (first * 2 - i)) by lia.
      assert (~ defined s' i) as Hundef
        by (unfold defined; rewrite Hsame by lia; intros H; apply H, Hbelow; lia).
      destruct (Z.leb_spec (first * 2 - i) 255) as [Hm|Hm];
        [destruct (Z.eqb_spec (rd (div s) (first * 2 - i)) 0) as [Hmz|Hmz]|];
        cbn [negb].
      + repeat (split; [done|]). split; [intros j Hj; apply Hsame; lia|].
        intros j Hj. destruct (Z.eq_dec j i) as [->|Hne]; [|apply Hlow; lia].
        split; [done|]. intros [_ Hd]. by apply Hd in Hmz.
      + split; [by apply wf_mark|]. split; [by apply mark_consistent; auto; lia|].
        split.
        * intros j Hj. rewrite mark_div by (done || lia).
          destruct (Z.eqb_spec i j); [lia|]. apply Hsame. lia.
        * intros j Hj. rewrite mark_defined by (done || lia).
          destruct (Z.eq_dec j i) as [->|Hne]; [split; auto|].
          rewrite <- Hlow by lia. split; [intros [?|?]; done | auto].
      + repeat (split; [done|]). split; [intros j Hj; apply Hsame; lia|].
        intros j Hj. destruct (Z.eq_dec j i) as [->|Hne]; [|apply Hlow; lia].
        split; [done|]. intros [? _]. lia. }
  cbv zeta in Hloop. destruct Hloop as (Hwf' & Hc' & Hsame & Hlow).
  set (s' := for_up 0 first body s) in *. cbv zeta.
  assert (forall j, first <= j -> (defined s' j <-> defined s j)) as Hhigh
    by (intros j Hj; unfold defined; by rewrite Hsame).
  assert (extends s s') as Hext.
  { intros j Hj Hd. destruct (Z_lt_le_dec j first); [|by apply Hhigh].
    exfalso. apply Hd, Hbelow. lia. }
  split; [|split; [done|]].
  - split; [done|]. split; [done|]. split.
    + intros a b c Ha Hab' Hbc Hc256 Hda' Hdc'.
      destruct (Z_lt_le_dec b first) as [Hbf|Hbf].
      * apply Hlow in Hda' as [Hma Hmd]; [|lia]. apply Hlow; [lia|].
        split; [lia|]. apply (Hcont first (first * 2 - b) (first * 2 - a)); auto; lia.
      * apply Hhigh; [done|]. apply Hhigh in Hdc'; [|lia].
        destruct (Z.eq_dec b first) as [->|]; [done|].
        apply (Hcont first b c); auto; lia.
    + exists a0, b0. repeat split; auto; try lia; apply Hext; auto; lia.
  - intros _. exists (first - 1). split; [lia|]. split.
    + intros Hd. apply Hd, Hbelow. lia.
    + apply Hlow; [lia|]. replace (first * 2 - (first - 1)) with (first + 1) by lia.
      split; [lia | done].
Qed.

Lemma extend_top_spec s :
  good s ->
  let s' := extend_top s in
  good s' /\ extends s s' /\
  (rd (div s) 255 = 0 -> exists x, 0 <= x < 256 /\ ~ defined s x /\ defined s' x).
Proof.
  intros (Hwf & Hc & Hcont & Htwo). unfold extend_top.
  destruct (Z.eqb_spec (rd (div s) 255) 0) as [Hz|Hz];
    [|cbv zeta; split; [done|]; split; [by intros j|done]].
  pose proof (scan_down_spec (div s) 256 255 ltac:(lia)) as Hl. cbv zeta in Hl.
  set (last := scan_down (div s) 255 256) in *.
  destruct Htwo as (a0 & b0 & Hab & Hb & Hda & Hdb).
  destruct Hl as [[_ Hall]|(Hr & Hld & Habove)].
  { exfalso. apply Hda, Hall. lia. }
  assert (last <= 254) as Hl1
    by (destruct (Z.eq_dec last 255) as [E|]; [by rewrite E in Hld | lia]).
  assert (b0 <= last) as Hbl
    by (destruct (Z_lt_le_dec last b0); [exfalso; apply Hdb, Habove; lia | done]).
  assert (defined s (last - 1)) as Hprev.
  { destruct (Z.eq_dec a0 (last - 1)) as [<-|]; [done|].
    apply (Hcont a0 (last - 1) last); auto; lia. }
  set (body := fun i s0 =>
         if 0 <=? last * 2 - i
         then if negb (rd (div s0) (last * 2 - i) =? 0)
              then mark s0 i (clampZ (rd (curve s0) last * 2
                                      - rd (curve s0) (last * 2 - i)))
              else s0
         else s0).
  assert (let s' := for_down 255 last body s in
          wf s' /\ consistent s' /\
          (forall j, 0 <= j <= last -> rd (div s') j = rd (div s) j) /\
          (forall j, last < j < 256 ->
             (defined s' j <-> 0 <= last * 2 - j /\ defined s (last * 2 - j))))
    as Hloop.
  { apply (for_down_ind (fun i s' =>
      wf s' /\ consistent s' /\
      (forall j, 0 <= j <= i -> rd (div s') j = rd (div s) j) /\
      (forall j, i < j < 256 ->
         (defined s' j <-> 0 <= last * 2 - j /\ defined s (last * 2 - j)))));
      [lia | | ].
    - repeat (split; [done|]). intros j Hj. lia.
    - intros i s' Hi (Hwf' & Hc' & Hsame & Hup). unfold body.
      assert (~ defined s' i) as Hundef
        by (unfold defined; rewrite Hsame by lia; intros H; apply H, Habove; lia).
      destruct (Z.leb_spec 0 (last * 2 - i)) as [Hm|Hm];
        [rewrite (Hsame (last * 2 - i)) by lia;
         destruct (Z.eqb_spec (rd (div s) (last * 2 - i)) 0) as [Hmz|Hmz]|];
        cbn [negb].
      + repeat (split; [done|]). split; [intros j Hj; apply Hsame; lia|].
        intros j Hj. destruct (Z.eq_dec j i) as [->|Hne]; [|apply Hup; lia].
        split; [done|]. intros [_ Hd]. by apply Hd in Hmz.
      + split; [by apply wf_mark|]. split; [by apply mark_consistent; auto; lia|].
        split.
        * intros j Hj. rewrite mark_div by (done || lia).
          destruct (Z.eqb_spec i j); [lia|]. apply Hsame. lia.
        * intros j Hj. rewrite mark_defined by (done || lia).
          destruct (Z.eq_dec j i) as [->|Hne]; [split; auto|].
          rewrite <- Hup by lia. split; [intros [?|?]; done | auto].
      + repeat (split; [done|]). split; [intros j Hj; apply Hsame; lia|].
        intros j Hj. destruct (Z.eq_dec j i) as [->|Hne]; [|apply Hup; lia].
        split; [done|]. intros [? _]. lia. }
  cbv zeta in Hloop. destruct Hloop as (Hwf' & Hc' & Hsame & Hup).
  set (s' := for_down 255 last body s) in *. cbv zeta.
  assert (forall j, 0 <= j <= last -> (defined s' j <-> defined s j)) as Hlow
    by (intros j Hj; unfold defined; by rewrite Hsame).
  assert (extends s s') as Hext.
  { intros j Hj Hd. destruct (Z_lt_le_dec last j); [|by apply Hlow; [lia|]].
    exfalso. apply Hd, Habove. lia. }
  split; [|split; [done|]].
  - split; [done|]. split; [done|]. split.
    + intros a b c Ha Hab' Hbc Hc256 Hda' Hdc'.
      destruct (Z_lt_le_dec last b) as [Hbf|Hbf].
      * apply Hup in Hdc' as [Hmc Hmd]; [|lia]. apply Hup; [lia|].
        split; [lia|]. apply (Hcont (last * 2 - c) (last * 2 - b) last); auto; lia.
      * apply Hlow; [lia|]. apply Hlow in Hda'; [|lia].
        destruct (Z.eq_dec b last) as [->|]; [done|].
        apply (Hcont a b last); auto; lia.
    + exists a0, b0. repeat split; auto; try lia; apply Hext; auto; lia.
  - intros _. exists (last + 1). split; [lia|]. split.
    + intros Hd. apply Hd, Habove. lia.
    + apply Hup; [lia|]. replace (last * 2 - (last + 1)) with (last - 1) by lia.
      split; [lia | done].
Qed.

(** ** The measure of the [while] loop *)

Lemma filter_length_mono (P Q : Z -> Prop) `{!forall x, Decision (P x)}
  `{!forall x, Decision (Q x)} (l : list Z) :
  (forall x, x ∈ l -> Q x -> P x) ->
  (length (filter Q l) <= length (filter P l))%nat.
Proof.
  induction l as [|x l IH]; intros Himp; [done|].
  rewrite !filter_cons.
  assert (length (filter Q l) <= length (filter P l))%nat as IH'
    by (apply IH; intros y Hy; apply Himp; by apply elem_of_cons; right).
  destruct (decide (Q x)) as [Hq|Hq], (decide (P x)) as [Hp|Hp]; simpl; try lia.
  exfalso. apply Hp, Himp; [apply elem_of_cons; by left | done].
Qed.

Lemma filter_length_lt (P Q : Z -> Prop) `{!forall x, Decision (P x)}
  `{!forall x, Decision (Q x)} (l : list Z) :
  (forall x, x ∈ l -> Q x -> P x) ->
  (exists x, x ∈ l /\ P x /\ ~ Q x) ->
  (length (filter Q l) < length (filter P l))%nat.
Proof.
  induction l as [|x l IH]; intros Himp (y & Hy & Hpy & Hqy);
    [by apply elem_of_nil in Hy|].
  rewrite !filter_cons.
  assert (forall z, z ∈ l -> Q z -> P z) as H'
    by (intros z Hz; apply Himp; by apply elem_of_cons; right).
  pose proof (filter_length_mono P Q l H') as Hmono.
  apply elem_of_cons in Hy as [->|Hy].
  - destruct (decide (Q x)), (decide (P x)); simpl; done || lia.
  - assert (length (filter Q l) < length (filter P l))%nat as IH'
      by (apply IH; [done | by exists y]).
    destruct (decide (Q x)) as [Hq|Hq], (decide (P x)) as [Hp|Hp]; simpl; try lia.
    exfalso. apply Hp, Himp; [apply elem_of_cons; by left | done].
Qed.

Lemma undefined_count_mono s s' :
  extends s s' -> (undefined_count s' <= undefined_count s)%nat.
Proof.
  intros Hext. unfold undefined_count. apply filter_length_mono.
  intros x Hx Hz. apply elem_of_seqZ in Hx.
  destruct (Z.eq_dec (rd (div s) x) 0) as [|Hd]; [done|].
  exfalso. by apply (Hext x ltac:(lia)) in Hd.
Qed.

Lemma undefined_count_lt s s' :
  extends s s' ->
  (exists x, 0 <= x < 256 /\ ~ defined s x /\ defined s' x) ->
  (undefined_count s' < undefined_count s)%nat.
Proof.
  intros Hext (x & Hx & Hu & Hd). unfold undefined_count.
  apply filter_length_lt.
  - intros y Hy Hz. apply elem_of_seqZ in Hy.
    destruct (Z.eq_dec (rd (div s) y) 0) as [|Hdy]; [done|].
    exfalso. by apply (Hext y ltac:(lia)) in Hdy.
  - exists x. split; [apply elem_of_seqZ; lia|]. split; [|done].
    unfold defined in Hu. by apply dec_stable in Hu.
Qed.

Lemma extends_trans s1 s2 s3 : extends s1 s2 -> extends s2 s3 -> extends s1 s3.
Proof. intros H1 H2 j Hj Hd. apply H2; [done|]. by apply H1. Qed.

Lemma extend_step_spec s :
  good s ->
  let s' := extend_top (extend_bottom s) in
  good s' /\ extends s s' /\
  (rd (div s) 0 = 0 \/ rd (div s) 255 = 0 ->
   (undefined_count s' < undefined_count s)%nat).
Proof.
  intros Hg. destruct (extend_bottom_spec s Hg) as (Hg1 & He1 & Hp1).
  destruct (extend_top_spec (extend_bottom s) Hg1) as (Hg2 & He2 & Hp2).
  cbv zeta in *. split; [done|]. split; [by eapply extends_trans|].
  intros Hcond.
  destruct (Z.eq_dec (rd (div s) 0) 0) as [H0|H0].
  - eapply Nat.le_lt_trans; [by apply undefined_count_mono|].
    apply undefined_count_lt; auto.
  - destruct Hcond as [?|H255]; [done|].
    assert (extend_bottom s = s) as E
      by (unfold extend_bottom; by destruct (Z.eqb_spec (rd (div s) 0) 0)).
    rewrite E in *. apply undefined_count_lt; auto.
Qed.

(** The [while] loop ends, and then every index is defined. *)
Lemma extend_loop_terminates fuel : forall s,
  good s -> (undefined_count s < fuel)%nat ->
  exists s', extend_loop fuel s = Some s' /\ good s' /\ extends s s' /\
             all_defined s'.
Proof.
  induction fuel as [|fuel IH]; intros s Hg Hlt; [lia|]. simpl.
  destruct (Z.eqb_spec (rd (div s) 0) 0) as [H0|H0];
    [|destruct (Z.eqb_spec (rd (div s) 255) 0) as [H255|H255]]; cbn [orb].
  1,2: destruct (extend_step_spec s Hg) as (Hg' & He & Hlt');
       destruct (IH (extend_top (extend_bottom s)) Hg') as (s' & Hs' & ? & ? & ?);
       [cbv zeta in Hlt'; specialize (Hlt' ltac:(auto)); lia|];
       exists s'; split; [done|]; split; [done|]; split; [|done];
       by eapply extends_trans.
  exists s. split; [done|]. split; [done|]. split; [by intros j|].
  intros i Hi. destruct Hg as (_ & _ & Hcont & _).
  destruct (Z.eq_dec i 0) as [->|]; [done|].
  destruct (Z.eq_dec i 255) as [->|]; [done|].
  apply (Hcont 0 i 255); auto; lia.
Qed.

Lemma undefined_count_bound s : (undefined_count s <= 256)%nat.
Proof.
  unfold undefined_count.
  etransitivity; [apply length_filter|]. by rewrite length_seqZ.
Qed.

Lemma extend_loop_mono fuel : forall fuel' s s',
  extend_loop fuel s = Some s' -> (fuel <= fuel')%nat ->
  extend_loop fuel' s = Some s'.
Proof.
  induction fuel as [|fuel IH]; intros fuel' s s' H Hle; [done|].
  destruct fuel' as [|fuel']; [lia|]. simpl in *.
  destruct ((rd (div s) 0 =? 0) || (rd (div s) 255 =? 0)); [|done].
  apply IH; [done | lia].
Qed.

Lemma extend_loop_result fuel s s' :
  good s -> extend_loop fuel s = Some s' ->
  good s' /\ extends s s' /\ all_defined s'.
Proof.
  intros Hg H.
  destruct (extend_loop_terminates (fuel + 257) s Hg) as (s'' & H' & ?).
  { pose proof (undefined_count_bound s). lia. }
  rewrite (extend_loop_mono fuel (fuel + 257) s s' H) in H' by lia.
  by injection H' as <-.
Qed.

Lemma interpolate_terminates fuel s :
  wf s -> consistent s -> two_defined s -> (257 <= fuel)%nat ->
  exists s', interpolate fuel s = Some s' /\ good s' /\ all_defined s'.
Proof.
  intros Hwf Hc (a & b & Hab & Hb & Hda & Hdb) Hfuel. unfold interpolate.
  destruct (fill_gaps_spec s Hwf Hc) as (Hwf' & Hc' & Hext & Hcont).
  assert (good (fill_gaps s)) as Hg.
  { repeat (split; [done|]). exists a, b. repeat split; auto; try lia; apply Hext; auto; lia. }
  destruct (extend_loop_terminates fuel _ Hg) as (s' & H & ? & ? & ?).
  { pose proof (undefined_count_bound (fill_gaps s)). lia. }
  by exists s'.
Qed.

Lemma wf_tally_all px : forall s, wf s -> wf (tally_all px s).
Proof.
  induction px as [|kx px IH]; intros s Hwf; [done|].
  apply (IH (tally (fst kx) (snd kx) s)). by apply wf_tally.
Qed.

Lemma accumulate_consistent this ptr1 ptr2 width height stride :
  wf this ->
  wf (accumulate this ptr1 ptr2 width height stride) /\
  consistent (accumulate this ptr1 ptr2 width height stride).
Proof.
  intros Hwf. unfold accumulate, accumulation_pass. rewrite populate_pixels.
  destruct (clear_data_spec this Hwf) as (Hwf0 & _).
  pose proof (wf_tally_all (plane_pixels ptr1 ptr2 width height stride) _ Hwf0) as Hwf1.
  destruct (raw_curve_spec _ Hwf1) as (Hwf2 & Hs & Hd & Hc).
  split; [done|]. intros i Hi Hdef. unfold defined in Hdef. rewrite Hd in Hdef.
  rewrite (Hc i Hi). destruct (Z.eqb_spec (rd (div (tally_all
    (plane_pixels ptr1 ptr2 width height stride) (clear_data this))) i) 0); [done|].
  symmetry. by apply raw_value_ext.
Qed.

(** * Smoothing and the final curve *)

Lemma smooth_one_spec w i s :
  wf s -> 0 < w < 2 ^ 31 -> 0 <= i < 256 ->
  let s' := smooth_one w i s in
  wf s' /\ curve s' = curve s /\
  (forall j, 0 <= j -> j <> i -> rd (div s') j = rd (div s) j) /\
  1 <= rd (div s') i < 2 ^ 32.
Proof.
  intros Hwf Hw Hi. unfold smooth_one.
  assert (let s' := for_up (- w) w
            (fun j s0 =>
               let ij := to_int (i + j) in
               if (0 <=? ij) && (ij <? 256)
               then let s1 := set_sum s0 i (wrap_uint (rd (sum s0) i + rd (curve s0) ij)) in
                    set_div s1 i (wrap_uint (rd (div s1) i + 1))
               else s0)
            (set_div (set_sum s i 0) i 0) in
          wf s' /\ curve s' = curve s /\
          (forall j, 0 <= j -> j <> i -> rd (div s') j = rd (div s) j) /\
          0 <= rd (div s') i <= w + w /\ (0 < w -> 1 <= rd (div s') i)) as H.
  { apply (for_up_ind (fun t s' =>
      wf s' /\ curve s' = curve s /\
      (forall j, 0 <= j -> j <> i -> rd (div s') j = rd (div s) j) /\
      0 <= rd (div s') i <= t + w /\ (0 < t -> 1 <= rd (div s') i))); [lia | | ].
    - destruct Hwf as (Hs & Hd & Hc).
      split; [by apply wf_set_div, wf_set_sum|]. split; [done|]. split.
      + intros j Hj Hne. simpl. by rewrite rd_wr_ne by lia.
      + simpl. rewrite rd_wr_eq by lia. lia.
    - intros t s' Ht (Hwf' & Hcv & Hoth & Hb & Hpos). cbv zeta.
      destruct ((0 <=? to_int (i + t)) && (to_int (i + t) <? 256)) eqn:E.
      + destruct Hwf' as (Hs & Hd & Hc).
        split; [by apply wf_set_div, wf_set_sum|]. split; [done|]. split.
        * intros j Hj Hne. simpl. rewrite rd_wr_ne by lia. by apply Hoth.
        * simpl. rewrite rd_wr_eq by lia. rewrite wrap_uint_small by lia. lia.
      + repeat (split; [done|]). split; [lia|]. intros Ht1.
        destruct (Z.eq_dec t 0) as [->|]; [|apply Hpos; lia].
        exfalso. rewrite Z.add_0_r, to_int_small in E by lia.
        apply andb_false_iff in E as [E|E]; [apply Z.leb_gt in E | apply Z.ltb_ge in E]; lia. }
  cbv zeta in *. destruct H as (? & ? & ? & ? & Hpos).
  repeat (split; [done|]). specialize (Hpos ltac:(lia)). lia.
Qed.

Lemma smooth_spec w s :
  wf s -> w < 2 ^ 31 -> all_defined s ->
  wf (smooth w s) /\ curve (smooth w s) = curve s /\ all_defined (smooth w s).
Proof.
  intros Hwf Hw Hall. unfold smooth.
  destruct (Z.ltb_spec 0 w) as [Hpos|Hneg]; [|done].
  cut (let s' := for_up 0 256 (smooth_one w) s in
       wf s' /\ curve s' = curve s /\
       forall j, 0 <= j < 256 -> rd (div s') j <> 0).
  { cbv zeta. intros (? & ? & Hd). repeat (split; [done|]).
    intros j Hj. by apply Hd. }
  apply (for_up_ind (fun i s' =>
    wf s' /\ curve s' = curve s /\
    forall j, 0 <= j < 256 -> rd (div s') j <> 0)); [lia | | ].
  - repeat (split; [done|]). intros j Hj. by apply Hall.
  - intros i s' Hi (Hwf' & Hcv & Hd).
    destruct (smooth_one_spec w i s' Hwf' ltac:(lia) Hi) as (? & Hcv' & Hoth & Hb).
    split; [done|]. split; [by rewrite Hcv'|]. intros j Hj.
    destruct (Z.eq_dec j i) as [->|Hne]; [lia|]. rewrite Hoth by lia. by apply Hd.
Qed.

Lemma smooth_0 s : smooth 0 s = s.
Proof. done. Qed.

Lemma list_eq_rd (l1 l2 : list Z) :
  length l1 = 256%nat -> length l2 = 256%nat ->
  (forall i, 0 <= i < 256 -> rd l1 i = rd l2 i) -> l1 = l2.
Proof.
  intros H1 H2 H. apply list_eq_same_length with 256%nat; [done | done |].
  intros n x y Hn Hx Hy. specialize (H (Z.of_nat n) ltac:(lia)).
  unfold rd in H. rewrite Nat2Z.id in H.
  rewrite !list_lookup_total_alt, Hx, Hy in H. done.
Qed.

(** With every index defined and the curve consistent with the
    accumulators, the last loop of [Create] rewrites the curve with the
    values it already holds. *)
Lemma final_curve_id s :
  wf s -> consistent s -> all_defined s -> final_curve s = s.
Proof.
  intros Hwf Hc Hall.
  destruct (final_curve_spec s Hwf) as ((_ & _ & Hl) & Hs & Hd & Hcv).
  assert (curve (final_curve s) = curve s) as Hcurve.
  { apply list_eq_rd; [done | by destruct Hwf as (_ & _ & ?) |].
    intros i Hi. rewrite Hcv by done. symmetry. by apply Hc, Hall. }
  destruct (final_curve s), s; simpl in *. by subst.
Qed.

(** ** The two extreme states: nothing defined, everything defined *)

Lemma extend_loop_S fuel s :
  extend_loop (S fuel) s
  = if (rd (div s) 0 =? 0) || (rd (div s) 255 =? 0)
    then extend_loop fuel (extend_top (extend_bottom s))
    else Some s.
Proof. done. Qed.

Lemma fill_gaps_none s :
  (forall i, 0 <= i < 256 -> rd (div s) i = 0) -> fill_gaps s = s.
Proof.
  intros Hnone. unfold fill_gaps.
  apply (for_up_ind (fun _ s' => s' = s)); [lia | done |].
  intros i s' Hi ->. unfold fill_one. rewrite Hnone by done. cbn [Z.eqb].
  pose proof (scan_down_spec (div s) (Z.to_nat i) (i - 1) ltac:(lia)) as Hp.
  cbv zeta in Hp. destruct Hp as [[-> _]|(Hr & Hd & _)]; [done|].
  exfalso. apply Hd, Hnone. lia.
Qed.

Lemma extend_step_none s :
  (forall i, 0 <= i < 256 -> rd (div s) i = 0) ->
  extend_top (extend_bottom s) = s.
Proof.
  intros Hnone.
  assert (extend_bottom s = s) as ->.
  { unfold extend_bottom. rewrite Hnone by lia. cbn [Z.eqb].
    pose proof (scan_up_spec (div s) 256 0 ltac:(lia)) as Hf. cbv zeta in Hf.
    destruct Hf as [[-> _]|(Hr & Hd & _)]; [by apply for_up_nil|].
    exfalso. apply Hd, Hnone. lia. }
  unfold extend_top. rewrite Hnone by lia. cbn [Z.eqb].
  pose proof (scan_down_spec (div s) 256 255 ltac:(lia)) as Hl. cbv zeta in Hl.
  destruct Hl as [[-> _]|(Hr & Hd & _)]; [|exfalso; apply Hd, Hnone; lia].
  apply (for_down_ind (fun _ s' => s' = s)); [lia | done |].
  intros i s' Hi ->. destruct (Z.leb_spec 0 (-1 * 2 - i)); [lia | done].
Qed.

(** With no index defined the [while] loop never exits. *)
Lemma extend_loop_none fuel s :
  (forall i, 0 <= i < 256 -> rd (div s) i = 0) -> extend_loop fuel s = None.
Proof.
  intros Hnone. induction fuel as [|fuel IH]; [done|].
  rewrite extend_loop_S, (Hnone 0) by lia. cbn [Z.eqb orb].
  by rewrite extend_step_none.
Qed.

Lemma interpolate_none fuel s :
  (forall i, 0 <= i < 256 -> rd (div s) i = 0) -> interpolate fuel s = None.
Proof.
  intros Hnone. unfold interpolate. rewrite fill_gaps_none by done.
  by apply extend_loop_none.
Qed.

Lemma fill_gaps_all_defined s : all_defined s -> fill_gaps s = s.
Proof.
  intros Hall. unfold fill_gaps.
  apply (for_up_ind (fun _ s' => s' = s)); [lia | done |].
  intros i s' Hi ->. unfold fill_one.
  destruct (Z.eqb_spec (rd (div s) i) 0) as [Hz|Hz]; [|done].
  by apply Hall in Hz.
Qed.

Lemma interpolate_all_defined fuel s :
  all_defined s -> interpolate (S fuel) s = Some s.
Proof.
  intros Hall. unfold interpolate. rewrite fill_gaps_all_defined by done.
  rewrite extend_loop_S.
  destruct (Z.eqb_spec (rd (div s) 0) 0) as [Hz|_]; [by apply Hall in Hz|].
  destruct (Z.eqb_spec (rd (div s) 255) 0) as [Hz|_]; [by apply Hall in Hz|].
  done.
Qed.

(** ** Planes whose key, or key and value, are constant *)

Lemma row_pixels_Forall (P : Z * Z -> Prop) ptr1 ptr2 off width :
  (forall w, 0 <= w < width -> P (rd ptr1 (off + w), rd ptr2 (off + w))) ->
  Forall P (row_pixels ptr1 ptr2 off width).
Proof.
  intros H. apply Forall_forall. intros kx Hin. unfold row_pixels in Hin.
  apply list_elem_of_fmap in Hin as (w & -> & Hw). apply elem_of_seqZ in Hw.
  apply H. lia.
Qed.

Lemma plane_pixels_Forall (P : Z * Z -> Prop) ptr1 ptr2 width height stride :
  (forall h w, 0 <= h < height -> 0 <= w < width ->
     P (sample ptr1 stride h w, sample ptr2 stride h w)) ->
  Forall P (plane_pixels ptr1 ptr2 width height stride).
Proof.
  intros H. apply Forall_forall. intros kx Hin.
  unfold plane_pixels in Hin. apply list_elem_of_join in Hin as (row & Hkx & Hrow).
  apply list_elem_of_fmap in Hrow as (h & -> & Hh). apply elem_of_seqZ in Hh.
  revert kx Hkx. apply Forall_forall, row_pixels_Forall.
  intros w Hw. apply H; lia.
Qed.

Lemma exact_sum_key px k v :
  Forall (fun kx => fst kx = k) px ->
  exact_sum px v = if k =? v then sample_total px else 0.
Proof.
  induction 1 as [|kx px Hk _ IH]; simpl; [by destruct (k =? v)|].
  rewrite IH, Hk. by destruct (k =? v).
Qed.

Lemma exact_count_key px k v :
  Forall (fun kx => fst kx = k) px ->
  exact_count px v = if k =? v then Z.of_nat (length px) else 0.
Proof.
  induction 1 as [|kx px Hk _ IH]; simpl length; simpl exact_count;
    [by destruct (k =? v)|].
  rewrite IH, Hk. destruct (k =? v); lia.
Qed.

Lemma sample_total_const px c :
  Forall (fun kx => snd kx = c) px -> sample_total px = c * Z.of_nat (length px).
Proof.
  induction 1 as [|kx px Hc _ IH]; simpl length; simpl sample_total; [lia|].
  rewrite IH, Hc. lia.
Qed.

Lemma sample_total_bound px :
  pixels_ok px -> 0 <= sample_total px <= 255 * Z.of_nat (length px).
Proof.
  induction 1 as [|kx px [_ Hx] _ IH]; simpl length; simpl sample_total; lia.
Qed.

(** The state before [if (!raw)] when every key pixel is [k]: only index
    [k] is defined. *)
Lemma accumulate_constant_key this ptr1 ptr2 width height stride k :
  wf this ->
  plane_ok ptr1 width height stride -> plane_ok ptr2 width height stride ->
  0 <= width -> 0 <= height -> 0 <= k < 256 ->
  constant_key ptr1 width height stride k ->
  let s := accumulate this ptr1 ptr2 width height stride in
  let px := plane_pixels ptr1 ptr2 width height stride in
  wf s /\
  rd (sum s) k = wrap_uint (sample_total px) /\
  rd (div s) k = wrap_uint (width * height) /\
  (forall v, 0 <= v < 256 -> v <> k -> rd (div s) v = 0) /\
  rd (curve s) k = if rd (div s) k =? 0 then 0 else raw_value s k.
Proof.
  intros Hwf H1 H2 Hw Hh Hk Hconst s px.
  destruct (accumulate_spec this ptr1 ptr2 width height stride Hwf H1 H2)
    as (Hwf0 & Hs). cbv zeta in Hs. fold s px in Hwf0, Hs.
  assert (Forall (fun kx => fst kx = k) px) as Hkeys
    by (apply plane_pixels_Forall; intros h w ? ?; by apply Hconst).
  split; [done|]. destruct (Hs k Hk) as (Hsk & Hdk & Hck).
  rewrite (exact_sum_key px k k Hkeys), Z.eqb_refl in Hsk.
  rewrite (exact_count_key px k k Hkeys), Z.eqb_refl in Hdk.
  unfold px in Hdk at 1. rewrite length_plane_pixels in Hdk by lia.
  repeat (split; [done|]). split; [|done].
  intros v Hv Hne. destruct (Hs v Hv) as (_ & -> & _).
  rewrite (exact_count_key px k v Hkeys).
  destruct (Z.eqb_spec k v); [lia | done].
Qed.

(** The result of [Create] with [raw = false] when only index [k] is
    defined: the uniform curve. *)
Lemma postprocess_uniform fuel w s k :
  wf s -> 0 <= k < 256 -> defined s k ->
  (forall v, 0 <= v < 256 -> v <> k -> rd (div s) v = 0) ->
  exists st, postprocess fuel w s = Some st /\ div st = div s /\
             forall i, 0 <= i < 256 -> rd (curve st) i = rd (curve s) k.
Proof.
  intros Hwf Hk Hd Hother. unfold postprocess.
  rewrite (find_flat_one s k Hk Hd Hother).
  destruct (Z.eqb_spec k (-1)); [lia|]. cbn [negb].
  destruct (uniform_spec k s Hwf Hk) as (_ & _ & Hdiv & Hc).
  by exists (uniform k s).
Qed.

(** ** Concrete planes *)

Lemma plane_okb_correct buf width height stride :
  plane_okb buf width height stride = true -> plane_ok buf width height stride.
Proof.
  unfold plane_okb. intros H h w Hh Hw.
  rewrite forallb_forall in H.
  specialize (H h). rewrite <- list_elem_of_In, elem_of_seqZ in H.
  specialize (H ltac:(lia)). rewrite forallb_forall in H.
  specialize (H w). rewrite <- list_elem_of_In, elem_of_seqZ in H.
  specialize (H ltac:(lia)). cbv zeta in H.
  rewrite !andb_true_iff in H. destruct H as [[[H1 H2] H3] H4].
  apply Z.leb_le in H1, H3. apply Z.ltb_lt in H2, H4. lia.
Qed.

Lemma length_flat_plane n c : 0 <= n -> Z.of_nat (length (flat_plane n c)) = n.
Proof. intros H. unfold flat_plane. rewrite length_replicate. lia. Qed.

Lemma rd_flat_plane n c i : 0 <= i < n -> rd (flat_plane n c) i = c.
Proof. intros H. unfold flat_plane. apply rd_replicate. lia. Qed.

(** From here on a flat plane is only known by its length and its samples. *)
Global Opaque flat_plane.

Lemma rd_app_l (l1 l2 : list Z) i :
  0 <= i < Z.of_nat (length l1) -> rd (l1 ++ l2) i = rd l1 i.
Proof. intros H. unfold rd. apply lookup_total_app_l. lia. Qed.

Lemma rd_app_r (l1 l2 : list Z) i :
  Z.of_nat (length l1) <= i ->
  rd (l1 ++ l2) i = rd l2 (i - Z.of_nat (length l1)).
Proof.
  intros H. unfold rd. rewrite lookup_total_app_r by lia. f_equal. lia.
Qed.

Lemma plane_ok_flat n c width height :
  0 <= c < 256 -> 0 <= width -> 0 <= width * height <= n ->
  plane_ok (flat_plane n c) width height width.
Proof.
  intros Hc Hw Hn h w Hh Hwr.
  assert (0 <= h * width + w < n) as Hoff by nia.
  rewrite length_flat_plane, rd_flat_plane by lia. lia.
Qed.

Lemma sample_flat n c width height h w :
  0 <= width -> 0 <= width * height <= n ->
  0 <= h < height -> 0 <= w < width ->
  sample (flat_plane n c) width h w = c.
Proof.
  intros Hw Hn Hh Hwr. unfold sample. apply rd_flat_plane. nia.
Qed.

Lemma flat_planes_pixels n1 k n2 c width height :
  0 <= width -> 0 <= width * height <= n1 -> width * height <= n2 ->
  Forall (fun kx => kx = (k, c))
    (plane_pixels (flat_plane n1 k) (flat_plane n2 c) width height width).
Proof.
  intros Hw H1 H2. apply plane_pixels_Forall. intros h w Hh Hwr.
  by rewrite !(sample_flat _ _ width height) by lia.
Qed.

Lemma find_flat_undefined s :
  (forall i, 0 <= i < 256 -> rd (div s) i = 0) -> find_flat s = -1.
Proof.
  intros Hnone. destruct (Z.eq_dec (find_flat s) (-1)) as [|Hne]; [done|].
  destruct (find_flat_some s Hne) as (Hr & Hd & _). exfalso. by apply Hd, Hnone.
Qed.

(** The accumulators after the accumulation pass, for [wf] objects. *)
Lemma accumulation_pass_spec this ptr1 ptr2 width height stride v :
  wf this ->
  plane_ok ptr1 width height stride -> plane_ok ptr2 width height stride ->
  0 <= v < 256 ->
  let px := plane_pixels ptr1 ptr2 width height stride in
  let s := accumulation_pass this ptr1 ptr2 width height stride in
  rd (sum s) v = wrap_uint (exact_sum px v) /\
  rd (div s) v = wrap_uint (exact_count px v).
Proof.
  intros Hwf H1 H2 Hv px s.
  destruct (clear_data_spec this Hwf) as (Hwf0 & _ & Hz).
  assert (in_uint (clear_data this)) as Hin.
  { intros u Hu. destruct (Hz u Hu) as [-> ->]. lia. }
  pose proof (plane_pixels_ok _ _ _ _ _ H1 H2) as Hpx. fold px in Hpx.
  destruct (tally_all_spec px _ Hwf0 Hin Hpx) as (_ & _ & Ht).
  destruct (Ht v Hv) as [Hsum Hdiv]. destruct (Hz v Hv) as [Hz1 Hz2].
  rewrite Hz1, Z.add_0_l in Hsum. rewrite Hz2, Z.add_0_l in Hdiv.
  subst s. unfold accumulation_pass. by rewrite populate_pixels.
Qed.

Lemma flat_planes_keys n1 k n2 c width height :
  0 <= width -> 0 <= width * height <= n1 -> width * height <= n2 ->
  Forall (fun kx => fst kx = k)
    (plane_pixels (flat_plane n1 k) (flat_plane n2 c) width height width) /\
  Forall (fun kx => snd kx = c)
    (plane_pixels (flat_plane n1 k) (flat_plane n2 c) width height width).
Proof.
  intros Hw H1 H2.
  pose proof (flat_planes_pixels n1 k n2 c width height Hw H1 H2) as H.
  split; (eapply Forall_impl; [exact H|]); by intros kx ->.
Qed.

Lemma flat_planes_total n1 k n2 c width height :
  0 <= width -> 0 <= height -> 0 <= width * height <= n1 -> width * height <= n2 ->
  sample_total (plane_pixels (flat_plane n1 k) (flat_plane n2 c) width height width)
  = c * (width * height).
Proof.
  intros Hw Hh H1 H2.
  destruct (flat_planes_keys n1 k n2 c width height Hw H1 H2) as [_ Hv].
  rewrite (sample_total_const _ c Hv). by rewrite length_plane_pixels.
Qed.

Lemma constant_key_flat n k width height :
  0 <= width -> 0 <= width * height <= n ->
  constant_key (flat_plane n k) width height width k.
Proof. intros Hw Hn h w Hh Hwr. by apply (sample_flat _ _ width height). Qed.

(** The two-tone key plane: which index is defined after the accumulation. *)
Lemma plane_ok_two_tone : plane_ok two_tone_key 65536 65537 65536.
Proof.
  intros h w Hh Hw. unfold two_tone_key.
  rewrite length_app, Nat2Z.inj_add, !length_flat_plane by lia.
  split; [lia|].
  destruct (Z_lt_le_dec h 65536).
  - rewrite rd_app_l, rd_flat_plane by (rewrite ?length_flat_plane; lia). lia.
  - rewrite rd_app_r, length_flat_plane, rd_flat_plane
      by (rewrite ?length_flat_plane; lia). lia.
Qed.

Lemma two_tone_samples h w :
  0 <= h < 65537 -> 0 <= w < 65536 ->
  sample two_tone_key 65536 h w = if h <? 65536 then 0 else 1.
Proof.
  intros Hh Hw. unfold sample, two_tone_key.
  destruct (Z.ltb_spec h 65536).
  - by rewrite rd_app_l, rd_flat_plane by (rewrite ?length_flat_plane; lia).
  - by rewrite rd_app_r, length_flat_plane, rd_flat_plane
      by (rewrite ?length_flat_plane; lia).
Qed.

Lemma two_tone_rows ptr2 :
  Forall (fun kx => fst kx = 0)
    (plane_pixels two_tone_key ptr2 65536 65536 65536).
Proof.
  apply plane_pixels_Forall. intros h w Hh Hw. cbn [fst].
  rewrite two_tone_samples by lia. destruct (Z.ltb_spec h 65536); [reflexivity | lia].
Qed.

Lemma two_tone_last_row ptr2 :
  Forall (fun kx => fst kx = 1)
    (row_pixels two_tone_key ptr2 (65536 * 65536) 65536).
Proof.
  apply row_pixels_Forall. intros w Hw. cbn [fst].
  pose proof (two_tone_samples 65536 w ltac:(lia) Hw) as E.
  unfold sample in E. rewrite E. reflexivity.
Qed.

Lemma two_tone_split ptr2 :
  plane_pixels two_tone_key ptr2 65536 65537 65536
  = plane_pixels two_tone_key ptr2 65536 65536 65536
    ++ row_pixels two_tone_key ptr2 (65536 * 65536) 65536.
Proof. apply (plane_pixels_succ two_tone_key ptr2 65536 65536 65536). lia. Qed.

Lemma two_tone_count ptr2 v :
  exact_count (plane_pixels two_tone_key ptr2 65536 65537 65536) v
  = (if 0 =? v then 65536 * 65536 else 0) + (if 1 =? v then 65536 else 0).
Proof.
  rewrite two_tone_split, exact_count_app.
  rewrite (exact_count_key _ 0 v (two_tone_rows ptr2)).
  rewrite (exact_count_key _ 1 v (two_tone_last_row ptr2)).
  rewrite length_plane_pixels, length_row_pixels by lia. reflexivity.
Qed.

(** * Debug *)

Lemma offset_eqb stride r1 x1 r2 x2 :
  256 <= stride -> 0 <= x1 < 256 -> 0 <= x2 < 256 ->
  (r1 * stride + x1 =? r2 * stride + x2) = (r1 =? r2) && (x1 =? x2).
Proof.
  intros Hs H1 H2.
  destruct (Z.eqb_spec r1 r2) as [->|Hr]; cbn [andb].
  - destruct (Z.eqb_spec x1 x2), (Z.eqb_spec (r2 * stride + x1) (r2 * stride + x2));
      lia || done.
  - apply Z.eqb_neq. intros E.
    assert ((r1 - r2) * stride = x2 - x1) as E' by lia.
    assert (r1 - r2 <= -1 \/ 1 <= r1 - r2) as [?|?] by lia; nia.
Qed.

Lemma offset_range stride r x len :
  256 <= stride -> 255 * stride + 256 <= len ->
  0 <= r < 256 -> 0 <= x < 256 -> 0 <= r * stride + x < len.
Proof. intros. nia. Qed.

Lemma Debug_bars s ptr stride :
  curve_ok s -> 256 <= stride -> 255 * stride + 256 <= Z.of_nat (length ptr) ->
  let bars :=
    for_up 0 256
      (fun i p =>
         for_up 0 (rd (curve s) i + 1)
           (fun j p => wr p ((255 - j) * stride + i) (rd (curve s) i)) p)
      ptr in
  length bars = length ptr /\
  forall x r, 0 <= x < 256 -> 0 <= r < 256 ->
    pixel bars stride x r
    = if 255 - rd (curve s) x <=? r then rd (curve s) x else pixel ptr stride x r.
Proof.
  intros Hc Hs Hlen. cbv zeta.
  cut (let bars := for_up 0 256
         (fun i p =>
            for_up 0 (rd (curve s) i + 1)
              (fun j p => wr p ((255 - j) * stride + i) (rd (curve s) i)) p) ptr in
       length bars = length ptr /\
       forall x r, 0 <= x < 256 -> 0 <= r < 256 ->
         pixel bars stride x r
         = if (x <? 256) && (255 - rd (curve s) x <=? r)
           then rd (curve s) x else pixel ptr stride x r).
  { cbv zeta. intros [Hl H]. split; [done|]. intros x r Hx Hr.
    rewrite (H x r Hx Hr). destruct (Z.ltb_spec x 256); [done | lia]. }
  apply (for_up_ind (fun i p =>
    length p = length ptr /\
    forall x r, 0 <= x < 256 -> 0 <= r < 256 ->
      pixel p stride x r
      = if (x <? i) && (255 - rd (curve s) x <=? r)
        then rd (curve s) x else pixel ptr stride x r)); [lia | | ].
  - split; [done|]. intros x r Hx Hr. destruct (Z.ltb_spec x 0); [lia | done].
  - intros i p Hi [Hl Hp]. pose proof (Hc i Hi) as Hci.
    assert (let p' := for_up 0 (rd (curve s) i + 1)
              (fun j p => wr p ((255 - j) * stride + i) (rd (curve s) i)) p in
            length p' = length ptr /\
            forall x r, 0 <= x < 256 -> 0 <= r < 256 ->
              pixel p' stride x r
              = if (x =? i) && (255 - (rd (curve s) i + 1) <? r)
                then rd (curve s) i else pixel p stride x r) as Hinner.
    { apply (for_up_ind (fun j p' =>
        length p' = length ptr /\
        forall x r, 0 <= x < 256 -> 0 <= r < 256 ->
          pixel p' stride x r
          = if (x =? i) && (255 - j <? r)
            then rd (curve s) i else pixel p stride x r)); [lia | | ].
      - split; [done|]. intros x r Hx Hr.
        destruct (Z.ltb_spec (255 - 0) r); [lia|]. by rewrite andb_false_r.
      - intros j p' Hj [Hl' Hp']. split; [by rewrite length_wr|].
        intros x r Hx Hr. unfold pixel.
        pose proof (offset_range stride (255 - j) i (Z.of_nat (length ptr))
                      Hs Hlen ltac:(lia) Hi) as Ho1.
        pose proof (offset_range stride r x (Z.of_nat (length ptr))
                      Hs Hlen Hr Hx) as Ho2.
        rewrite rd_wr by lia. rewrite offset_eqb by lia.
        specialize (Hp' x r Hx Hr). unfold pixel in Hp'. rewrite Hp'.
        destruct (Z.eqb_spec (255 - j) r), (Z.eqb_spec i x), (Z.eqb_spec x i),
          (Z.ltb_spec (255 - j) r), (Z.ltb_spec (255 - (j + 1)) r);
          cbn [andb]; lia || done. }
    cbv zeta in Hinner. destruct Hinner as [Hl' Hp']. split; [done|].
    intros x r Hx Hr. rewrite (Hp' x r Hx Hr), (Hp x r Hx Hr).
    destruct (Z.eqb_spec x i) as [->|Hne]; cbn [andb].
    + destruct (Z.ltb_spec i i), (Z.ltb_spec i (i + 1)),
        (Z.ltb_spec (255 - (rd (curve s) i + 1)) r),
        (Z.leb_spec (255 - rd (curve s) i) r); cbn [andb]; lia || done.
    + destruct (Z.ltb_spec x i), (Z.ltb_spec x (i + 1)); cbn [andb]; lia || done.
Qed.

(** Every pixel of the 256 x 256 area after [Debug]. *)
Lemma Debug_pixel s ptr stride x r :
  curve_ok s -> 256 <= stride -> 255 * stride + 256 <= Z.of_nat (length ptr) ->
  0 <= x < 256 -> 0 <= r < 256 ->
  pixel (Debug s ptr stride) stride x r = debug_pixel s ptr stride x r.
Proof.
  intros Hc Hs Hlen Hx Hr. unfold Debug, debug_pixel.
  destruct (Debug_bars s ptr stride Hc Hs Hlen) as [Hl Hbars]. cbv zeta in *.
  set (bars := for_up 0 256
         (fun i p =>
            for_up 0 (rd (curve s) i + 1)
              (fun j p => wr p ((255 - j) * stride + i) (rd (curve s) i)) p) ptr) in *.
  cut (let out := for_up 0 256
         (fun i p => if 0 <? rd (curve s) i
                     then wr p ((255 - rd (curve s) i) * stride + i) 255 else p) bars in
       length out = length ptr /\
       forall x r, 0 <= x < 256 -> 0 <= r < 256 ->
         pixel out stride x r
         = if (x <? 256) && (0 <? rd (curve s) x) && (r =? 255 - rd (curve s) x)
           then 255 else pixel bars stride x r).
  { cbv zeta. intros [_ H]. rewrite (H x r Hx Hr), (Hbars x r Hx Hr).
    destruct (Z.ltb_spec x 256); [done | lia]. }
  apply (for_up_ind (fun i p =>
    length p = length ptr /\
    forall x r, 0 <= x < 256 -> 0 <= r < 256 ->
      pixel p stride x r
      = if (x <? i) && (0 <? rd (curve s) x) && (r =? 255 - rd (curve s) x)
        then 255 else pixel bars stride x r)); [lia | | ].
  - split; [done|]. intros x' r' Hx' Hr'. destruct (Z.ltb_spec x' 0); [lia | done].
  - intros i p Hi [Hl' Hp]. pose proof (Hc i Hi) as Hci.
    destruct (Z.ltb_spec 0 (rd (curve s) i)) as [Hpos|Hzero].
    + split; [by rewrite length_wr|]. intros x' r' Hx' Hr'. unfold pixel.
      pose proof (offset_range stride (255 - rd (curve s) i) i
                    (Z.of_nat (length ptr)) Hs Hlen ltac:(lia) Hi) as Ho1.
      pose proof (offset_range stride r' x' (Z.of_nat (length ptr))
                    Hs Hlen Hr' Hx') as Ho2.
      rewrite rd_wr by lia. rewrite offset_eqb by lia.
      specialize (Hp x' r' Hx' Hr'). unfold pixel in Hp. rewrite Hp.
      destruct (Z.eqb_spec i x') as [<-|Hne].
      * destruct (Z.eqb_spec (255 - rd (curve s) i) r'), (Z.ltb_spec i i),
          (Z.ltb_spec i (i + 1)), (Z.ltb_spec 0 (rd (curve s) i)),
          (Z.eqb_spec r' (255 - rd (curve s) i)); cbn [andb]; lia || done.
      * rewrite andb_false_r.
        destruct (Z.ltb_spec x' i), (Z.ltb_spec x' (i + 1)); cbn [andb]; lia || done.
    + split; [done|]. intros x' r' Hx' Hr'. rewrite (Hp x' r' Hx' Hr').
      destruct (Z.eq_dec x' i) as [->|Hne].
      * destruct (Z.ltb_spec i i), (Z.ltb_spec i (i + 1)),
          (Z.ltb_spec 0 (rd (curve s) i)); cbn [andb]; lia || done.
      * destruct (Z.ltb_spec x' i), (Z.ltb_spec x' (i + 1)); cbn [andb]; lia || done.
Qed.

Lemma curve_okb_correct s : curve_okb s = true -> curve_ok s.
Proof.
  unfold curve_okb. intros H i Hi. rewrite forallb_forall in H.
  specialize (H i). rewrite <- list_elem_of_In, elem_of_seqZ in H.
  specialize (H ltac:(lia)). apply andb_true_iff in H as [H1 H2].
  apply Z.leb_le in H1. apply Z.ltb_lt in H2. lia.
Qed.


(** * The frame function *)

Lemma plane_at_with_data_ne f p q data :
  0 <= p -> 0 <= q -> p <> q -> plane_at (with_data f p data) q = plane_at f q.
Proof.
  intros Hp Hq Hne. unfold plane_at, with_data.
  rewrite !list_lookup_total_alt, list_lookup_insert_ne; [done | lia].
Qed.

Lemma plane_at_with_data_eq f p data :
  0 <= p < Z.of_nat (length f) ->
  VS.p_data (plane_at (with_data f p data) p) = data /\
  VS.p_stride (plane_at (with_data f p data) p) = VS.p_stride (plane_at f p).
Proof.
  intros Hp.
  assert (plane_at (with_data f p data) p
          = VS.mkPlane (VS.p_width (plane_at f p)) (VS.p_height (plane_at f p))
              (VS.p_stride (plane_at f p)) data) as ->; [|done].
  unfold with_data, plane_at at 1.
  rewrite list_lookup_total_alt, list_lookup_insert_eq by lia. done.
Qed.

Lemma length_with_data f p data : length (with_data f p data) = length f.
Proof. unfold with_data. apply length_insert. Qed.

Lemma plane_loop_ind {St} (P : St -> Prop) (body : Z -> St -> option St) ps :
  (forall p st st', p ∈ ps -> P st -> body p st = Some st' -> P st') ->
  forall st st', P st -> plane_loop body ps st = Some st' -> P st'.
Proof.
  induction ps as [|p ps IH]; intros Hstep st st' HP H; simpl in H.
  - by injection H as <-.
  - destruct (body p st) as [st1|] eqn:E; [|done].
    apply (IH (fun q s s' Hq => Hstep q s s' (proj2 (elem_of_cons _ _ _) (or_intror Hq)))
              st1 st'); [|done].
    apply (Hstep p st st1); [apply elem_of_cons; by left | done | done].
Qed.

Lemma newVideoFrame2_plane n plane_src planes fresh p :
  0 <= p < n ->
  plane_at (newVideoFrame2 n plane_src planes fresh) p
  = match plane_src !!! Z.to_nat p with
    | Some f => plane_at f (rd planes p)
    | None => plane_at fresh p
    end.
Proof.
  intros Hp. unfold newVideoFrame2, plane_at at 1.
  apply list_lookup_total_correct. rewrite list_lookup_fmap.
  rewrite lookup_seqZ_lt by lia. simpl.
  by replace (0 + Z.of_nat (Z.to_nat p)) with p by lia.
Qed.

(** Without [show], the body of the plane loop writes to its own plane
    only, and only when that plane is selected. *)
Lemma frame_step_plain d fmt fuel src1 src2 src3 q st st' p :
  show d = false -> 0 <= q -> 0 <= p ->
  (q = p -> plane_selected d p = false) ->
  frame_step d fmt fuel src1 src2 src3 q st = Some st' ->
  plane_at (snd st') p = plane_at (snd st) p.
Proof.
  intros Hshow Hq Hp Hsel. destruct st as [c dst]. unfold frame_step.
  rewrite Hshow. destruct (plane_selected d q) eqn:E.
  - destruct (Create _ _ _ _ _ _ _ _ _) as [c'|]; [|done].
    intros [= <-]. simpl. apply plane_at_with_data_ne; [done | done |].
    intros ->. rewrite (Hsel eq_refl) in E. done.
  - by intros [= <-].
Qed.

Lemma Create_raw fuel this ptr1 ptr2 width height stride w :
  Create fuel this ptr1 ptr2 width height stride true w
  = Some (accumulate this ptr1 ptr2 width height stride).
Proof. done. Qed.

(** With [show], a plane other than plane 0 that is not selected is
    overwritten by [fillPlane] in its own iteration and left alone by the
    other iterations. *)
Lemma frame_step_show d fmt fuel src1 src2 src3 q c dst st' p :
  show d = true -> 0 <= q -> 1 <= p < Z.of_nat (length dst) ->
  plane_selected d p = false ->
  frame_step d fmt fuel src1 src2 src3 q (c, dst) = Some st' ->
  length (snd st') = length dst /\
  VS.p_stride (plane_at (snd st') p) = VS.p_stride (plane_at dst p) /\
  VS.p_data (plane_at (snd st') p)
  = if q =? p
    then fillPlane (VS.p_data (plane_at dst p))
           (Z.shiftr 256 (VS.subSamplingW fmt)) (Z.shiftr 256 (VS.subSamplingH fmt))
           (VS.p_stride (plane_at dst p)) 128
    else VS.p_data (plane_at dst p).
Proof.
  intros Hshow Hq Hp Hsel. unfold frame_step. rewrite Hshow.
  destruct (Z.eqb_spec q p) as [->|Hne].
  - rewrite Hsel. destruct (Z.eqb_spec p 0); [lia|]. intros [= <-]. simpl.
    rewrite length_with_data. split; [done|].
    by destruct (plane_at_with_data_eq dst p
        (fillPlane (VS.p_data (plane_at dst p))
           (Z.shiftr 256 (VS.subSamplingW fmt)) (Z.shiftr 256 (VS.subSamplingH fmt))
           (VS.p_stride (plane_at dst p)) 128)) as [-> ->]; [lia|].
  - destruct (plane_selected d q).
    + destruct (Create _ _ _ _ _ _ _ _ _) as [c'|]; [|done].
      intros [= <-]. simpl. rewrite !length_with_data. split; [done|].
      rewrite !plane_at_with_data_ne by lia. done.
    + intros [= <-]. simpl. rewrite !length_with_data. split; [done|].
      rewrite !plane_at_with_data_ne by lia. done.
Qed.

Lemma frame_step_returns d fmt fuel src1 src2 src3 q st :
  raw d = true \/ plane_selected d q = false ->
  exists st', frame_step d fmt fuel src1 src2 src3 q st = Some st'.
Proof.
  intros H. destruct st as [c dst]. unfold frame_step.
  destruct (plane_selected d q) eqn:E.
  - destruct H as [H|H]; [|done]. rewrite H, Create_raw.
    destruct (show d); by eexists.
  - destruct (show d); by eexists.
Qed.

(** [fillPlane] sets every sample of the rectangle to the value. *)
Lemma fillPlane_spec data width height stride value :
  0 <= width <= stride -> 0 < height ->
  (height - 1) * stride + width <= Z.of_nat (length data) ->
  length (fillPlane data width height stride value) = length data /\
  forall r x, 0 <= r < height -> 0 <= x < width ->
    rd (fillPlane data width height stride value) (r * stride + x) = to_uchar value.
Proof.
  intros Hw Hh Hlen. unfold fillPlane.
  cut (let od := for_up 0 height
         (fun _ od =>
            (fst od + stride,
             for_up 0 width (fun x d => wr d (fst od + x) (to_uchar value)) (snd od)))
         (0, data) in
       fst od = height * stride /\ length (snd od) = length data /\
       forall r x, 0 <= r < height -> 0 <= x < width ->
         rd (snd od) (r * stride + x) = to_uchar value).
  { cbv zeta. intros (_ & ? & ?). done. }
  apply (for_up_ind (fun h od =>
    fst od = h * stride /\ length (snd od) = length data /\
    forall r x, 0 <= r < h -> 0 <= x < width ->
      rd (snd od) (r * stride + x) = to_uchar value)); [lia | | ].
  - split; [done|]. split; [done|]. intros r x Hr Hx. lia.
  - intros h [off d] Hhr (Hoff & Hl & Hd). simpl in *. subst off.
    split; [lia|].
    cut (let d' := for_up 0 width
           (fun x d => wr d (h * stride + x) (to_uchar value)) d in
         length d' = length data /\
         forall r x, 0 <= r < h + 1 -> 0 <= x < width -> (r = h -> x < width) ->
           rd d' (r * stride + x) = to_uchar value).
    { cbv zeta. intros [? Hall]. split; [done|]. intros r x Hr Hx.
      apply Hall; [done | done | lia]. }
    apply (for_up_ind (fun j d' =>
      length d' = length data /\
      forall r x, 0 <= r < h + 1 -> 0 <= x < width -> (r = h -> x < j) ->
        rd d' (r * stride + x) = to_uchar value)); [lia | | ].
    + split; [done|]. intros r x Hr Hx Hj. apply Hd; [|done].
      destruct (Z.eq_dec r h) as [E|]; [specialize (Hj E)|]; lia.
    + intros j d' Hj [Hl' Hd']. split; [by rewrite length_wr|].
      intros r x Hr Hx Hrj.
      assert (0 <= h * stride + j < Z.of_nat (length data)) as Ho1 by nia.
      assert (0 <= r * stride + x) as Ho2 by nia.
      rewrite rd_wr by lia.
      destruct (Z.eqb_spec (h * stride + j) (r * stride + x)) as [E|Hne]; [done|].
      apply Hd'; [done | done |]. intros ->. specialize (Hrj eq_refl).
      assert (x <> j) by (intros ->; done). lia.
Qed.

(** With [show], a plane other than plane 0 that is not selected comes out
    as the plane of clip3 with its top-left rectangle filled with 128. *)
Lemma GetFrame_show_unselected d fmt fuel curve fresh src1 src2 src3 :
  show d = true -> debug d = false -> raw d = true ->
  VS.format (vi d) = Some fmt -> VS.numPlanes fmt = 3 ->
  plane_selected d 1 = false ->
  exists out,
    MatchHistogramGetFrame d fuel curve fresh src1 src2 src3 = Some out /\
    VS.p_data (plane_at out 1)
    = fillPlane (VS.p_data (plane_at src3 1))
        (Z.shiftr 256 (VS.subSamplingW fmt)) (Z.shiftr 256 (VS.subSamplingH fmt))
        (VS.p_stride (plane_at src3 1)) 128.
Proof.
  intros Hshow Hdebug Hraw Hfmt Hn Hsel. unfold MatchHistogramGetFrame.
  rewrite Hfmt, Hdebug, Hn. cbv zeta.
  set (dst0 := newVideoFrame2 _ _ _ _).
  assert (length dst0 = 3%nat) as Hl0
    by (unfold dst0, newVideoFrame2; by rewrite length_fmap, length_seqZ).
  assert (plane_at dst0 1 = plane_at src3 1) as Hp0.
  { unfold dst0. rewrite newVideoFrame2_plane by lia. cbn. by rewrite Hsel. }
  clearbody dst0. change (seqZ 0 3) with [0; 1; 2]. cbn [plane_loop].
  destruct (frame_step_returns d fmt fuel src1 src2 src3 0 (curve, dst0)
              (or_introl Hraw)) as ([c1 dst1] & E1).
  rewrite E1.
  destruct (frame_step_returns d fmt fuel src1 src2 src3 1 (c1, dst1)
              (or_introl Hraw)) as ([c2 dst2] & E2).
  rewrite E2.
  destruct (frame_step_returns d fmt fuel src1 src2 src3 2 (c2, dst2)
              (or_introl Hraw)) as ([c3 dst3] & E3).
  rewrite E3.
  exists dst3. split; [reflexivity|].
  assert (1 <= 1 < Z.of_nat (length dst0)) as Hr0 by (rewrite Hl0; lia).
  destruct (frame_step_show d fmt fuel src1 src2 src3 0 curve dst0 (c1, dst1) 1
              Hshow ltac:(lia) Hr0 Hsel E1) as (Hl1 & Hs1 & Hd1).
  simpl snd in Hl1, Hs1, Hd1.
  assert (1 <= 1 < Z.of_nat (length dst1)) as Hr1 by (rewrite Hl1, Hl0; lia).
  destruct (frame_step_show d fmt fuel src1 src2 src3 1 c1 dst1 (c2, dst2) 1
              Hshow ltac:(lia) Hr1 Hsel E2) as (Hl2 & Hs2 & Hd2).
  simpl snd in Hl2, Hs2, Hd2.
  assert (1 <= 1 < Z.of_nat (length dst2)) as Hr2 by (rewrite Hl2, Hl1, Hl0; lia).
  destruct (frame_step_show d fmt fuel src1 src2 src3 2 c2 dst2 (c3, dst3) 1
              Hshow ltac:(lia) Hr2 Hsel E3) as (Hl3 & Hs3 & Hd3).
  simpl snd in Hl3, Hs3, Hd3.
  change (0 =? 1) with false in Hd1. change (1 =? 1) with true in Hd2.
  change (2 =? 1) with false in Hd3. cbv iota in Hd1, Hd2, Hd3.
  by rewrite Hd3, Hd2, Hs1, Hd1, Hp0.
Qed.

(** * Filter construction *)

Lemma int64ToIntS_in_range v n :
  0 <= n <= 3 ->
  ((int64ToIntS v <? 0) || (n <=? int64ToIntS v) = false <-> 0 <= v < n) /\
  (0 <= v < n -> int64ToIntS v = v).
Proof.
  intros Hn. unfold int64ToIntS, INT_MAX, INT_MIN.
  destruct (Z.ltb_spec (2 ^ 31 - 1) v), (Z.ltb_spec v (- 2 ^ 31));
    rewrite orb_false_iff, Z.ltb_ge, Z.leb_gt; lia.
Qed.

Lemma int64ToIntS_negative v : int64ToIntS v < 0 <-> v < 0.
Proof.
  unfold int64ToIntS, INT_MAX, INT_MIN.
  destruct (Z.ltb_spec (2 ^ 31 - 1) v), (Z.ltb_spec v (- 2 ^ 31)); lia.
Qed.

Lemma selected_count_wr process o :
  length process = 3%nat -> 0 <= o < 3 -> rd process o = 0 ->
  selected_count (wr process o 1) = selected_count process + 1.
Proof.
  intros Hl Ho Hz. unfold selected_count. rewrite !rd_wr by lia.
  assert (o = 0 \/ o = 1 \/ o = 2) as [-> | [-> | ->]] by lia; simpl; lia.
Qed.

Lemma select_planes_spec n planes : forall process seen,
  0 <= n <= 3 -> length process = 3%nat ->
  (forall o, 0 <= o < n -> (rd process o <> 0 <-> o ∈ seen)) ->
  match select_planes n planes process with
  | inl err =>
      (err = Error (message PlaneOutOfRange) /\
       exists v, v ∈ planes /\ ~ (0 <= v < n)) \/
      (err = Error (message PlaneTwice) /\ ~ NoDup (seen ++ planes))
  | inr process' =>
      (forall v, v ∈ planes -> 0 <= v < n) /\ NoDup planes /\
      (forall v, v ∈ planes -> v ∉ seen) /\
      selected_count process' = selected_count process + Z.of_nat (length planes)
  end.
Proof.
  induction planes as [|v rest IH]; intros process seen Hn Hl Hinv.
  - simpl. split; [by intros v Hv; apply elem_of_nil in Hv|].
    split; [constructor|]. split; [by intros v Hv; apply elem_of_nil in Hv | lia].
  - cbn [select_planes]. cbv zeta.
    destruct (int64ToIntS_in_range v n Hn) as [Hrange Hsat].
    destruct ((int64ToIntS v <? 0) || (n <=? int64ToIntS v)) eqn:E.
    { left. split; [done|]. exists v. split; [apply elem_of_cons; by left|].
      intros Hv. apply Hrange in Hv. congruence. }
    assert (0 <= v < n) as Hv by (by apply Hrange). rewrite (Hsat Hv).
    destruct (Z.eqb_spec (rd process v) 0) as [Hz|Hz]; cbn [negb].
    + specialize (IH (wr process v 1) (seen ++ [v]) Hn).
      rewrite length_wr in IH. specialize (IH Hl).
      assert (forall o, 0 <= o < n ->
                (rd (wr process v 1) o <> 0 <-> o ∈ seen ++ [v])) as Hinv'.
      { intros o Ho. rewrite rd_wr by lia. rewrite elem_of_app, list_elem_of_singleton.
        destruct (Z.eqb_spec v o) as [->|Hne].
        - split; [by right | done].
        - rewrite (Hinv o Ho). split; [by left | intros [?|?]; [done | congruence]]. }
      specialize (IH Hinv').
      destruct (select_planes n rest (wr process v 1)) as [err|process'].
      * destruct IH as [(-> & u & Hu & Hur)|(-> & Hdup)].
        -- left. split; [done|]. exists u. split; [apply elem_of_cons; by right | done].
        -- right. split; [done|]. by rewrite <- app_assoc in Hdup.
      * destruct IH as (Hall & Hnd & Hdisj & Hcount).
        split; [|split; [|split]].
        -- intros u Hu. apply elem_of_cons in Hu as [->|Hu]; [done | by apply Hall].
        -- apply NoDup_cons. split; [|done]. intros Hin.
           apply (Hdisj v Hin). apply elem_of_app. right. by apply list_elem_of_singleton.
        -- intros u Hu Hseen. apply elem_of_cons in Hu as [->|Hu].
           ++ by apply (Hinv v Hv) in Hseen.
           ++ apply (Hdisj u Hu). apply elem_of_app. by left.
        -- rewrite Hcount, selected_count_wr by (done || lia).
           rewrite length_cons. lia.
    + right. split; [done|]. intros Hnd. apply NoDup_app in Hnd as (_ & Hdisj & _).
      apply (Hdisj v); [by apply Hinv | apply elem_of_cons; by left].
Qed.

Lemma message_inj k1 k2 : message k1 = message k2 -> k1 = k2.
Proof. destruct k1, k2; simpl; intros H; try reflexivity; discriminate H. Qed.

(** Nothing on the list holds when every check of the code has passed. *)
Lemma no_config_error a fmt :
  (forall v, arg_smoothing_window a = Some v -> 0 <= v) ->
  VS.format (arg_clip1 a) = VS.format (arg_clip2 a) ->
  VS.format (arg_clip1 a) = VS.format (clip3_info a) ->
  VS.width (arg_clip1 a) = VS.width (arg_clip2 a) ->
  VS.height (arg_clip1 a) = VS.height (arg_clip2 a) ->
  VS.format (arg_clip1 a) = Some fmt ->
  VS.width (arg_clip1 a) <> 0 -> VS.height (arg_clip1 a) <> 0 ->
  VS.width (clip3_info a) <> 0 -> VS.height (clip3_info a) <> 0 ->
  VS.colorFamily fmt <> VS.cmRGB -> VS.bitsPerSample fmt <= 8 ->
  (forall v, v ∈ planes_of a -> 0 <= v < VS.numPlanes fmt) ->
  NoDup (planes_of a) ->
  (show_in_effect a = true ->
   ~ too_small (arg_clip1 a) /\ ~ too_small (clip3_info a)) ->
  (flag (arg_debug a) = true -> (length (planes_of a) <= 1)%nat) ->
  forall k, ~ error_holds show_in_effect k a.
Proof.
  intros Hsw Hf2 Hf3 Hw2 Hh2 Hfmt Hw1 Hh1 Hw3 Hh3 Hrgb Hbits Hrange Hnd Hshow Hdebug k.
  destruct k; simpl.
  - intros (v & Hv & Hneg). specialize (Hsw v Hv). lia.
  - intros [?|?]; done.
  - intros [?|?]; done.
  - unfold not_constant. rewrite <- Hf2, <- Hf3, <- Hw2, <- Hh2, Hfmt.
    intros [[?|[?|?]]|[[?|[?|?]]|[?|[?|?]]]]; done.
  - intros (fmt' & Hfmt' & Hbad). rewrite Hfmt in Hfmt'. injection Hfmt' as <-.
    destruct Hbad; [done | lia].
  - intros (fmt' & v & Hfmt' & Hin & Hbad). rewrite Hfmt in Hfmt'.
    injection Hfmt' as <-. by apply Hbad, Hrange.
  - intros Hdup. by apply Hdup.
  - intros [Hs Hsmall]. destruct (Hshow Hs) as [H1 H3]. destruct Hsmall; done.
  - intros [Hd Hlen]. specialize (Hdebug Hd). lia.
Qed.

(** The result of [MatchHistogramCreate], check by check. *)
Lemma MatchHistogramCreate_spec a :
  formats_ok a ->
  match MatchHistogramCreate a with
  | Error msg => exists k, msg = message k /\ error_holds show_in_effect k a
  | Filter data => forall k, ~ error_holds show_in_effect k a
  end.
Proof.
  intros Hok. unfold MatchHistogramCreate. cbv zeta.
  change (match arg_clip3 a with Some c => c | None => arg_clip1 a end)
    with (clip3_info a).
  fold (planes_of a).
  (* smoothing_window *)
  destruct (Z.ltb_spec
              match arg_smoothing_window a with
              | Some v => int64ToIntS v
              | None => 8
              end 0) as [Hsw|Hsw].
  { exists NegativeWindow. split; [done|]. simpl.
    destruct (arg_smoothing_window a) as [v|]; [|lia].
    exists v. split; [done|]. by apply int64ToIntS_negative. }
  assert (forall v, arg_smoothing_window a = Some v -> 0 <= v) as Hsw'.
  { intros v Hv. rewrite Hv in Hsw.
    destruct (Z_lt_le_dec v 0) as [Hneg|]; [|done].
    apply int64ToIntS_negative in Hneg. lia. }
  (* formats *)
  destruct (bool_decide_reflect (VS.format (arg_clip1 a) = VS.format (arg_clip2 a)))
    as [Hf2|Hf2]; cbn [negb orb];
    [|exists FormatMismatch; split; [done | by left]].
  destruct (bool_decide_reflect (VS.format (arg_clip1 a) = VS.format (clip3_info a)))
    as [Hf3|Hf3]; cbn [negb];
    [|exists FormatMismatch; split; [done | by right]].
  (* dimensions *)
  destruct (Z.eqb_spec (VS.width (arg_clip1 a)) (VS.width (arg_clip2 a)))
    as [Hw2|Hw2]; cbn [negb orb];
    [|exists DimensionMismatch; split; [done | by left]].
  destruct (Z.eqb_spec (VS.height (arg_clip1 a)) (VS.height (arg_clip2 a)))
    as [Hh2|Hh2]; cbn [negb];
    [|exists DimensionMismatch; split; [done | by right]].
  (* constant format and dimensions *)
  destruct (VS.format (arg_clip1 a)) as [fmt|] eqn:Hfmt;
    [|exists NotConstant; split; [done | by left; left]].
  rewrite <- Hfmt in Hf2, Hf3.
  destruct (Z.eqb_spec (VS.width (arg_clip1 a)) 0) as [Hw1|Hw1]; cbn [orb];
    [exists NotConstant; split; [done | by left; right; left]|].
  destruct (Z.eqb_spec (VS.height (arg_clip1 a)) 0) as [Hh1|Hh1]; cbn [orb];
    [exists NotConstant; split; [done | by left; right; right]|].
  destruct (Z.eqb_spec (VS.width (clip3_info a)) 0) as [Hw3|Hw3]; cbn [orb];
    [exists NotConstant; split; [done | by right; right; right; left]|].
  destruct (Z.eqb_spec (VS.height (clip3_info a)) 0) as [Hh3|Hh3];
    [exists NotConstant; split; [done | by right; right; right; right]|].
  (* the format itself *)
  destruct (bool_decide_reflect (VS.colorFamily fmt = VS.cmRGB)) as [Hrgb|Hrgb];
    cbn [orb];
    [exists UnsupportedFormat; split; [done|]; exists fmt; split; [done | by left]|].
  destruct (Z.ltb_spec 8 (VS.bitsPerSample fmt)) as [Hbits|Hbits];
    [exists UnsupportedFormat; split; [done|]; exists fmt; split; [done | by right]|].
  (* planes *)
  pose proof (Hok fmt Hfmt) as Hn.
  set (process0 := if match arg_planes a with
                      | Some l => Z.of_nat (length l)
                      | None => -1
                      end <=? 0 then [1; 0; 0] else [0; 0; 0]).
  assert (length process0 = 3%nat) as Hl0 by (unfold process0; by destruct (_ <=? _)).
  assert (selected_count process0 + Z.of_nat (length (planes_of a))
          = Z.max 1 (Z.of_nat (length (planes_of a))) /\
          (planes_of a = [] \/ process0 = [0; 0; 0])) as [Hcount0 Hzero].
  { unfold process0, planes_of. destruct (arg_planes a) as [l|]; cbn [default from_option id].
    - destruct (Z.leb_spec (Z.of_nat (length l)) 0) as [Hle|Hgt].
      + destruct l; [by auto | rewrite length_cons in Hle; lia].
      + change (selected_count [0; 0; 0]) with 0. split; [lia | by right].
    - split; [reflexivity | by left]. }
  assert (match select_planes (VS.numPlanes fmt) (planes_of a) process0 with
          | inl err =>
              (err = Error (message PlaneOutOfRange) /\
               exists v, v ∈ planes_of a /\ ~ (0 <= v < VS.numPlanes fmt)) \/
              (err = Error (message PlaneTwice) /\ ~ NoDup (planes_of a))
          | inr process' =>
              (forall v, v ∈ planes_of a -> 0 <= v < VS.numPlanes fmt) /\
              NoDup (planes_of a) /\
              selected_count process'
              = selected_count process0 + Z.of_nat (length (planes_of a))
          end) as Hsel.
  { destruct Hzero as [Hnil|Hz].
    - rewrite Hnil. simpl. split; [by intros v Hv; apply elem_of_nil in Hv|].
      split; [constructor | lia].
    - pose proof (select_planes_spec (VS.numPlanes fmt) (planes_of a) process0 []
                    ltac:(lia) Hl0) as H.
      destruct (select_planes _ _ _) as [err|process'].
      + apply H. intros o Ho. rewrite Hz.
        assert (o = 0 \/ o = 1 \/ o = 2) as [-> | [-> | ->]] by lia;
          (split; [done | by intros Hin; apply elem_of_nil in Hin]).
      + destruct H as (? & ? & _ & ?); [|done]. intros o Ho. rewrite Hz.
        assert (o = 0 \/ o = 1 \/ o = 2) as [-> | [-> | ->]] by lia;
          (split; [done | by intros Hin; apply elem_of_nil in Hin]). }
  destruct (select_planes (VS.numPlanes fmt) (planes_of a) process0)
    as [err|process'].
  { destruct Hsel as [(-> & v & Hv & Hbad)|(-> & Hdup)].
    - exists PlaneOutOfRange. split; [done|]. exists fmt, v. by rewrite Hfmt.
    - exists PlaneTwice. split; done. }
  destruct Hsel as (Hrange & Hnd & Hcount). rewrite Hcount0 in Hcount.
  (* show *)
  assert (show_in_effect a = if flag (arg_debug a) then false else flag (arg_show a))
    as Hshow by (unfold show_in_effect; by destruct (flag (arg_debug a)), (flag (arg_show a))).
  rewrite <- Hshow.
  destruct (show_in_effect a) eqn:Eshow; cbn [andb].
  - destruct (Z.ltb_spec (VS.width (arg_clip1 a)) 256) as [Hs1|Hs1]; cbn [orb];
      [exists ShowTooSmall; split; [done|]; split; [done | by left; left]|].
    destruct (Z.ltb_spec (VS.height (arg_clip1 a)) 256) as [Hs2|Hs2]; cbn [orb];
      [exists ShowTooSmall; split; [done|]; split; [done | by left; right]|].
    destruct (Z.ltb_spec (VS.width (clip3_info a)) 256) as [Hs3|Hs3]; cbn [orb];
      [exists ShowTooSmall; split; [done|]; split; [done | by right; left]|].
    destruct (Z.ltb_spec (VS.height (clip3_info a)) 256) as [Hs4|Hs4];
      [exists ShowTooSmall; split; [done|]; split; [done | by right; right]|].
    assert (flag (arg_debug a) = false) as Hdbg
      by (unfold show_in_effect in Eshow; by destruct (flag (arg_debug a)), (flag (arg_show a))).
    rewrite Hdbg.
    apply (no_config_error a fmt Hsw' Hf2 Hf3 Hw2 Hh2 Hfmt Hw1 Hh1 Hw3 Hh3
             Hrgb Hbits Hrange Hnd).
    + intros _. unfold too_small. lia.
    + rewrite Hdbg. done.
  - destruct (flag (arg_debug a)) eqn:Hdbg.
    + destruct (Z.ltb_spec 1 (rd process' 0 + rd process' 1 + rd process' 2))
        as [Hmany|Hone].
      * exists DebugManyPlanes. split; [done|]. split; [done|].
        unfold selected_count in Hcount. lia.
      * apply (no_config_error a fmt Hsw' Hf2 Hf3 Hw2 Hh2 Hfmt Hw1 Hh1 Hw3 Hh3
                 Hrgb Hbits Hrange Hnd); [by rewrite Eshow|].
        intros _. unfold selected_count in Hcount. lia.
    + apply (no_config_error a fmt Hsw' Hf2 Hf3 Hw2 Hh2 Hfmt Hw1 Hh1 Hw3 Hh3
               Hrgb Hbits Hrange Hnd); [by rewrite Eshow | congruence].
Qed.

(** * The properties of the specification *)

Lemma key_defined this ptr1 ptr2 width height stride h w :
  wf this ->
  plane_ok ptr1 width height stride -> plane_ok ptr2 width height stride ->
  width * height < 2 ^ 32 ->
  0 <= h < height -> 0 <= w < width ->
  0 <= sample ptr1 stride h w < 256 /\
  defined (accumulate this ptr1 ptr2 width height stride) (sample ptr1 stride h w).
Proof.
  intros Hwf H1 H2 Hn Hh Hw. destruct (H1 h w Hh Hw) as [_ Hk]. split; [done|].
  destruct (accumulate_spec this ptr1 ptr2 width height stride Hwf H1 H2)
    as (_ & Hs). cbv zeta in Hs.
  destruct (Hs _ Hk) as (_ & Hd & _). unfold defined, sample. rewrite Hd.
  assert (0 < exact_count (plane_pixels ptr1 ptr2 width height stride)
                (rd ptr1 (h * stride + w))) as Hpos.
  { apply exact_count_pos. exists (rd ptr2 (h * stride + w)).
    by apply plane_pixels_elem. }
  pose proof (exact_count_nonneg (plane_pixels ptr1 ptr2 width height stride)
                (rd ptr1 (h * stride + w))) as Hb.
  rewrite length_plane_pixels in Hb by lia.
  rewrite wrap_uint_small; lia.
Qed.

Lemma two_keys_two_defined this ptr1 ptr2 width height stride :
  wf this ->
  plane_ok ptr1 width height stride -> plane_ok ptr2 width height stride ->
  width * height < 2 ^ 32 ->
  two_key_values ptr1 width height stride ->
  two_defined (accumulate this ptr1 ptr2 width height stride).
Proof.
  intros Hwf H1 H2 Hn (h1 & w1 & h2 & w2 & [Hh1 Hw1] & [Hh2 Hw2] & Hne).
  destruct (key_defined this ptr1 ptr2 width height stride h1 w1) as [Hr1 Hd1]; auto.
  destruct (key_defined this ptr1 ptr2 width height stride h2 w2) as [Hr2 Hd2]; auto.
  destruct (Z_lt_le_dec (sample ptr1 stride h1 w1) (sample ptr1 stride h2 w2)).
  - exists (sample ptr1 stride h1 w1), (sample ptr1 stride h2 w2).
    repeat split; auto; lia.
  - exists (sample ptr1 stride h2 w2), (sample ptr1 stride h1 w1).
    repeat split; auto; lia.
Qed.

Lemma postprocess_not_flat fuel w s :
  find_flat s = -1 ->
  postprocess fuel w s
  = match interpolate fuel s with
    | Some s' => Some (final_curve (smooth w s'))
    | None => None
    end.
Proof. intros H. unfold postprocess. by rewrite H. Qed.

Lemma interpolate_result fuel s s' :
  wf s -> consistent s -> two_defined s -> interpolate fuel s = Some s' ->
  good s' /\ all_defined s'.
Proof.
  intros Hwf Hc (a & b & Hab & Hb & Hda & Hdb) H. unfold interpolate in H.
  destruct (fill_gaps_spec s Hwf Hc) as (Hwf' & Hc' & Hext & Hcont).
  assert (good (fill_gaps s)) as Hg.
  { repeat (split; [done|]). exists a, b. repeat split; auto; try lia; apply Hext; auto; lia. }
  destruct (extend_loop_result fuel _ _ Hg H) as (? & _ & ?). done.
Qed.

Lemma finished_fully_defined w s :
  good s -> all_defined s -> w < 2 ^ 31 ->
  fully_defined (final_curve (smooth w s)).
Proof.
  intros (Hwf & _) Hall Hw.
  destruct (smooth_spec w s Hwf Hw Hall) as (Hwf1 & _ & Hall1).
  destruct (final_curve_spec _ Hwf1) as (_ & Hs & Hd & Hcv).
  intros i Hi. rewrite Hd, Hcv by done. split; [by apply Hall1|].
  split; [symmetry; by apply raw_value_ext|]. apply to_uchar_range.
Qed.

(** C1 (amended).  For planes of fewer than 2^32 pixels whose key plane
    holds at least two distinct values, [Create] with [raw = false] returns,
    and in the state it returns every index [0..255] is defined: [div[i]] is
    not zero and [curve[i]] is the byte obtained from [sum[i]] and [div[i]]. *)
Theorem C1_full_coverage this ptr1 ptr2 width height stride smoothing_window :
  wf this ->
  plane_ok ptr1 width height stride -> plane_ok ptr2 width height stride ->
  width * height < 2 ^ 32 ->
  two_key_values ptr1 width height stride ->
  INT_MIN <= smoothing_window <= INT_MAX ->
  (exists st, Create 257 this ptr1 ptr2 width height stride false smoothing_window
              = Some st) /\
  (forall fuel st,
     Create fuel this ptr1 ptr2 width height stride false smoothing_window = Some st ->
     fully_defined st).
Proof.
  intros Hwf H1 H2 Hn Hkeys Hw. unfold INT_MAX in Hw.
  pose proof (two_keys_two_defined _ _ _ _ _ _ Hwf H1 H2 Hn Hkeys) as Htwo.
  destruct (accumulate_consistent this ptr1 ptr2 width height stride Hwf) as [Hwf0 Hc0].
  assert (find_flat (accumulate this ptr1 ptr2 width height stride) = -1) as Hflat.
  { destruct Htwo as (a & b & Hab & Hb & Hda & Hdb). by apply (find_flat_two _ a b). }
  unfold Create. cbn [negb]. rewrite !postprocess_not_flat by done. split.
  - destruct (interpolate_terminates 257 _ Hwf0 Hc0 Htwo) as (s' & -> & _); [lia|].
    by eexists.
  - intros fuel st. rewrite postprocess_not_flat by done.
    destruct (interpolate fuel _) as [s'|] eqn:E; [|done]. intros [= <-].
    destruct (interpolate_result _ _ _ Hwf0 Hc0 Htwo E) as [Hg Hall].
    apply finished_fully_defined; auto. lia.
Qed.

(** C4.  When [flat] stays [-1], the postprocessing with a smoothing window
    of 0 yields exactly the curve that gap interpolation and boundary
    extrapolation have left; the smoothing stage changes nothing; running
    the postprocessing a second time on the result returns the same curve;
    and the postprocessing returns as soon as one index is defined. *)
Theorem C4_window0_noop this ptr1 ptr2 width height stride :
  wf this ->
  find_flat (accumulate this ptr1 ptr2 width height stride) = -1 ->
  window0_noop (accumulate this ptr1 ptr2 width height stride) /\
  forall fuel,
    option_map curve (Create fuel this ptr1 ptr2 width height stride false 0)
    = option_map curve
        (interpolate fuel (accumulate this ptr1 ptr2 width height stride)).
Proof.
  intros Hwf Hflat.
  destruct (accumulate_consistent this ptr1 ptr2 width height stride Hwf) as [Hwf0 Hc0].
  set (s0 := accumulate this ptr1 ptr2 width height stride) in *.
  assert (forall fuel s1, interpolate fuel s0 = Some s1 ->
            final_curve (smooth 0 s1) = s1 /\ good s1 /\ all_defined s1) as Hid.
  { intros fuel s1 E. destruct (find_flat_none s0 Hflat) as [Hnone|Htwo].
    - by rewrite interpolate_none in E.
    - destruct (interpolate_result _ _ _ Hwf0 Hc0 Htwo E) as [Hg Hall].
      split; [|done]. rewrite smooth_0. destruct Hg as (? & ? & _).
      by apply final_curve_id. }
  assert (forall fuel, option_map curve (postprocess fuel 0 s0)
                       = option_map curve (interpolate fuel s0)) as Hcurve.
  { intros fuel. rewrite postprocess_not_flat by done.
    destruct (interpolate fuel s0) as [s1|] eqn:E; [|done].
    destruct (Hid fuel s1 E) as [-> _]. done. }
  split; [|intros fuel; unfold Create; cbn [negb]; apply Hcurve].
  split; [done|]. split; [intros; apply smooth_0|]. split.
  - intros fuel s1. rewrite postprocess_not_flat by done.
    destruct (interpolate fuel s0) as [s'|] eqn:E; [|done]. intros [= <-].
    destruct (Hid fuel s' E) as (-> & Hg & Hall).
    destruct fuel as [|fuel]; [done|].
    exists s'. split; [|done].
    assert (find_flat s' = -1) as Hflat'
      by (apply (find_flat_two s' 0 1); try lia; apply Hall; lia).
    rewrite postprocess_not_flat, interpolate_all_defined by done.
    f_equal. rewrite smooth_0. destruct Hg as (? & ? & _).
    by apply final_curve_id.
  - intros (i & Hi & Hd). rewrite postprocess_not_flat by done.
    destruct (find_flat_none s0 Hflat) as [Hnone|Htwo]; [exfalso; by apply Hd, Hnone|].
    destruct (interpolate_terminates 257 s0 Hwf0 Hc0 Htwo) as (s1 & -> & _); [lia|].
    by eexists.
Qed.


(** C3 (amended).  When the key plane is the constant [k] and the sum of
    the value samples plus half the pixel count, and the pixel count, fit an
    [int], [Create] with [raw = false] returns a curve that is everywhere
    the sum of the value samples divided by the pixel count, rounded to
    nearest with ties away from zero. *)
Theorem C3_uniform_source this ptr1 ptr2 width height stride k
    smoothing_window fuel :
  wf this ->
  plane_ok ptr1 width height stride -> plane_ok ptr2 width height stride ->
  1 <= width -> 1 <= height -> 0 <= k < 256 ->
  constant_key ptr1 width height stride k ->
  let total := sample_total (plane_pixels ptr1 ptr2 width height stride) in
  width * height <= INT_MAX ->
  total + (width * height) / 2 <= INT_MAX ->
  exists st c,
    Create fuel this ptr1 ptr2 width height stride false smoothing_window = Some st /\
    nearest_away total (width * height) c /\
    forall i, 0 <= i < 256 -> rd (curve st) i = c.
Proof.
  intros Hwf H1 H2 Hw Hh Hk Hconst total Hn Htot. unfold INT_MAX in *.
  destruct (accumulate_constant_key this ptr1 ptr2 width height stride k)
    as (Hwf0 & Hs & Hd & Hother & Hc); auto; try lia.
  fold total in Hs.
  set (s := accumulate this ptr1 ptr2 width height stride) in *.
  pose proof (plane_pixels_ok _ _ _ _ _ H1 H2) as Hpx.
  pose proof (sample_total_bound _ Hpx) as Hb. fold total in Hb.
  rewrite length_plane_pixels in Hb by lia.
  assert (1 <= width * height) as Hpos by nia.
  assert (0 <= (width * height) / 2) as Hhalf by (apply Z.div_pos; lia).
  rewrite wrap_uint_small in Hs, Hd by lia.
  assert (defined s k) as Hdef by (unfold defined; lia).
  destruct (postprocess_uniform fuel smoothing_window s k) as (st & Hst & _ & Hcurve);
    auto.
  exists st, ((total + (width * height) / 2) ÷ (width * height)).
  split; [by unfold Create|]. split; [apply round_quot_nonneg; lia|].
  intros i Hi. rewrite (Hcurve i Hi), Hc.
  destruct (Z.eqb_spec (rd (div s) k) 0); [lia|].
  unfold raw_value. rewrite Hs, Hd, !to_int_small by lia.
  rewrite IntDiv_no_overflow by (unfold INT_MIN, INT_MAX; lia).
  destruct (Z.ltb_spec total 0); [lia|].
  apply to_uchar_small. rewrite Z.quot_div_nonneg by lia.
  split; [apply Z.div_pos; lia|].
  apply Z.div_lt_upper_bound; [lia|].
  pose proof (Z.div_mod (width * height) 2 ltac:(lia)).
  pose proof (Z.mod_pos_bound (width * height) 2 ltac:(lia)). lia.
Qed.

(** C7 (amended).  After the accumulation pass [sum[v]] is the sum of the
    value samples co-located with key [v], reduced modulo 2^32: it is that
    sum exactly when the sum is below 2^32, which holds for every plane with
    [width * height * 255 < 2^32]. *)
Theorem C7_sum_modulo this ptr1 ptr2 width height stride v :
  wf this ->
  plane_ok ptr1 width height stride -> plane_ok ptr2 width height stride ->
  0 <= v < 256 ->
  let px := plane_pixels ptr1 ptr2 width height stride in
  let s := accumulation_pass this ptr1 ptr2 width height stride in
  rd (sum s) v = wrap_uint (exact_sum px v) /\
  (exact_sum px v < 2 ^ 32 -> rd (sum s) v = exact_sum px v) /\
  (0 <= width -> 0 <= height -> width * height * 255 < 2 ^ 32 ->
   rd (sum s) v = exact_sum px v).
Proof.
  intros Hwf H1 H2 Hv px s.
  destruct (accumulation_pass_spec this ptr1 ptr2 width height stride v Hwf H1 H2 Hv)
    as [E _]. fold px s in E.
  pose proof (plane_pixels_ok _ _ _ _ _ H1 H2) as Hpx. fold px in Hpx.
  pose proof (exact_sum_bound px v Hpx) as Hb.
  pose proof (exact_count_nonneg px v) as Hcnt.
  split; [done|]. split.
  - intros Hlt. rewrite E. apply wrap_uint_small. lia.
  - intros Hw Hh Hsmall. rewrite E. apply wrap_uint_small.
    pose proof (length_plane_pixels ptr1 ptr2 width height stride Hw Hh) as Hlen.
    fold px in Hlen. lia.
Qed.

(** C6 (amended).  For [int] arguments with [0 < y] for which neither
    [x + (y >> 1)] nor [x - (y >> 1)] leaves the range of [int], [IntDiv x y]
    is the integer nearest to [x / y], a tie being rounded away from zero. *)
Theorem C6_IntDiv_rounds x y :
  0 < y -> INT_MIN <= x - y / 2 -> x + y / 2 <= INT_MAX ->
  nearest_away x y (IntDiv x y).
Proof.
  intros Hy Hlo Hhi. rewrite IntDiv_no_overflow by done.
  destruct (Z.ltb_spec x 0); [by apply round_quot_neg | by apply round_quot_nonneg].
Qed.

Lemma C6_witness :
  (0 < 4 /\ INT_MIN <= 10 - 4 / 2 /\ 10 + 4 / 2 <= INT_MAX) /\
  nearest_away 10 4 (IntDiv 10 4).
Proof.
  assert (0 < 4 /\ INT_MIN <= 10 - 4 / 2 /\ 10 + 4 / 2 <= INT_MAX) as H
    by (vm_compute; repeat split; discriminate).
  split; [exact H|]. destruct H as (H1 & H2 & H3). exact (C6_IntDiv_rounds 10 4 H1 H2 H3).
Defined.

(** C6 as stated fails where the intermediate sum overflows: [IntDiv] of
    [INT_MAX] and 2 is negative. *)
Lemma C6_counterexample :
  (INT_MIN <= 2147483647 <= INT_MAX /\ 0 < 2 <= INT_MAX) /\
  IntDiv 2147483647 2 = -1073741824 /\
  ~ nearest_away 2147483647 2 (IntDiv 2147483647 2).
Proof.
  split; [unfold INT_MIN, INT_MAX; lia|]. split; [reflexivity|].
  change (IntDiv 2147483647 2) with (-1073741824).
  unfold nearest_away. lia.
Qed.

(** C1 as stated fails for a key plane of 65536 x 65537 pixels whose first
    2^32 pixels are 0 and whose last row is 1: the count of key 0 wraps
    to 0, [flat] becomes 1 and index 0 stays undefined. *)
Lemma C1_counterexample :
  plane_ok two_tone_key 65536 65537 65536 /\
  plane_ok (flat_plane (65536 * 65537) 0) 65536 65537 65536 /\
  two_key_values two_tone_key 65536 65537 65536 /\
  exists st,
    Create 257 blank two_tone_key (flat_plane (65536 * 65537) 0)
      65536 65537 65536 false 8 = Some st /\
    rd (div st) 0 = 0.
Proof.
  assert (plane_ok (flat_plane (65536 * 65537) 0) 65536 65537 65536) as H2
    by (apply plane_ok_flat; lia).
  split; [exact plane_ok_two_tone|]. split; [exact H2|]. split.
  { exists 0, 0, 65536, 0. split; [lia|]. split; [lia|].
    rewrite !two_tone_samples by lia.
    destruct (Z.ltb_spec 0 65536), (Z.ltb_spec 65536 65536); lia. }
  destruct (accumulate_spec blank two_tone_key (flat_plane (65536 * 65537) 0)
              65536 65537 65536 wf_blank plane_ok_two_tone H2) as (Hwf & Hs).
  cbv zeta in Hs.
  set (s := accumulate blank two_tone_key (flat_plane (65536 * 65537) 0)
              65536 65537 65536) in *.
  assert (forall v, 0 <= v < 256 ->
            rd (div s) v = if 1 =? v then 65536 else 0) as Hdiv.
  { intros v Hv. destruct (Hs v Hv) as (_ & -> & _). rewrite two_tone_count.
    destruct (Z.eqb_spec 0 v) as [<-|]; [reflexivity|].
    destruct (Z.eqb_spec 1 v); reflexivity. }
  destruct (postprocess_uniform 257 8 s 1) as (st & Hst & Hd & _).
  - exact Hwf.
  - lia.
  - unfold defined. rewrite Hdiv by lia. discriminate.
  - intros v Hv Hne. rewrite Hdiv by lia. destruct (Z.eqb_spec 1 v); [lia | reflexivity].
  - exists st. split; [exact Hst|]. rewrite Hd, Hdiv by lia. reflexivity.
Qed.

(** C3 as stated fails for a 4096 x 2160 frame with a constant key plane
    and a value plane that is 255 everywhere: the rounded mean is 255, but
    the sum no longer fits an [int] and the curve is 26 everywhere. *)
Lemma C3_counterexample :
  plane_ok (flat_plane (4096 * 2160) 128) 4096 2160 4096 /\
  plane_ok (flat_plane (4096 * 2160) 255) 4096 2160 4096 /\
  constant_key (flat_plane (4096 * 2160) 128) 4096 2160 4096 128 /\
  nearest_away
    (sample_total (plane_pixels (flat_plane (4096 * 2160) 128)
                     (flat_plane (4096 * 2160) 255) 4096 2160 4096))
    (4096 * 2160) 255 /\
  exists st,
    Create 0 blank (flat_plane (4096 * 2160) 128) (flat_plane (4096 * 2160) 255)
      4096 2160 4096 false 8 = Some st /\
    forall i, 0 <= i < 256 -> rd (curve st) i = 26.
Proof.
  assert (plane_ok (flat_plane (4096 * 2160) 128) 4096 2160 4096) as H1
    by (apply plane_ok_flat; lia).
  assert (plane_ok (flat_plane (4096 * 2160) 255) 4096 2160 4096) as H2
    by (apply plane_ok_flat; lia).
  assert (constant_key (flat_plane (4096 * 2160) 128) 4096 2160 4096 128) as Hk
    by (apply constant_key_flat; lia).
  split; [exact H1|]. split; [exact H2|]. split; [exact Hk|].
  rewrite flat_planes_total by lia. split; [unfold nearest_away; lia|].
  destruct (accumulate_constant_key blank _ _ 4096 2160 4096 128 wf_blank H1 H2)
    as (Hwf & Hs & Hd & Hother & Hc); [lia | lia | lia | exact Hk |].
  rewrite flat_planes_total in Hs by lia.
  set (s := accumulate blank (flat_plane (4096 * 2160) 128)
              (flat_plane (4096 * 2160) 255) 4096 2160 4096) in *.
  assert (rd (curve s) 128 = 26) as Hcurve.
  { rewrite Hc, Hd. unfold raw_value. rewrite Hs, Hd. reflexivity. }
  destruct (postprocess_uniform 0 8 s 128) as (st & Hst & _ & Hall).
  - exact Hwf.
  - lia.
  - unfold defined. rewrite Hd. discriminate.
  - exact Hother.
  - exists st. split; [exact Hst|]. intros i Hi. rewrite (Hall i Hi). exact Hcurve.
Qed.

(** C7 as stated fails for a 7680 x 4320 frame with a constant key plane
    and a value plane that is 255 everywhere: the sum for that key exceeds
    2^32 and the accumulator holds it modulo 2^32. *)
Lemma C7_counterexample :
  plane_ok (flat_plane (7680 * 4320) 0) 7680 4320 7680 /\
  plane_ok (flat_plane (7680 * 4320) 255) 7680 4320 7680 /\
  exact_sum (plane_pixels (flat_plane (7680 * 4320) 0)
               (flat_plane (7680 * 4320) 255) 7680 4320 7680) 0 = 8460288000 /\
  rd (sum (accumulation_pass blank (flat_plane (7680 * 4320) 0)
             (flat_plane (7680 * 4320) 255) 7680 4320 7680)) 0 = 4165320704.
Proof.
  assert (plane_ok (flat_plane (7680 * 4320) 0) 7680 4320 7680) as H1
    by (apply plane_ok_flat; lia).
  assert (plane_ok (flat_plane (7680 * 4320) 255) 7680 4320 7680) as H2
    by (apply plane_ok_flat; lia).
  assert (exact_sum (plane_pixels (flat_plane (7680 * 4320) 0)
            (flat_plane (7680 * 4320) 255) 7680 4320 7680) 0 = 8460288000) as E.
  { destruct (flat_planes_keys (7680 * 4320) 0 (7680 * 4320) 255 7680 4320)
      as [Hkeys _]; [lia | lia | lia |].
    rewrite (exact_sum_key _ 0 0 Hkeys), flat_planes_total by lia. reflexivity. }
  split; [exact H1|]. split; [exact H2|]. split; [exact E|].
  destruct (accumulation_pass_spec blank _ _ 7680 4320 7680 0 wf_blank H1 H2)
    as [Hs _]; [lia|].
  cbv zeta in Hs. rewrite Hs, E. reflexivity.
Qed.

(** ** The theorems at a 2 x 2 frame *)

Lemma small_planes_ok :
  wf blank /\ plane_ok [10; 20; 10; 30] 2 2 2 /\ plane_ok [50; 60; 70; 80] 2 2 2 /\
  plane_ok [10; 10; 10; 10] 2 2 2.
Proof.
  split; [exact wf_blank|].
  split; [|split]; apply plane_okb_correct; vm_compute; reflexivity.
Defined.

Lemma C1_witness :
  (wf blank /\ plane_ok [10; 20; 10; 30] 2 2 2 /\ plane_ok [50; 60; 70; 80] 2 2 2 /\
   2 * 2 < 2 ^ 32 /\ two_key_values [10; 20; 10; 30] 2 2 2 /\
   INT_MIN <= 8 <= INT_MAX) /\
  ((exists st, Create 257 blank [10; 20; 10; 30] [50; 60; 70; 80] 2 2 2 false 8
               = Some st) /\
   (forall fuel st,
      Create fuel blank [10; 20; 10; 30] [50; 60; 70; 80] 2 2 2 false 8 = Some st ->
      fully_defined st)).
Proof.
  destruct small_planes_ok as (Hwf & H1 & H2 & _).
  assert (2 * 2 < 2 ^ 32) as Hn by (vm_compute; reflexivity).
  assert (two_key_values [10; 20; 10; 30] 2 2 2) as Hk.
  { exists 0, 0, 0, 1. split; [lia|]. split; [lia|]. vm_compute. discriminate. }
  assert (INT_MIN <= 8 <= INT_MAX) as Hw by (vm_compute; split; discriminate).
  split; [exact (conj Hwf (conj H1 (conj H2 (conj Hn (conj Hk Hw)))))|].
  exact (C1_full_coverage blank [10; 20; 10; 30] [50; 60; 70; 80] 2 2 2 8
           Hwf H1 H2 Hn Hk Hw).
Defined.

Lemma C3_witness :
  (wf blank /\ plane_ok [10; 10; 10; 10] 2 2 2 /\ plane_ok [50; 60; 70; 80] 2 2 2 /\
   1 <= 2 /\ 1 <= 2 /\ 0 <= 10 < 256 /\ constant_key [10; 10; 10; 10] 2 2 2 10 /\
   2 * 2 <= INT_MAX /\
   sample_total (plane_pixels [10; 10; 10; 10] [50; 60; 70; 80] 2 2 2) + 2 * 2 / 2
   <= INT_MAX) /\
  exists st c,
    Create 0 blank [10; 10; 10; 10] [50; 60; 70; 80] 2 2 2 false 8 = Some st /\
    nearest_away (sample_total (plane_pixels [10; 10; 10; 10] [50; 60; 70; 80] 2 2 2))
      (2 * 2) c /\
    forall i, 0 <= i < 256 -> rd (curve st) i = c.
Proof.
  destruct small_planes_ok as (Hwf & _ & H2 & H1).
  assert (1 <= 2) as Hone by (vm_compute; discriminate).
  assert (0 <= 10 < 256) as Hk by (vm_compute; split; [discriminate | reflexivity]).
  assert (constant_key [10; 10; 10; 10] 2 2 2 10) as Hconst.
  { intros h w Hh Hw.
    assert (h = 0 \/ h = 1) as [-> | ->] by lia;
      (assert (w = 0 \/ w = 1) as [-> | ->] by lia); reflexivity. }
  assert (2 * 2 <= INT_MAX) as Hn by (vm_compute; discriminate).
  assert (sample_total (plane_pixels [10; 10; 10; 10] [50; 60; 70; 80] 2 2 2)
          + 2 * 2 / 2 <= INT_MAX) as Ht by (vm_compute; discriminate).
  split; [exact (conj Hwf (conj H1 (conj H2 (conj Hone (conj Hone
                 (conj Hk (conj Hconst (conj Hn Ht))))))))|].
  exact (C3_uniform_source blank [10; 10; 10; 10] [50; 60; 70; 80] 2 2 2 10 8 0
           Hwf H1 H2 Hone Hone Hk Hconst Hn Ht).
Defined.

Lemma C4_witness :
  (wf blank /\
   find_flat (accumulate blank [10; 20; 10; 30] [50; 60; 70; 80] 2 2 2) = -1) /\
  (window0_noop (accumulate blank [10; 20; 10; 30] [50; 60; 70; 80] 2 2 2) /\
   forall fuel,
     option_map curve (Create fuel blank [10; 20; 10; 30] [50; 60; 70; 80] 2 2 2 false 0)
     = option_map curve
         (interpolate fuel (accumulate blank [10; 20; 10; 30] [50; 60; 70; 80] 2 2 2))).
Proof.
  assert (find_flat (accumulate blank [10; 20; 10; 30] [50; 60; 70; 80] 2 2 2) = -1)
    as Hflat by (vm_compute; reflexivity).
  split; [split; [exact wf_blank | exact Hflat]|].
  exact (C4_window0_noop blank [10; 20; 10; 30] [50; 60; 70; 80] 2 2 2 wf_blank Hflat).
Defined.

Lemma C7_witness :
  (wf blank /\ plane_ok [10; 20; 10; 30] 2 2 2 /\ plane_ok [50; 60; 70; 80] 2 2 2 /\
   0 <= 10 < 256) /\
  (let px := plane_pixels [10; 20; 10; 30] [50; 60; 70; 80] 2 2 2 in
   let s := accumulation_pass blank [10; 20; 10; 30] [50; 60; 70; 80] 2 2 2 in
   rd (sum s) 10 = wrap_uint (exact_sum px 10) /\
   (exact_sum px 10 < 2 ^ 32 -> rd (sum s) 10 = exact_sum px 10) /\
   (0 <= 2 -> 0 <= 2 -> 2 * 2 * 255 < 2 ^ 32 -> rd (sum s) 10 = exact_sum px 10)).
Proof.
  destruct small_planes_ok as (Hwf & H1 & H2 & _).
  assert (0 <= 10 < 256) as Hk by (vm_compute; split; [discriminate | reflexivity]).
  split; [exact (conj Hwf (conj H1 (conj H2 Hk)))|].
  exact (C7_sum_modulo blank [10; 20; 10; 30] [50; 60; 70; 80] 2 2 2 10 Hwf H1 H2 Hk).
Defined.

Example small_frame_sum :
  rd (sum (accumulation_pass blank [10; 20; 10; 30] [50; 60; 70; 80] 2 2 2)) 10 = 120.
Proof. vm_compute. reflexivity. Qed.

Example small_frame_curve :
  option_map (fun st => (rd (curve st) 0, rd (curve st) 10, rd (curve st) 15,
                         rd (curve st) 20, rd (curve st) 30, rd (curve st) 255))
    (Create 257 blank [10; 20; 10; 30] [50; 60; 70; 80] 2 2 2 false 0)
  = Some (60, 60, 60, 60, 80, 220).
Proof. vm_compute. reflexivity. Qed.




(** The scenario of the specification: [curve[100] = 50]. *)
Example debug_scenario :
  let out := Debug scenario_curve (flat_plane (256 * 256) 16) 256 in
  pixel out 256 100 255 = 50 /\ pixel out 256 100 206 = 50 /\
  pixel out 256 100 205 = 255 /\ pixel out 256 100 204 = 16.
Proof.
  assert (curve_ok scenario_curve) as Hc
    by (apply curve_okb_correct; vm_compute; reflexivity).
  assert (255 * 256 + 256 <= Z.of_nat (length (flat_plane (256 * 256) 16))) as Hl
    by (rewrite length_flat_plane; lia).
  cbv zeta. rewrite !Debug_pixel by (assumption || lia).
  unfold debug_pixel. change (rd (curve scenario_curve) 100) with 50.
  cbn [Z.ltb Z.eqb Z.leb Z.sub Z.compare Z.opp Z.add Z.pos_sub Pos.compare
       Pos.compare_cont Z.succ_double Z.pred_double Z.double Pos.pred_double
       andb negb].
  split; [reflexivity|]. split; [reflexivity|]. split; [reflexivity|].
  unfold pixel. apply rd_flat_plane. lia.
Qed.

(** C8 (amended).  When neither [show] nor [debug] is set, every plane of
    the output frame that is not selected for processing is the plane of
    the frame of clip3. *)
Theorem C8_unselected_planes d fuel curve fresh src1 src2 src3 fmt out p :
  show d = false -> debug d = false ->
  VS.format (vi d) = Some fmt ->
  0 <= p < VS.numPlanes fmt -> p < 3 ->
  plane_selected d p = false ->
  MatchHistogramGetFrame d fuel curve fresh src1 src2 src3 = Some out ->
  plane_at out p = plane_at src3 p.
Proof.
  intros Hshow Hdebug Hfmt Hp Hp3 Hsel. unfold MatchHistogramGetFrame.
  rewrite Hfmt, Hdebug.
  set (dst := newVideoFrame2 _ _ _ _).
  destruct (plane_loop _ _ _) as [st|] eqn:E; [|done]. intros [= <-].
  assert (plane_at dst p = plane_at src3 p) as Hinit.
  { unfold dst. rewrite newVideoFrame2_plane by lia.
    assert (p = 0 \/ p = 1 \/ p = 2) as [-> | [-> | ->]] by lia;
      cbn; rewrite Hsel; reflexivity. }
  refine (plane_loop_ind (fun st => plane_at (snd st) p = plane_at src3 p)
            (frame_step d fmt fuel src1 src2 src3) (seqZ 0 (VS.numPlanes fmt))
            _ (curve, dst) st Hinit E).
  intros q s s' Hq HP Hs. apply elem_of_seqZ in Hq. rewrite <- HP.
  apply (frame_step_plain d fmt fuel src1 src2 src3 q s s' p); auto; lia.
Qed.

Lemma C8_witness :
  (show plain_request = false /\ debug plain_request = false /\
   VS.format (vi plain_request) = Some yuv444 /\
   0 <= 1 < VS.numPlanes yuv444 /\ 1 < 3 /\
   plane_selected plain_request 1 = false /\
   MatchHistogramGetFrame plain_request 257 blank small_fresh
     small_src1 small_src2 small_src3 = Some plain_output) /\
  plane_at plain_output 1 = plane_at small_src3 1.
Proof.
  assert (0 <= 1 < VS.numPlanes yuv444) as Hp
    by (vm_compute; split; [discriminate | reflexivity]).
  assert (1 < 3) as Hp3 by (vm_compute; reflexivity).
  assert (MatchHistogramGetFrame plain_request 257 blank small_fresh
            small_src1 small_src2 small_src3 = Some plain_output) as Hout
    by (vm_compute; reflexivity).
  split; [exact (conj eq_refl (conj eq_refl (conj eq_refl
                   (conj Hp (conj Hp3 (conj eq_refl Hout))))))|].
  exact (C8_unselected_planes plain_request 257 blank small_fresh
           small_src1 small_src2 small_src3 yuv444 plain_output 1
           eq_refl eq_refl eq_refl Hp Hp3 eq_refl Hout).
Defined.

(** C8 as stated fails when [show] is set: the filter fills the top-left
    256 x 256 samples of every plane, selected or not.  With
    [planes = [0]] the first sample of plane 1 of the output is 128 while
    that of clip3 is 0. *)
Lemma C8_counterexample :
  plane_selected show_request 1 = false /\
  exists out,
    MatchHistogramGetFrame show_request 0 blank black_frame
      black_frame black_frame black_frame = Some out /\
    pixel (VS.p_data (plane_at out 1)) 256 0 0 = 128 /\
    pixel (VS.p_data (plane_at black_frame 1)) 256 0 0 = 0.
Proof.
  split; [reflexivity|].
  destruct (GetFrame_show_unselected show_request yuv444 0 blank black_frame
              black_frame black_frame black_frame
              eq_refl eq_refl eq_refl eq_refl eq_refl eq_refl) as (out & Hout & Hdata).
  exists out. split; [exact Hout|]. rewrite Hdata.
  change (VS.p_stride (plane_at black_frame 1)) with 256.
  change (VS.p_data (plane_at black_frame 1)) with (flat_plane (256 * 256) 0).
  change (Z.shiftr 256 (VS.subSamplingW yuv444)) with 256.
  change (Z.shiftr 256 (VS.subSamplingH yuv444)) with 256.
  unfold pixel. split.
  - destruct (fillPlane_spec (flat_plane (256 * 256) 0) 256 256 256 128) as [_ H];
      [lia | lia | rewrite length_flat_plane; lia |].
    exact (H 0 0 ltac:(lia) ltac:(lia)).
  - apply rd_flat_plane. lia.
Qed.

(** C9 (amended).  Filter construction fails, with the message of the
    error and without creating a filter, if and only if one of the listed
    configuration errors holds, where "show requested" reads "show
    requested and debug not active"; otherwise it creates the filter.  The
    messages of different errors differ. *)
Theorem C9_config_errors a :
  formats_ok a ->
  ((exists msg, MatchHistogramCreate a = Error msg) <->
   (exists k, error_holds show_in_effect k a)) /\
  (forall msg, MatchHistogramCreate a = Error msg ->
     exists k, msg = message k /\ error_holds show_in_effect k a) /\
  ((exists data, MatchHistogramCreate a = Filter data) <->
   (forall k, ~ error_holds show_in_effect k a)) /\
  (forall k1 k2, message k1 = message k2 -> k1 = k2).
Proof.
  intros Hok. pose proof (MatchHistogramCreate_spec a Hok) as H.
  destruct (MatchHistogramCreate a) as [msg|data].
  - destruct H as (k & -> & Hk).
    split; [split; [by exists k | by eexists]|].
    split; [intros msg [= <-]; by exists k|].
    split; [|exact message_inj].
    split; [by intros [data Hd] | intros Hnone; by apply Hnone in Hk].
  - split; [split; [by intros [msg Hm] | intros [k Hk]; by apply H in Hk]|].
    split; [done|]. split; [|exact message_inj].
    split; [done | by eexists].
Qed.

Lemma C9_witness :
  formats_ok show_debug_args /\
  (((exists msg, MatchHistogramCreate show_debug_args = Error msg) <->
    (exists k, error_holds show_in_effect k show_debug_args)) /\
   (forall msg, MatchHistogramCreate show_debug_args = Error msg ->
      exists k, msg = message k /\ error_holds show_in_effect k show_debug_args) /\
   ((exists data, MatchHistogramCreate show_debug_args = Filter data) <->
    (forall k, ~ error_holds show_in_effect k show_debug_args)) /\
   (forall k1 k2, message k1 = message k2 -> k1 = k2)).
Proof.
  assert (formats_ok show_debug_args) as Hok.
  { intros fmt Hfmt. vm_compute in Hfmt. injection Hfmt as <-.
    vm_compute. split; discriminate. }
  split; [exact Hok|]. exact (C9_config_errors show_debug_args Hok).
Defined.

(** C9 as stated fails for a request with both [show] and [debug] on
    16 x 16 clips: "show requested with dimensions below 256x256" holds,
    and the filter is created. *)
Lemma C9_counterexample :
  formats_ok show_debug_args /\
  error_holds show_requested ShowTooSmall show_debug_args /\
  exists data, MatchHistogramCreate show_debug_args = Filter data.
Proof.
  split; [|split].
  - intros fmt Hfmt. vm_compute in Hfmt. injection Hfmt as <-.
    vm_compute. split; discriminate.
  - split; [reflexivity|]. left. left. vm_compute. reflexivity.
  - eexists. vm_compute. reflexivity.
Qed.

Example create_default_planes :
  option_map process
    (match MatchHistogramCreate
             (mkArgs (VS.mkVideoInfo (Some yuv444) 640 480)
                (VS.mkVideoInfo (Some yuv444) 640 480) None None None None None None)
     with Filter d => Some d | Error _ => None end)
  = Some [1; 0; 0].
Proof. vm_compute. reflexivity. Qed.

Example create_plane_twice :
  MatchHistogramCreate
    (mkArgs (VS.mkVideoInfo (Some yuv444) 640 480)
       (VS.mkVideoInfo (Some yuv444) 640 480) None None None None None (Some [1; 1]))
  = Error (message PlaneTwice).
Proof. vm_compute. reflexivity. Qed.

(** * Further properties of the code *)

(** ** IntDiv *)

Lemma IntDiv_bounds x y a b :
  0 < y -> INT_MIN <= x - y / 2 -> x + y / 2 <= INT_MAX ->
  a * y <= x <= b * y ->
  a <= IntDiv x y <= b.
Proof.
  intros Hy Hlo Hhi Hab.
  assert (nearest_away x y (IntDiv x y)) as [Hn _].
  { rewrite IntDiv_no_overflow by done.
    destruct (Z.ltb_spec x 0); [by apply round_quot_neg | by apply round_quot_nonneg]. }
  set (q := IntDiv x y) in *.
  split.
  - destruct (Z_lt_le_dec q a) as [Hlt|]; [|done]. exfalso.
    assert (q * y + y <= a * y) by nia. lia.
  - destruct (Z_lt_le_dec b q) as [Hlt|]; [|done]. exfalso.
    assert (b * y + y <= q * y) by nia. lia.
Qed.

(** X1.  For [0 < y] and without overflow, [IntDiv x y] stays between any
    two integers that bound the quotient: a rounded mean never leaves the
    range of the values it averages, and an exact multiple is divided
    exactly. *)
Theorem IntDiv_between x y a b :
  0 < y -> INT_MIN <= x - y / 2 -> x + y / 2 <= INT_MAX ->
  a * y <= x <= b * y ->
  a <= IntDiv x y <= b.
Proof. exact (IntDiv_bounds x y a b). Qed.

Lemma IntDiv_between_witness :
  (0 < 4 /\ INT_MIN <= 10 - 4 / 2 /\ 10 + 4 / 2 <= INT_MAX /\ 2 * 4 <= 10 <= 3 * 4) /\
  2 <= IntDiv 10 4 <= 3.
Proof.
  assert (0 < 4) as H1 by (vm_compute; reflexivity).
  assert (INT_MIN <= 10 - 4 / 2) as H2 by (vm_compute; discriminate).
  assert (10 + 4 / 2 <= INT_MAX) as H3 by (vm_compute; discriminate).
  assert (2 * 4 <= 10 <= 3 * 4) as H4 by (vm_compute; split; discriminate).
  split; [exact (conj H1 (conj H2 (conj H3 H4)))|].
  exact (IntDiv_between 10 4 2 3 H1 H2 H3 H4).
Defined.

(** X2.  For [0 < y] and without overflow, [IntDiv] is odd in its first
    argument: negative and positive numerators are rounded alike. *)
Theorem IntDiv_odd x y :
  0 < y -> Z.abs x + y / 2 <= INT_MAX ->
  IntDiv (- x) y = - IntDiv x y.
Proof.
  intros Hy Hb. unfold INT_MAX in Hb.
  assert (0 <= y / 2 < y) as Hh.
  { split; [apply Z.div_pos; lia | apply Z.div_lt_upper_bound; lia]. }
  rewrite !IntDiv_no_overflow by (unfold INT_MIN, INT_MAX; lia).
  destruct (Z.ltb_spec x 0), (Z.ltb_spec (- x) 0); try lia.
  - replace (x - y / 2) with (- (- x + y / 2)) by lia.
    by rewrite Z.quot_opp_l, Z.opp_involutive by lia.
  - replace (- x - y / 2) with (- (x + y / 2)) by lia.
    by rewrite Z.quot_opp_l by lia.
  - assert (x = 0) as -> by lia. change (- 0) with 0.
    rewrite Z.add_0_l, Z.quot_small by lia. reflexivity.
Qed.

Lemma IntDiv_odd_witness :
  (0 < 4 /\ Z.abs 10 + 4 / 2 <= INT_MAX) /\ IntDiv (- 10) 4 = - IntDiv 10 4.
Proof.
  assert (0 < 4) as H1 by (vm_compute; reflexivity).
  assert (Z.abs 10 + 4 / 2 <= INT_MAX) as H2 by (vm_compute; discriminate).
  split; [exact (conj H1 H2)|]. exact (IntDiv_odd 10 4 H1 H2).
Defined.

(** ** Loops over the rows of a plane *)

(** One row: [for (w = 0; w < width; w++) d[off + w] = F(d[off + w], off + w)]. *)
Lemma row_loop_spec (F : Z -> Z -> Z) d off width :
  0 <= off -> 0 <= width -> (0 < width -> off + width <= Z.of_nat (length d)) ->
  let d' :=
    for_up 0 width (fun w d => wr d (off + w) (F (rd d (off + w)) (off + w))) d in
  length d' = length d /\
  forall o, 0 <= o ->
    rd d' o = if (off <=? o) && (o <? off + width) then F (rd d o) o else rd d o.
Proof.
  intros Hoff Hw Hlen.
  apply (for_up_ind (fun j d' =>
    length d' = length d /\
    forall o, 0 <= o ->
      rd d' o = if (off <=? o) && (o <? off + j) then F (rd d o) o else rd d o));
    [lia | | ].
  - split; [done|]. intros o Ho.
    destruct (Z.leb_spec off o), (Z.ltb_spec o (off + 0)); simpl; done || lia.
  - intros j d' Hj [Hl Hd]. split; [by rewrite length_wr|].
    intros o Ho. rewrite rd_wr by lia. rewrite !Hd by lia.
    destruct (Z.eqb_spec (off + j) o) as [<-|Hne].
    + destruct (Z.ltb_spec (off + j) (off + j)); [lia|]. rewrite andb_false_r.
      destruct (Z.leb_spec off (off + j)), (Z.ltb_spec (off + j) (off + (j + 1)));
        simpl; done || lia.
    + destruct (Z.leb_spec off o), (Z.ltb_spec o (off + j)),
        (Z.ltb_spec o (off + (j + 1))); simpl; done || lia.
Qed.

Lemma in_rect_row width stride h o :
  0 <= width <= stride -> 0 <= h -> 0 <= o ->
  (h * stride <=? o) && (o <? h * stride + width)
  = (o / stride =? h) && (o mod stride <? width).
Proof.
  intros Hw Hh Ho.
  destruct (Z.eq_dec stride 0) as [->|Hs].
  { assert (width = 0) as -> by lia. replace (h * 0 + 0) with 0 by lia.
    rewrite Z.mod_0_r. destruct (Z.ltb_spec o 0); [lia|].
    by rewrite !andb_false_r. }
  assert (0 < stride) as Hpos by lia.
  pose proof (Z.div_mod o stride Hs) as Hdm.
  pose proof (Z.mod_pos_bound o stride Hpos) as Hm.
  destruct (Z.leb_spec (h * stride) o), (Z.ltb_spec o (h * stride + width)),
    (Z.eqb_spec (o / stride) h), (Z.ltb_spec (o mod stride) width);
    simpl; try done; exfalso; nia.
Qed.

(** The two nested loops of [fillPlane] and of [Process]. *)
Lemma rows_loop_spec (F : Z -> Z -> Z) data width height stride :
  0 <= width <= stride -> 0 <= height ->
  (0 < height -> 0 < width ->
   (height - 1) * stride + width <= Z.of_nat (length data)) ->
  let out :=
    snd (for_up 0 height
           (fun _ od =>
              (fst od + stride,
               for_up 0 width
                 (fun w d => wr d (fst od + w) (F (rd d (fst od + w)) (fst od + w)))
                 (snd od)))
           (0, data)) in
  length out = length data /\
  forall o, 0 <= o ->
    rd out o = if in_rect width height stride o then F (rd data o) o else rd data o.
Proof.
  intros Hw Hh Hlen.
  cut (let od := for_up 0 height
         (fun _ od =>
            (fst od + stride,
             for_up 0 width
               (fun w d => wr d (fst od + w) (F (rd d (fst od + w)) (fst od + w)))
               (snd od)))
         (0, data) in
       fst od = height * stride /\ length (snd od) = length data /\
       forall o, 0 <= o ->
         rd (snd od) o
         = if in_rect width height stride o then F (rd data o) o else rd data o).
  { cbv zeta. intros (_ & ? & ?). done. }
  apply (for_up_ind (fun h od =>
    fst od = h * stride /\ length (snd od) = length data /\
    forall o, 0 <= o ->
      rd (snd od) o
      = if in_rect width h stride o then F (rd data o) o else rd data o));
    [lia | | ].
  - split; [done|]. split; [done|]. intros o Ho. unfold in_rect.
    destruct (Z.ltb_spec (o / stride) 0) as [Hlt|]; [|done].
    exfalso. destruct (Z.eq_dec stride 0) as [->|].
    + rewrite Z.div_0_r in Hlt. lia.
    + pose proof (Z.div_pos o stride). lia.
  - intros h [off d] Hhr (Hoff & Hl & Hd). simpl in *. subst off.
    split; [lia|].
    destruct (row_loop_spec F d (h * stride) width) as [Hl' Hd']; [nia | lia | |].
    { intros Hpos. rewrite Hl. specialize (Hlen ltac:(lia) Hpos). nia. }
    split; [congruence|]. intros o Ho.
    rewrite Hd' by done. rewrite !Hd by done.
    rewrite in_rect_row by lia. unfold in_rect.
    destruct (Z.eqb_spec (o / stride) h) as [E|Hne]; simpl.
    + destruct (Z.ltb_spec (o / stride) (h + 1)); [|lia].
      destruct (Z.ltb_spec (o / stride) h); [lia|]. simpl.
      by destruct (o mod stride <? width).
    + destruct (Z.ltb_spec (o / stride) (h + 1)), (Z.ltb_spec (o / stride) h);
        simpl; done || lia.
Qed.

Lemma list_eq_rd_all (l1 l2 : list Z) :
  length l1 = length l2 -> (forall o, 0 <= o -> rd l1 o = rd l2 o) -> l1 = l2.
Proof.
  intros Hl H. apply list_eq_same_length with (length l1); [done | done |].
  intros n x y Hn Hx Hy. specialize (H (Z.of_nat n) ltac:(lia)).
  unfold rd in H. rewrite Nat2Z.id in H.
  rewrite !list_lookup_total_alt, Hx, Hy in H. done.
Qed.

(** ** fillPlane, Process *)

(** X3.  [fillPlane] sets the samples of the [width] x [height] rectangle
    to the byte [value] and nothing else: the padding of each row and the
    rows below keep their contents, and an empty rectangle changes
    nothing. *)
Theorem fillPlane_rect data width height stride value :
  0 <= width <= stride -> 0 <= height ->
  (0 < height -> 0 < width ->
   (height - 1) * stride + width <= Z.of_nat (length data)) ->
  length (fillPlane data width height stride value) = length data /\
  forall o, 0 <= o ->
    rd (fillPlane data width height stride value) o
    = if in_rect width height stride o then to_uchar value else rd data o.
Proof.
  intros Hw Hh Hlen.
  exact (rows_loop_spec (fun _ _ => to_uchar value) data width height stride
           Hw Hh Hlen).
Qed.

Lemma fillPlane_rect_witness :
  (0 <= 2 <= 3 /\ 0 <= 2 /\
   (0 < 2 -> 0 < 2 -> (2 - 1) * 3 + 2 <= Z.of_nat (length [1; 2; 3; 4; 5; 6]))) /\
  length (fillPlane [1; 2; 3; 4; 5; 6] 2 2 3 300) = length [1; 2; 3; 4; 5; 6] /\
  forall o, 0 <= o ->
    rd (fillPlane [1; 2; 3; 4; 5; 6] 2 2 3 300) o
    = if in_rect 2 2 3 o then to_uchar 300 else rd [1; 2; 3; 4; 5; 6] o.
Proof.
  assert (0 <= 2 <= 3) as H1 by lia.
  assert (0 <= 2) as H2 by lia.
  assert (0 < 2 -> 0 < 2 -> (2 - 1) * 3 + 2 <= Z.of_nat (length [1; 2; 3; 4; 5; 6]))
    as H3 by (intros _ _; vm_compute; discriminate).
  split; [exact (conj H1 (conj H2 H3))|].
  exact (fillPlane_rect [1; 2; 3; 4; 5; 6] 2 2 3 300 H1 H2 H3).
Defined.

Lemma Process_pixel_lengths s srcp dstp width height stride :
  0 <= width <= stride -> 0 <= height ->
  (0 < height -> 0 < width ->
   (height - 1) * stride + width <= Z.of_nat (length dstp)) ->
  length (Process s srcp dstp width height stride) = length dstp /\
  forall o, 0 <= o ->
    rd (Process s srcp dstp width height stride) o
    = if in_rect width height stride o then rd (curve s) (rd srcp o) else rd dstp o.
Proof.
  intros Hw Hh Hlen.
  exact (rows_loop_spec (fun _ o => rd (curve s) (rd srcp o)) dstp width height
           stride Hw Hh Hlen).
Qed.

(** X4.  [Process] maps every sample of the rectangle of the source plane
    through the curve into the same offset of the destination, and leaves
    every other byte of the destination as it was. *)
Theorem Process_pixel s srcp dstp width height stride :
  0 <= width <= stride -> 0 <= height ->
  (0 < height -> 0 < width ->
   (height - 1) * stride + width <= Z.of_nat (length dstp)) ->
  length (Process s srcp dstp width height stride) = length dstp /\
  forall o, 0 <= o ->
    rd (Process s srcp dstp width height stride) o
    = if in_rect width height stride o then rd (curve s) (rd srcp o) else rd dstp o.
Proof. exact (Process_pixel_lengths s srcp dstp width height stride). Qed.

Lemma Process_pixel_witness :
  (0 <= 2 <= 3 /\ 0 <= 2 /\
   (0 < 2 -> 0 < 2 -> (2 - 1) * 3 + 2 <= Z.of_nat (length [0; 0; 0; 0; 0; 9]))) /\
  length (Process scenario_curve [100; 1; 7; 100; 2; 7] [0; 0; 0; 0; 0; 9] 2 2 3)
  = length [0; 0; 0; 0; 0; 9] /\
  forall o, 0 <= o ->
    rd (Process scenario_curve [100; 1; 7; 100; 2; 7] [0; 0; 0; 0; 0; 9] 2 2 3) o
    = if in_rect 2 2 3 o
      then rd (curve scenario_curve) (rd [100; 1; 7; 100; 2; 7] o)
      else rd [0; 0; 0; 0; 0; 9] o.
Proof.
  assert (0 <= 2 <= 3) as H1 by lia.
  assert (0 <= 2) as H2 by lia.
  assert (0 < 2 -> 0 < 2 -> (2 - 1) * 3 + 2 <= Z.of_nat (length [0; 0; 0; 0; 0; 9]))
    as H3 by (intros _ _; vm_compute; discriminate).
  split; [exact (conj H1 (conj H2 H3))|].
  exact (Process_pixel scenario_curve [100; 1; 7; 100; 2; 7] [0; 0; 0; 0; 0; 9]
           2 2 3 H1 H2 H3).
Defined.

(** X5.  The in-place [Process] of the two-clip version of the file gives
    the plane that the three-clip [Process] gives when its source and its
    destination are that same plane: rows that do not overlap are each
    mapped once. *)
Theorem Process_in_place s ptr width height stride :
  0 <= width <= stride -> 0 <= height ->
  (0 < height -> 0 < width ->
   (height - 1) * stride + width <= Z.of_nat (length ptr)) ->
  V1.Process s ptr width height stride = Process s ptr ptr width height stride.
Proof.
  intros Hw Hh Hlen.
  destruct (rows_loop_spec (fun v _ => rd (curve s) v) ptr width height stride
              Hw Hh Hlen) as [Hl1 Hd1].
  destruct (Process_pixel_lengths s ptr ptr width height stride Hw Hh Hlen)
    as [Hl2 Hd2].
  apply list_eq_rd_all.
  - unfold V1.Process. rewrite Hl1. by rewrite Hl2.
  - intros o Ho. unfold V1.Process. rewrite Hd1, Hd2 by done. done.
Qed.

Lemma Process_in_place_witness :
  (0 <= 2 <= 3 /\ 0 <= 2 /\
   (0 < 2 -> 0 < 2 -> (2 - 1) * 3 + 2 <= Z.of_nat (length [100; 1; 7; 100; 2; 7]))) /\
  V1.Process scenario_curve [100; 1; 7; 100; 2; 7] 2 2 3
  = Process scenario_curve [100; 1; 7; 100; 2; 7] [100; 1; 7; 100; 2; 7] 2 2 3.
Proof.
  assert (0 <= 2 <= 3) as H1 by lia.
  assert (0 <= 2) as H2 by lia.
  assert (0 < 2 -> 0 < 2 ->
          (2 - 1) * 3 + 2 <= Z.of_nat (length [100; 1; 7; 100; 2; 7]))
    as H3 by (intros _ _; vm_compute; discriminate).
  split; [exact (conj H1 (conj H2 H3))|].
  exact (Process_in_place scenario_curve [100; 1; 7; 100; 2; 7] 2 2 3 H1 H2 H3).
Defined.

(** ** Show, Debug *)






(** ** Create: the state it leaves *)

Lemma wf_smooth w s : wf s -> wf (smooth w s).
Proof.
  intros Hwf. unfold smooth. destruct (Z.ltb_spec 0 w); [|done].
  apply (for_up_ind (fun _ s' => wf s')); [lia | done |].
  intros i s' _ Hwf'. unfold smooth_one.
  apply (for_up_ind (fun _ s' => wf s')).
  - lia.
  - by apply wf_set_div, wf_set_sum.
  - intros j s'' _ Hwf''. cbv zeta.
    destruct ((0 <=? to_int (i + j)) && (to_int (i + j) <? 256)); [|done].
    by apply wf_set_div, wf_set_sum.
Qed.

Lemma curve_ok_accumulate this ptr1 ptr2 width height stride :
  wf this -> curve_ok (accumulate this ptr1 ptr2 width height stride).
Proof.
  intros Hwf. unfold accumulate, accumulation_pass. rewrite populate_pixels.
  destruct (clear_data_spec this Hwf) as (Hwf0 & _).
  pose proof (wf_tally_all (plane_pixels ptr1 ptr2 width height stride) _ Hwf0)
    as Hwf1.
  destruct (raw_curve_spec _ Hwf1) as (_ & _ & _ & Hc).
  intros i Hi. rewrite (Hc i Hi).
  destruct (_ =? 0); [lia|]. apply to_uchar_range.
Qed.

Lemma postprocess_bytes fuel w s st :
  wf s -> consistent s -> curve_ok s -> postprocess fuel w s = Some st ->
  wf st /\ curve_ok st.
Proof.
  intros Hwf Hcons Hok. unfold postprocess.
  destruct (Z.eqb_spec (find_flat s) (-1)) as [Hflat|Hflat]; cbn [negb].
  - destruct (interpolate fuel s) as [s'|] eqn:Hint; [|done].
    intros H%(inj Some). subst st.
    assert (wf s') as Hwf'.
    { destruct (find_flat_none s Hflat) as [Hnone|Htwo].
      - by rewrite interpolate_none in Hint.
      - by destruct (interpolate_result fuel s s' Hwf Hcons Htwo Hint)
          as ((? & _) & _). }
    destruct (final_curve_spec (smooth w s') (wf_smooth w s' Hwf'))
      as (? & _ & _ & Hc).
    split; [done|]. intros i Hi. rewrite (Hc i Hi). apply to_uchar_range.
  - intros H%(inj Some). subst st.
    destruct (find_flat_some s Hflat) as (Hk & _).
    destruct (uniform_spec (find_flat s) s Hwf Hk) as (? & _ & _ & Hc).
    split; [done|]. intros i Hi. rewrite (Hc i Hi). by apply Hok.
Qed.

Lemma Create_state fuel this ptr1 ptr2 width height stride raw w st :
  wf this ->
  Create fuel this ptr1 ptr2 width height stride raw w = Some st ->
  wf st /\ curve_ok st.
Proof.
  intros Hwf. unfold Create. cbv zeta.
  destruct (accumulate_consistent this ptr1 ptr2 width height stride Hwf)
    as [Hwf1 Hcons].
  pose proof (curve_ok_accumulate this ptr1 ptr2 width height stride Hwf) as Hok.
  destruct raw; cbn [negb].
  - intros H%(inj Some). subst st. exact (conj Hwf1 Hok).
  - exact (postprocess_bytes fuel w _ st Hwf1 Hcons Hok).
Qed.

(** X8.  Whatever the planes and the parameters, a [Create] that returns
    leaves three arrays of 256 entries and a curve of bytes: [Process],
    [Show] and [Debug] then index the curve, and the rows 0 to 255 of the
    graph, within bounds. *)
Theorem Create_bytes fuel this ptr1 ptr2 width height stride raw w st :
  wf this ->
  Create fuel this ptr1 ptr2 width height stride raw w = Some st ->
  wf st /\ curve_ok st.
Proof. exact (Create_state fuel this ptr1 ptr2 width height stride raw w st). Qed.



Lemma Create_bytes_witness :
  (wf blank /\
   Create 257 blank [10; 20; 10; 30] [50; 60; 70; 80] 2 2 2 false 8
   = Some small_curve) /\
  wf small_curve /\ curve_ok small_curve.
Proof.
  assert (wf blank) as H1 by exact wf_blank.
  assert (Create 257 blank [10; 20; 10; 30] [50; 60; 70; 80] 2 2 2 false 8
          = Some small_curve) as H2 by (vm_compute; reflexivity).
  split; [exact (conj H1 H2)|].
  exact (Create_bytes 257 blank [10; 20; 10; 30] [50; 60; 70; 80] 2 2 2 false 8
           small_curve H1 H2).
Defined.

(** ** Create: the object it starts from *)

Lemma tally_all_ext px : forall s s',
  sum s = sum s' -> div s = div s' ->
  sum (tally_all px s) = sum (tally_all px s') /\
  div (tally_all px s) = div (tally_all px s').
Proof.
  induction px as [|[k x] px IH]; intros s s' Hs Hd; [done|].
  apply IH; unfold tally; simpl; by rewrite ?Hs, ?Hd.
Qed.

Lemma CurveData_eq (s s' : CurveData) :
  sum s = sum s' -> div s = div s' -> curve s = curve s' -> s = s'.
Proof. destruct s, s'. simpl. congruence. Qed.

Lemma accumulate_this this this' ptr1 ptr2 width height stride :
  wf this -> wf this' ->
  accumulate this ptr1 ptr2 width height stride
  = accumulate this' ptr1 ptr2 width height stride.
Proof.
  intros Hwf Hwf'. unfold accumulate, accumulation_pass. rewrite !populate_pixels.
  set (px := plane_pixels ptr1 ptr2 width height stride).
  destruct (clear_data_spec this Hwf) as ((Hl1 & Hl2 & _) & _ & Hz).
  destruct (clear_data_spec this' Hwf') as ((Hl1' & Hl2' & _) & _ & Hz').
  assert (sum (clear_data this) = sum (clear_data this')) as Hs.
  { apply list_eq_rd; [done | done |]. intros i Hi.
    destruct (Hz i Hi) as [-> _]. by destruct (Hz' i Hi) as [-> _]. }
  assert (div (clear_data this) = div (clear_data this')) as Hd.
  { apply list_eq_rd; [done | done |]. intros i Hi.
    destruct (Hz i Hi) as [_ ->]. by destruct (Hz' i Hi) as [_ ->]. }
  destruct (tally_all_ext px _ _ Hs Hd) as [Hs1 Hd1].
  assert (wf (tally_all px (clear_data this))) as Hwf1
    by (apply wf_tally_all; by destruct (clear_data_spec this Hwf)).
  assert (wf (tally_all px (clear_data this'))) as Hwf1'
    by (apply wf_tally_all; by destruct (clear_data_spec this' Hwf')).
  destruct (raw_curve_spec _ Hwf1) as ((_ & _ & Hlc) & Hrs & Hrd & Hrc).
  destruct (raw_curve_spec _ Hwf1') as ((_ & _ & Hlc') & Hrs' & Hrd' & Hrc').
  apply CurveData_eq; [congruence | congruence |].
  apply list_eq_rd; [exact Hlc | exact Hlc' |]. intros i Hi.
  rewrite (Hrc i Hi), (Hrc' i Hi), Hd1.
  destruct (_ =? 0); [reflexivity|]. apply raw_value_ext; assumption.
Qed.

(** X9.  [Create] does not depend on what the object held before the call:
    the accumulators are cleared and all 256 entries of the curve are
    rewritten, so a curve object that is not initialised, or that was used
    for another plane, gives the same result. *)
Theorem Create_fresh fuel this this' ptr1 ptr2 width height stride raw w :
  wf this -> wf this' ->
  Create fuel this ptr1 ptr2 width height stride raw w
  = Create fuel this' ptr1 ptr2 width height stride raw w.
Proof.
  intros Hwf Hwf'. unfold Create.
  by rewrite (accumulate_this this this' ptr1 ptr2 width height stride Hwf Hwf').
Qed.

Lemma Create_fresh_witness :
  (wf blank /\ wf scenario_curve) /\
  Create 257 blank [10; 20; 10; 30] [50; 60; 70; 80] 2 2 2 false 8
  = Create 257 scenario_curve [10; 20; 10; 30] [50; 60; 70; 80] 2 2 2 false 8.
Proof.
  assert (wf blank) as H1 by exact wf_blank.
  assert (wf scenario_curve) as H2 by (apply wf_set_curve; exact wf_blank).
  split; [exact (conj H1 H2)|].
  exact (Create_fresh 257 blank scenario_curve [10; 20; 10; 30] [50; 60; 70; 80]
           2 2 2 false 8 H1 H2).
Defined.

(** ** Create: the raw curve *)

Lemma raw_value_mean s v tot cnt :
  rd (sum s) v = tot -> rd (div s) v = cnt ->
  0 < cnt <= INT_MAX -> 0 <= tot <= 255 * cnt -> tot + cnt / 2 <= INT_MAX ->
  raw_value s v = IntDiv tot cnt /\ nearest_away tot cnt (IntDiv tot cnt) /\
  0 <= IntDiv tot cnt <= 255.
Proof.
  intros Hs Hd Hc Ht Hmax. unfold raw_value. rewrite Hs, Hd.
  assert (0 <= cnt / 2) by (apply Z.div_pos; lia).
  unfold INT_MAX in *.
  rewrite !to_int_small by lia.
  assert (0 <= IntDiv tot cnt <= 255) as Hb.
  { apply IntDiv_bounds; unfold INT_MIN, INT_MAX; lia. }
  split; [apply to_uchar_small; lia|]. split; [|done].
  rewrite IntDiv_no_overflow by (unfold INT_MIN, INT_MAX; lia).
  destruct (Z.ltb_spec tot 0); [lia|]. apply round_quot_nonneg; lia.
Qed.

(** X10.  With [raw] set, and for planes small enough that no accumulator
    and no rounding addition overflows, [Create] leaves in [sum[v]] and
    [div[v]] the sum and the number of the value samples whose key is [v],
    and in [curve[v]] their mean rounded to nearest, or 0 when no sample has
    the key [v]. *)
Theorem raw_curve_mean fuel this ptr1 ptr2 width height stride w :
  wf this ->
  plane_ok ptr1 width height stride -> plane_ok ptr2 width height stride ->
  0 <= width -> 0 <= height ->
  255 * (width * height) + width * height / 2 <= INT_MAX ->
  let px := plane_pixels ptr1 ptr2 width height stride in
  exists st,
    Create fuel this ptr1 ptr2 width height stride true w = Some st /\
    forall v, 0 <= v < 256 ->
      rd (sum st) v = exact_sum px v /\ rd (div st) v = exact_count px v /\
      (exact_count px v = 0 -> rd (curve st) v = 0) /\
      (0 < exact_count px v ->
       nearest_away (exact_sum px v) (exact_count px v) (rd (curve st) v)).
Proof.
  intros Hwf Hp1 Hp2 Hw Hh Hmax px.
  exists (accumulate this ptr1 ptr2 width height stride).
  split; [apply Create_raw|]. intros v Hv.
  destruct (accumulate_spec this ptr1 ptr2 width height stride Hwf Hp1 Hp2)
    as [_ Hacc].
  destruct (Hacc v Hv) as (Hs & Hd & Hc). fold px in Hs, Hd.
  pose proof (exact_count_nonneg px v) as Hcnt.
  pose proof (length_plane_pixels ptr1 ptr2 width height stride Hw Hh) as Hlen.
  fold px in Hlen. rewrite Hlen in Hcnt.
  pose proof (exact_sum_bound px v
                (plane_pixels_ok ptr1 ptr2 width height stride Hp1 Hp2)) as Hsum.
  assert (0 <= width * height) as Hn by nia.
  assert (0 <= width * height / 2) as Hn2 by (apply Z.div_pos; lia).
  assert (exact_count px v / 2 <= width * height / 2) as Hhalf
    by (apply Z.div_le_mono; lia).
  unfold INT_MAX in Hmax.
  rewrite wrap_uint_small in Hs by lia. rewrite wrap_uint_small in Hd by lia.
  split; [done|]. split; [done|]. rewrite Hc, Hd. split.
  - by intros ->.
  - intros Hpos. destruct (Z.eqb_spec (exact_count px v) 0); [lia|].
    destruct (raw_value_mean _ v _ _ Hs Hd) as (-> & Hn' & _);
      unfold INT_MAX; (done || lia).
Qed.

Lemma raw_curve_mean_witness :
  (wf blank /\ plane_ok [10; 20; 10; 30] 2 2 2 /\ plane_ok [50; 60; 70; 80] 2 2 2 /\
   0 <= 2 /\ 0 <= 2 /\ 255 * (2 * 2) + 2 * 2 / 2 <= INT_MAX) /\
  (let px := plane_pixels [10; 20; 10; 30] [50; 60; 70; 80] 2 2 2 in
   exists st,
     Create 0 blank [10; 20; 10; 30] [50; 60; 70; 80] 2 2 2 true 8 = Some st /\
     forall v, 0 <= v < 256 ->
       rd (sum st) v = exact_sum px v /\ rd (div st) v = exact_count px v /\
       (exact_count px v = 0 -> rd (curve st) v = 0) /\
       (0 < exact_count px v ->
        nearest_away (exact_sum px v) (exact_count px v) (rd (curve st) v))).
Proof.
  assert (wf blank) as H1 by exact wf_blank.
  assert (plane_ok [10; 20; 10; 30] 2 2 2) as H2
    by (apply plane_okb_correct; vm_compute; reflexivity).
  assert (plane_ok [50; 60; 70; 80] 2 2 2) as H3
    by (apply plane_okb_correct; vm_compute; reflexivity).
  assert (0 <= 2) as H4 by lia.
  assert (255 * (2 * 2) + 2 * 2 / 2 <= INT_MAX) as H5 by (vm_compute; discriminate).
  split; [exact (conj H1 (conj H2 (conj H3 (conj H4 (conj H4 H5)))))|].
  exact (raw_curve_mean 0 blank [10; 20; 10; 30] [50; 60; 70; 80] 2 2 2 8
           H1 H2 H3 H4 H4 H5).
Defined.

(** ** Create: an empty plane *)

Lemma plane_pixels_empty ptr1 ptr2 width height stride :
  width <= 0 \/ height <= 0 -> plane_pixels ptr1 ptr2 width height stride = [].
Proof.
  intros [Hw|Hh]; unfold plane_pixels, row_pixels.
  - rewrite (seqZ_nil 0 width) by done. simpl.
    induction (seqZ 0 height) as [|h l IH]; [done|]. simpl. exact IH.
  - by rewrite (seqZ_nil 0 height).
Qed.

(** X11.  On a plane without samples ([width] or [height] not positive)
    [Create] with [raw] set returns a curve that is 0 everywhere, with no
    index defined; without [raw] it does not return: no index ever becomes
    defined and the [while] loop of the extrapolation runs forever. *)
Theorem Create_empty_plane fuel this ptr1 ptr2 width height stride w :
  wf this -> width <= 0 \/ height <= 0 ->
  (exists st,
     Create fuel this ptr1 ptr2 width height stride true w = Some st /\
     forall v, 0 <= v < 256 -> rd (div st) v = 0 /\ rd (curve st) v = 0) /\
  Create fuel this ptr1 ptr2 width height stride false w = None.
Proof.
  intros Hwf Hempty.
  assert (forall v, 0 <= v < 256 ->
            rd (div (accumulate this ptr1 ptr2 width height stride)) v = 0 /\
            rd (curve (accumulate this ptr1 ptr2 width height stride)) v = 0)
    as Hzero.
  { intros v Hv. unfold accumulate, accumulation_pass. rewrite populate_pixels.
    rewrite plane_pixels_empty by done. unfold tally_all. cbn [fold_left].
    destruct (clear_data_spec this Hwf) as (Hwf0 & _ & Hz).
    destruct (raw_curve_spec _ Hwf0) as (_ & _ & Hd & Hc).
    rewrite Hd, (Hc v Hv). destruct (Hz v Hv) as [_ ->]. done. }
  split.
  - exists (accumulate this ptr1 ptr2 width height stride).
    split; [apply Create_raw | exact Hzero].
  - unfold Create. cbv zeta. cbn [negb]. unfold postprocess. cbv zeta.
    rewrite find_flat_undefined by (intros i Hi; by destruct (Hzero i Hi)).
    rewrite interpolate_none by (intros i Hi; by destruct (Hzero i Hi)).
    reflexivity.
Qed.

Lemma Create_empty_plane_witness :
  (wf blank /\ (0 <= 0 \/ 4 <= 0)) /\
  (exists st,
     Create 1000 blank [] [] 0 4 0 true 8 = Some st /\
     forall v, 0 <= v < 256 -> rd (div st) v = 0 /\ rd (curve st) v = 0) /\
  Create 1000 blank [] [] 0 4 0 false 8 = None.
Proof.
  assert (wf blank) as H1 by exact wf_blank.
  assert (0 <= 0 \/ 4 <= 0) as H2 by (left; lia).
  split; [exact (conj H1 H2)|].
  exact (Create_empty_plane 1000 blank [] [] 0 4 0 8 H1 H2).
Defined.

(** ** Invariants of the postprocessing

    A property [Inv] of the object that every store of the gap
    interpolation and of the extrapolation keeps is kept by the loops.  The
    hypotheses give each store with what the loops know where it happens. *)
Section Invariant.

Variable Inv : CurveData -> Prop.

Hypothesis Inv_gap : forall s i prev next,
  wf s -> Inv s -> 0 <= prev < i -> i < next < 256 ->
  defined s prev -> defined s next ->
  (forall q, prev < q < next -> ~ defined s q) ->
  Inv (mark s i (gap_value s i prev next)).

Hypothesis Inv_bottom : forall s i first,
  wf s -> Inv s -> 0 <= i < first -> first * 2 - i <= 255 ->
  defined s first -> defined s (first * 2 - i) ->
  (forall q, i <= q < first -> ~ defined s q) ->
  Inv (mark s i (mirror_value s i first)).

Hypothesis Inv_top : forall s i last,
  wf s -> Inv s -> last < i < 256 -> 0 <= last * 2 - i -> 0 <= last ->
  defined s last -> defined s (last * 2 - i) ->
  (forall q, last < q <= i -> ~ defined s q) ->
  Inv (mark s i (mirror_value s i last)).

Lemma fill_one_inv i s : wf s -> Inv s -> 0 <= i < 256 ->
  wf (fill_one i s) /\ Inv (fill_one i s).
Proof.
  intros Hwf HI Hi. unfold fill_one.
  destruct (Z.eqb_spec (rd (div s) i) 0) as [Hz|Hz]; [|done].
  pose proof (scan_down_spec (div s) (Z.to_nat i) (i - 1) ltac:(lia)) as Hp.
  pose proof (scan_up_spec (div s) (Z.to_nat (255 - i)) (i + 1) ltac:(lia)) as Hn.
  cbv zeta in Hp, Hn. cbv zeta.
  set (prev := scan_down (div s) (i - 1) (Z.to_nat i)) in *.
  set (next := scan_up (div s) (i + 1) (Z.to_nat (255 - i))) in *.
  destruct (Z.eqb_spec prev (-1)) as [Hp1|Hp1]; cbn [negb andb]; [done|].
  destruct (Z.eqb_spec next (-1)) as [Hn1|Hn1]; cbn [negb andb]; [done|].
  destruct Hp as [[? _]|(Hpr & Hpd & Hpu)]; [lia|].
  destruct Hn as [[? _]|(Hnr & Hnd & Hnu)]; [lia|].
  split; [by apply wf_mark|].
  apply (Inv_gap s i prev next); [done | done | lia | lia | done | done |].
  intros q Hq Hdq. apply Hdq.
  destruct (Z.eq_dec q i) as [->|]; [done|].
  destruct (Z_lt_le_dec q i); [apply Hpu | apply Hnu]; lia.
Qed.

Lemma fill_gaps_inv s : wf s -> Inv s -> wf (fill_gaps s) /\ Inv (fill_gaps s).
Proof.
  intros Hwf HI. unfold fill_gaps.
  apply (for_up_ind (fun _ s' => wf s' /\ Inv s')); [lia | done |].
  intros i s' Hi [Hwf' HI']. by apply fill_one_inv.
Qed.

Lemma extend_bottom_inv s :
  wf s -> Inv s -> wf (extend_bottom s) /\ Inv (extend_bottom s).
Proof.
  intros Hwf HI. unfold extend_bottom.
  destruct (Z.eqb_spec (rd (div s) 0) 0) as [Hz|Hz]; [|done].
  pose proof (scan_up_spec (div s) 256 0 ltac:(lia)) as Hf. cbv zeta in Hf.
  cbv zeta. set (first := scan_up (div s) 0 256) in *.
  destruct Hf as [[-> _]|(Hr & Hfd & Hbelow)]; [by rewrite for_up_nil by lia|].
  cut (let s' := for_up 0 first
         (fun i s0 =>
            if first * 2 - i <=? 255
            then if negb (rd (div s0) (first * 2 - i) =? 0)
                 then mark s0 i (clampZ (rd (curve s0) first * 2
                                         - rd (curve s0) (first * 2 - i)))
                 else s0
            else s0) s in
       wf s' /\ Inv s' /\ forall j, first <= j -> rd (div s') j = rd (div s) j).
  { cbv zeta. intros (? & ? & _). done. }
  apply (for_up_ind (fun i s' =>
    wf s' /\ Inv s' /\ forall j, i <= j -> rd (div s') j = rd (div s) j));
    [lia | done | ].
  intros i s' Hi (Hwf' & HI' & Hsame).
  destruct (Z.leb_spec (first * 2 - i) 255) as [Hm|Hm];
    [|split; [done|]; split; [done|]; intros j Hj; apply Hsame; lia].
  destruct (Z.eqb_spec (rd (div s') (first * 2 - i)) 0) as [Hmz|Hmz]; cbn [negb];
    [split; [done|]; split; [done|]; intros j Hj; apply Hsame; lia|].
  split; [by apply wf_mark|]. split.
  - apply (Inv_bottom s' i first); [done | done | lia | lia | | done |].
    + unfold defined. by rewrite Hsame by lia.
    + intros q Hq. unfold defined. rewrite Hsame by lia.
      intros Hd. apply Hd, Hbelow. lia.
  - intros j Hj. rewrite mark_div by (done || lia).
    destruct (Z.eqb_spec i j); [lia|]. apply Hsame. lia.
Qed.

Lemma extend_top_inv s :
  wf s -> Inv s -> wf (extend_top s) /\ Inv (extend_top s).
Proof.
  intros Hwf HI. unfold extend_top.
  destruct (Z.eqb_spec (rd (div s) 255) 0) as [Hz|Hz]; [|done].
  pose proof (scan_down_spec (div s) 256 255 ltac:(lia)) as Hl. cbv zeta in Hl.
  cbv zeta. set (last := scan_down (div s) 255 256) in *.
  assert (-1 <= last <= 255 /\ (0 <= last -> defined s last) /\
          forall q, last < q <= 255 -> rd (div s) q = 0) as (Hr & Hld & Habove).
  { destruct Hl as [[-> Hall]|(Hr & Hld & Habove)].
    - split; [lia|]. split; [lia|]. intros q Hq. apply Hall. lia.
    - split; [lia|]. done. }
  cut (let s' := for_down 255 last
         (fun i s0 =>
            if 0 <=? last * 2 - i
            then if negb (rd (div s0) (last * 2 - i) =? 0)
                 then mark s0 i (clampZ (rd (curve s0) last * 2
                                         - rd (curve s0) (last * 2 - i)))
                 else s0
            else s0) s in
       wf s' /\ Inv s' /\
       forall j, 0 <= j <= last -> rd (div s') j = rd (div s) j).
  { cbv zeta. intros (? & ? & _). done. }
  apply (for_down_ind (fun i s' =>
    wf s' /\ Inv s' /\ forall j, 0 <= j <= i -> rd (div s') j = rd (div s) j));
    [lia | done | ].
  intros i s' Hi (Hwf' & HI' & Hsame).
  destruct (Z.leb_spec 0 (last * 2 - i)) as [Hm|Hm];
    [|split; [done|]; split; [done|]; intros j Hj; apply Hsame; lia].
  destruct (Z.eqb_spec (rd (div s') (last * 2 - i)) 0) as [Hmz|Hmz]; cbn [negb];
    [split; [done|]; split; [done|]; intros j Hj; apply Hsame; lia|].
  split; [by apply wf_mark|]. split.
  - apply (Inv_top s' i last); [done | done | lia | lia | lia | | done |].
    + unfold defined. rewrite Hsame by lia. apply Hld. lia.
    + intros q Hq. unfold defined. rewrite Hsame by lia.
      intros Hd. apply Hd, Habove. lia.
  - intros j Hj. rewrite mark_div by (done || lia).
    destruct (Z.eqb_spec i j); [lia|]. apply Hsame. lia.
Qed.

Lemma extend_loop_inv fuel : forall s s',
  wf s -> Inv s -> extend_loop fuel s = Some s' -> wf s' /\ Inv s'.
Proof.
  induction fuel as [|fuel IH]; intros s s' Hwf HI; [done|].
  rewrite extend_loop_S.
  destruct ((rd (div s) 0 =? 0) || (rd (div s) 255 =? 0)).
  - destruct (extend_bottom_inv s Hwf HI) as [Hwf1 HI1].
    destruct (extend_top_inv _ Hwf1 HI1) as [Hwf2 HI2].
    by apply IH.
  - intros H%(inj Some). by subst s'.
Qed.

End Invariant.

(** ** The key values of the plane keep their raw value *)

Lemma keeps_refl s : keeps s s.
Proof. by intros j Hj Hd. Qed.

Lemma keeps_mark s0 s i v :
  wf s -> keeps s0 s -> 0 <= i < 256 -> ~ defined s i -> keeps s0 (mark s i v).
Proof.
  intros Hwf Hk Hi Hu j Hj Hd. destruct (Hk j Hj Hd) as (Hc & Hdv & Hs).
  assert (i <> j) as Hne.
  { intros ->. apply Hu. unfold defined. rewrite Hdv. exact Hd. }
  rewrite mark_curve, mark_div, mark_sum by (done || lia).
  destruct (Z.eqb_spec i j); [lia|]. done.
Qed.

Lemma fill_gaps_keeps s : wf s -> wf (fill_gaps s) /\ keeps s (fill_gaps s).
Proof.
  intros Hwf. apply (fill_gaps_inv (keeps s)); [|done | apply keeps_refl].
  intros s1 i prev next Hwf1 Hk1 Hp Hn _ _ Hu.
  apply keeps_mark; [done | done | lia | apply Hu; lia].
Qed.

Lemma extend_loop_keeps s0 fuel s s' :
  wf s -> keeps s0 s -> extend_loop fuel s = Some s' -> keeps s0 s'.
Proof.
  intros Hwf Hk Hloop.
  destruct (extend_loop_inv (keeps s0)) with (fuel := fuel) (s := s) (s' := s')
    as [_ Hk2]; try done.
  - intros s1 i first Hwf' Hk' Hi Hm _ _ Hu.
    apply keeps_mark; [done | done | lia | apply Hu; lia].
  - intros s1 i last Hwf' Hk' Hi Hm Hl _ _ Hu.
    apply keeps_mark; [done | done | lia | apply Hu; lia].
Qed.

Lemma interpolate_keeps fuel s s' :
  wf s -> interpolate fuel s = Some s' -> keeps s s'.
Proof.
  intros Hwf Hint. unfold interpolate in Hint.
  destruct (fill_gaps_keeps s Hwf) as [Hwf1 Hk1].
  exact (extend_loop_keeps s fuel (fill_gaps s) s' Hwf1 Hk1 Hint).
Qed.

Lemma postprocess_window0 fuel s st :
  wf s -> consistent s -> find_flat s = -1 -> postprocess fuel 0 s = Some st ->
  interpolate fuel s = Some st /\ good st /\ all_defined st.
Proof.
  intros Hwf Hcons Hflat. rewrite postprocess_not_flat by done.
  destruct (interpolate fuel s) as [s'|] eqn:Hint; [|done].
  rewrite smooth_0. intros H%(inj Some). subst st.
  assert (two_defined s) as Htwo.
  { destruct (find_flat_none s Hflat) as [Hnone|Htwo]; [|done].
    by rewrite interpolate_none in Hint. }
  destruct (interpolate_result fuel s s' Hwf Hcons Htwo Hint)
    as [Hgood Hall].
  destruct Hgood as (Hwf' & Hcons' & Hrest).
  rewrite (final_curve_id s' Hwf' Hcons' Hall).
  split; [done|]. split; [|done]. split; [done|]. split; done.
Qed.

Lemma postprocess_flat fuel w s :
  find_flat s <> -1 -> postprocess fuel w s = Some (uniform (find_flat s) s).
Proof.
  intros H. unfold postprocess. cbv zeta.
  generalize (find_flat s) H. intros k Hk.
  destruct (Z.eqb_spec k (-1)); [done | reflexivity].
Qed.

Lemma postprocess_keeps fuel s st v :
  wf s -> consistent s -> postprocess fuel 0 s = Some st ->
  0 <= v < 256 -> defined s v -> rd (curve st) v = rd (curve s) v.
Proof.
  intros Hwf Hcons Hpost Hv Hd.
  destruct (Z.eq_dec (find_flat s) (-1)) as [Hflat|Hflat].
  - destruct (postprocess_window0 fuel s st Hwf Hcons Hflat Hpost) as (Hint & _).
    by destruct (interpolate_keeps fuel s st Hwf Hint v Hv Hd).
  - rewrite postprocess_flat in Hpost by done.
    apply (inj Some) in Hpost. subst st.
    destruct (find_flat_some s Hflat) as (Hk & _ & Hothers).
    destruct (uniform_spec (find_flat s) s Hwf Hk) as (_ & _ & _ & Hc).
    rewrite (Hc v Hv).
    destruct (Z.eq_dec v (find_flat s)) as [->|Hne]; [done|].
    exfalso. apply Hd. by apply Hothers.
Qed.

Lemma Create_not_raw fuel this ptr1 ptr2 width height stride w :
  Create fuel this ptr1 ptr2 width height stride false w
  = postprocess fuel w (accumulate this ptr1 ptr2 width height stride).
Proof. reflexivity. Qed.

(** X12.  Without smoothing ([smoothing_window] 0), the postprocessing
    leaves the curve as the raw curve has it at every pixel value that
    occurs in the key plane: interpolation and extrapolation write only
    the values that do not occur. *)
Theorem Create_keeps_raw fuel this ptr1 ptr2 width height stride w sr st v :
  wf this ->
  Create fuel this ptr1 ptr2 width height stride true w = Some sr ->
  Create fuel this ptr1 ptr2 width height stride false 0 = Some st ->
  0 <= v < 256 -> rd (div sr) v <> 0 ->
  rd (curve st) v = rd (curve sr) v.
Proof.
  intros Hwf Hraw Hcreate Hv Hd.
  rewrite Create_raw in Hraw. apply (inj Some) in Hraw. subst sr.
  rewrite Create_not_raw in Hcreate.
  destruct (accumulate_consistent this ptr1 ptr2 width height stride Hwf)
    as [Hwf0 Hcons0].
  exact (postprocess_keeps fuel _ st v Hwf0 Hcons0 Hcreate Hv Hd).
Qed.

Lemma Create_keeps_raw_witness :
  (wf blank /\
   Create 257 blank [10; 20; 10; 30] [50; 60; 70; 80] 2 2 2 true 8 = Some small_raw /\
   Create 257 blank [10; 20; 10; 30] [50; 60; 70; 80] 2 2 2 false 0
   = Some small_curve0 /\
   0 <= 10 < 256 /\ rd (div small_raw) 10 <> 0) /\
  rd (curve small_curve0) 10 = rd (curve small_raw) 10.
Proof.
  assert (wf blank) as H1 by exact wf_blank.
  assert (Create 257 blank [10; 20; 10; 30] [50; 60; 70; 80] 2 2 2 true 8
          = Some small_raw) as H2 by (vm_compute; reflexivity).
  assert (Create 257 blank [10; 20; 10; 30] [50; 60; 70; 80] 2 2 2 false 0
          = Some small_curve0) as H3 by (vm_compute; reflexivity).
  assert (0 <= 10 < 256) as H4 by lia.
  assert (rd (div small_raw) 10 <> 0) as H5 by (vm_compute; discriminate).
  split; [exact (conj H1 (conj H2 (conj H3 (conj H4 H5))))|].
  exact (Create_keeps_raw 257 blank [10; 20; 10; 30] [50; 60; 70; 80] 2 2 2 8
           small_raw small_curve0 10 H1 H2 H3 H4 H5).
Defined.

(** ** Matching a plane against itself *)

Lemma IntDiv_exact k n :
  0 < n -> INT_MIN <= k * n - n / 2 -> k * n + n / 2 <= INT_MAX ->
  IntDiv (k * n) n = k.
Proof.
  intros Hn Hlo Hhi.
  pose proof (IntDiv_bounds (k * n) n k k Hn Hlo Hhi ltac:(lia)). lia.
Qed.

Lemma exact_sum_diag px v :
  Forall (fun kx => snd kx = fst kx) px ->
  exact_sum px v = v * exact_count px v.
Proof.
  induction 1 as [|[k x] px Hx _ IH]; [simpl; lia|].
  simpl in *. subst x. destruct (Z.eqb_spec k v); lia.
Qed.

Lemma identity_mark s i v :
  wf s -> identity_on_defined s -> 0 <= i < 256 -> v = i ->
  identity_on_defined (mark s i v).
Proof.
  intros Hwf Hid Hi -> j Hj Hd. rewrite mark_curve by (done || lia).
  destruct (Z.eqb_spec i j) as [->|Hne]; [apply to_uchar_small; lia|].
  apply Hid; [done|]. apply mark_defined in Hd; [|done | done | lia].
  destruct Hd as [->|Hd]; done.
Qed.

Lemma interpolate_identity fuel s s' :
  wf s -> identity_on_defined s -> interpolate fuel s = Some s' ->
  identity_on_defined s'.
Proof.
  intros Hwf Hid Hint. unfold interpolate in Hint.
  destruct (fill_gaps_inv identity_on_defined) with (s := s) as [Hwf1 Hid1];
    [|done | done|].
  { intros s1 i prev next Hwf1 Hid1 Hp Hn Hdp Hdn _.
    apply identity_mark; [done | done | lia|]. unfold gap_value.
    rewrite (Hid1 prev) by (done || lia). rewrite (Hid1 next) by (done || lia).
    assert (0 <= (i - prev) * (next - prev) <= 65025) as Hprod by nia.
    assert (0 <= (next - prev) / 2 <= 128) as Hhalf
      by (split; [apply Z.div_pos; lia | apply Z.div_le_upper_bound; lia]).
    rewrite IntDiv_exact by (unfold INT_MIN, INT_MAX; lia).
    unfold clampZ. lia. }
  destruct (extend_loop_inv identity_on_defined) with (fuel := fuel)
    (s := fill_gaps s) (s' := s') as [_ Hid2]; try done.
  - intros s1 i first Hwf' Hid' Hi Hm Hdf Hdm _.
    apply identity_mark; [done | done | lia|]. unfold mirror_value.
    rewrite (Hid' first) by (done || lia).
    rewrite (Hid' (first * 2 - i)) by (done || lia). unfold clampZ. lia.
  - intros s1 i last Hwf' Hid' Hi Hm Hl Hdl Hdm _.
    apply identity_mark; [done | done | lia|]. unfold mirror_value.
    rewrite (Hid' last) by (done || lia).
    rewrite (Hid' (last * 2 - i)) by (done || lia). unfold clampZ. lia.
Qed.

Lemma accumulate_identity this ptr width height stride :
  wf this -> plane_ok ptr width height stride -> 0 <= width -> 0 <= height ->
  255 * (width * height) + width * height / 2 <= INT_MAX ->
  identity_on_defined (accumulate this ptr ptr width height stride).
Proof.
  intros Hwf Hp Hw Hh Hmax v Hv Hd.
  destruct (accumulate_spec this ptr ptr width height stride Hwf Hp Hp)
    as [_ Hacc].
  destruct (Hacc v Hv) as (Hs & Hdv & Hc).
  unfold defined in Hd. rewrite Hc.
  destruct (Z.eqb_spec (rd (div (accumulate this ptr ptr width height stride)) v) 0);
    [done|].
  pose proof (exact_count_nonneg (plane_pixels ptr ptr width height stride) v)
    as Hcnt.
  rewrite (length_plane_pixels ptr ptr width height stride Hw Hh) in Hcnt.
  rewrite exact_sum_diag in Hs
    by (apply plane_pixels_Forall; intros; reflexivity).
  assert (0 <= width * height) as Hn by nia.
  assert (0 <= width * height / 2) as Hn2 by (apply Z.div_pos; lia).
  assert (exact_count (plane_pixels ptr ptr width height stride) v / 2
          <= width * height / 2) as Hhalf by (apply Z.div_le_mono; lia).
  unfold INT_MAX in Hmax.
  rewrite wrap_uint_small in Hs by nia. rewrite wrap_uint_small in Hdv by lia.
  assert (0 < exact_count (plane_pixels ptr ptr width height stride) v) as Hpos
    by lia.
  destruct (raw_value_mean _ v _ _ Hs Hdv) as (-> & _ & _);
    [unfold INT_MAX; lia | nia | unfold INT_MAX; nia |].
  apply IntDiv_exact; unfold INT_MIN, INT_MAX; [lia | nia | nia].
Qed.

Lemma postprocess0_returns fuel s :
  wf s -> consistent s -> two_defined s -> (257 <= fuel)%nat ->
  exists st, postprocess fuel 0 s = Some st /\ interpolate fuel s = Some st /\
             all_defined st.
Proof.
  intros Hwf Hcons Htwo Hfuel.
  destruct (interpolate_terminates fuel s Hwf Hcons Htwo Hfuel)
    as (s' & Hint & (Hwf' & Hcons' & _) & Hall).
  exists s'. split; [|done].
  destruct Htwo as (a & b & Hab & Hb & Hda & Hdb).
  rewrite postprocess_not_flat by exact (find_flat_two s a b Hab Hb Hda Hdb).
  rewrite Hint, smooth_0. by rewrite (final_curve_id s' Hwf' Hcons' Hall).
Qed.

(** X13.  Matching a plane against itself, without smoothing, gives the
    identity curve: with [raw] every pixel value that occurs maps to
    itself, and with the postprocessing (the plane having at least two
    pixel values) all 256 values do. *)
Theorem self_match_identity fuel this ptr width height stride :
  wf this -> plane_ok ptr width height stride -> 0 <= width -> 0 <= height ->
  255 * (width * height) + width * height / 2 <= INT_MAX ->
  (exists sr,
     Create fuel this ptr ptr width height stride true 0 = Some sr /\
     forall v, 0 <= v < 256 -> rd (div sr) v <> 0 -> rd (curve sr) v = v) /\
  (two_key_values ptr width height stride -> (257 <= fuel)%nat ->
   exists st,
     Create fuel this ptr ptr width height stride false 0 = Some st /\
     forall i, 0 <= i < 256 -> rd (curve st) i = i).
Proof.
  intros Hwf Hp Hw Hh Hmax.
  pose proof (accumulate_identity this ptr width height stride Hwf Hp Hw Hh Hmax)
    as Hid.
  split.
  - exists (accumulate this ptr ptr width height stride).
    split; [apply Create_raw | exact Hid].
  - intros Hkeys Hfuel. rewrite Create_not_raw.
    destruct (accumulate_consistent this ptr ptr width height stride Hwf)
      as [Hwf0 Hcons0].
    assert (0 <= width * height) as Hn by nia.
    assert (0 <= width * height / 2) as Hn2 by (apply Z.div_pos; lia).
    assert (width * height < 2 ^ 32) as Hsize by (unfold INT_MAX in Hmax; lia).
    pose proof (two_keys_two_defined this ptr ptr width height stride
                  Hwf Hp Hp Hsize Hkeys) as Htwo.
    destruct (postprocess0_returns fuel _ Hwf0 Hcons0 Htwo Hfuel)
      as (st & Hpost & Hint & Hall).
    exists st. split; [done|]. intros i Hi.
    exact (interpolate_identity fuel _ st Hwf0 Hid Hint i Hi (Hall i Hi)).
Qed.

Lemma self_match_identity_witness :
  (wf blank /\ plane_ok [10; 20; 10; 30] 2 2 2 /\ 0 <= 2 /\ 0 <= 2 /\
   255 * (2 * 2) + 2 * 2 / 2 <= INT_MAX) /\
  (exists sr,
     Create 257 blank [10; 20; 10; 30] [10; 20; 10; 30] 2 2 2 true 0 = Some sr /\
     forall v, 0 <= v < 256 -> rd (div sr) v <> 0 -> rd (curve sr) v = v) /\
  (two_key_values [10; 20; 10; 30] 2 2 2 -> (257 <= 257)%nat ->
   exists st,
     Create 257 blank [10; 20; 10; 30] [10; 20; 10; 30] 2 2 2 false 0 = Some st /\
     forall i, 0 <= i < 256 -> rd (curve st) i = i).
Proof.
  assert (wf blank) as H1 by exact wf_blank.
  assert (plane_ok [10; 20; 10; 30] 2 2 2) as H2
    by (apply plane_okb_correct; vm_compute; reflexivity).
  assert (0 <= 2) as H3 by lia.
  assert (255 * (2 * 2) + 2 * 2 / 2 <= INT_MAX) as H4 by (vm_compute; discriminate).
  split; [exact (conj H1 (conj H2 (conj H3 (conj H3 H4))))|].
  exact (self_match_identity 257 blank [10; 20; 10; 30] 2 2 2 H1 H2 H3 H3 H4).
Defined.

(** ** Interpolation stays between its two ends *)

Lemma gap_value_between s i prev next lo hi :
  0 <= prev < i -> i < next < 256 -> 0 <= lo -> hi <= 255 ->
  lo <= rd (curve s) prev <= hi -> lo <= rd (curve s) next <= hi ->
  lo <= gap_value s i prev next <= hi.
Proof.
  intros Hp Hn Hlo Hhi Hcp Hcn. unfold gap_value.
  generalize dependent (rd (curve s) next). generalize dependent (rd (curve s) prev).
  intros cp Hcp cn Hcn.
  assert (0 <= (next - prev) / 2 <= 128) as Hhalf
    by (split; [apply Z.div_pos; lia | apply Z.div_le_upper_bound; lia]).
  assert (-65025 <= (i - prev) * (cn - cp) <= 65025) as Hprod by nia.
  assert (Z.min 0 (cn - cp) <= IntDiv ((i - prev) * (cn - cp)) (next - prev)
          <= Z.max 0 (cn - cp)) as Hq.
  { apply IntDiv_bounds; unfold INT_MIN, INT_MAX; try lia.
    destruct (Z_le_gt_dec 0 (cn - cp)).
    - rewrite Z.min_l, Z.max_r by lia. nia.
    - rewrite Z.min_r, Z.max_l by lia. nia. }
  unfold clampZ. lia.
Qed.

Lemma fill_gaps_bounded a b lo hi s :
  wf s -> 0 <= a < b -> b < 256 -> 0 <= lo -> hi <= 255 ->
  bounded_on a b lo hi s -> bounded_on a b lo hi (fill_gaps s).
Proof.
  intros Hwf Hab Hb Hlo Hhi Hbd.
  apply (fill_gaps_inv (bounded_on a b lo hi)); [|done | done].
  intros s1 i prev next Hwf1 (Hda & Hdb & Hr) Hp Hn Hdp Hdn Hu.
  assert (~ defined s1 i) as Hui by (apply Hu; lia).
  split; [apply mark_defined; auto; lia|].
  split; [apply mark_defined; auto; lia|].
  intros j Hj Hdj. rewrite mark_curve by (done || lia).
  destruct (Z.eqb_spec i j) as [<-|Hne].
  - assert (a <= prev)
      by (destruct (Z_lt_le_dec prev a); [exfalso; apply (Hu a); [lia|done] | done]).
    assert (next <= b)
      by (destruct (Z_lt_le_dec b next); [exfalso; apply (Hu b); [lia|done] | done]).
    pose proof (gap_value_between s1 i prev next lo hi Hp Hn Hlo Hhi
                  (Hr prev ltac:(lia) Hdp) (Hr next ltac:(lia) Hdn)) as Hv.
    rewrite to_uchar_small by lia. done.
  - apply Hr; [done|]. apply mark_defined in Hdj; [|done | lia | lia].
    destruct Hdj as [->|Hdj]; done.
Qed.

Lemma postprocess_between fuel s st a b i :
  wf s -> consistent s -> curve_ok s -> postprocess fuel 0 s = Some st ->
  0 <= a < b -> b < 256 -> defined s a -> defined s b ->
  (forall q, a < q < b -> rd (div s) q = 0) -> a <= i <= b ->
  Z.min (rd (curve s) a) (rd (curve s) b) <= rd (curve st) i
  <= Z.max (rd (curve s) a) (rd (curve s) b).
Proof.
  intros Hwf Hcons Hok Hpost Hab Hb Hda Hdb Hgap Hi.
  pose proof (find_flat_two s a b Hab Hb Hda Hdb) as Hflat.
  destruct (postprocess_window0 fuel s st Hwf Hcons Hflat Hpost) as (Hint & _).
  unfold interpolate in Hint.
  pose proof (Hok a ltac:(lia)) as Hca. pose proof (Hok b ltac:(lia)) as Hcb.
  assert (bounded_on a b (Z.min (rd (curve s) a) (rd (curve s) b))
            (Z.max (rd (curve s) a) (rd (curve s) b)) s) as Hbd.
  { split; [done|]. split; [done|]. intros j Hj Hdj.
    destruct (Z.eq_dec j a) as [->|]; [lia|].
    destruct (Z.eq_dec j b) as [->|]; [lia|].
    exfalso. apply Hdj, Hgap. lia. }
  apply fill_gaps_bounded in Hbd; [|done | done | done | lia | lia].
  destruct Hbd as (Hda1 & Hdb1 & Hr).
  destruct (fill_gaps_spec s Hwf Hcons) as (Hwf1 & _ & _ & Hcont).
  assert (defined (fill_gaps s) i) as Hdi.
  { destruct (Z.eq_dec i a) as [->|]; [done|].
    destruct (Z.eq_dec i b) as [->|]; [done|].
    apply (Hcont a i b); auto; lia. }
  destruct (extend_loop_keeps (fill_gaps s) fuel (fill_gaps s) st Hwf1
              (keeps_refl _) Hint i ltac:(lia) Hdi) as (-> & _).
  by apply Hr.
Qed.

(** X14.  Without smoothing, the curve between two pixel values [a < b]
    that occur in the key plane, with none occurring in between, stays
    between the raw values of [a] and of [b]: the interpolation does not
    overshoot. *)
Theorem interpolation_between fuel this ptr1 ptr2 width height stride w sr st
    a b i :
  wf this ->
  Create fuel this ptr1 ptr2 width height stride true w = Some sr ->
  Create fuel this ptr1 ptr2 width height stride false 0 = Some st ->
  0 <= a < b -> b < 256 -> rd (div sr) a <> 0 -> rd (div sr) b <> 0 ->
  (forall q, a < q < b -> rd (div sr) q = 0) -> a <= i <= b ->
  Z.min (rd (curve sr) a) (rd (curve sr) b) <= rd (curve st) i
  <= Z.max (rd (curve sr) a) (rd (curve sr) b).
Proof.
  intros Hwf Hraw Hcreate Hab Hb Hda Hdb Hgap Hi.
  rewrite Create_raw in Hraw. apply (inj Some) in Hraw. subst sr.
  rewrite Create_not_raw in Hcreate.
  destruct (accumulate_consistent this ptr1 ptr2 width height stride Hwf)
    as [Hwf0 Hcons0].
  pose proof (curve_ok_accumulate this ptr1 ptr2 width height stride Hwf) as Hok.
  exact (postprocess_between fuel _ st a b i Hwf0 Hcons0 Hok Hcreate Hab Hb
           Hda Hdb Hgap Hi).
Qed.

Lemma interpolation_between_witness :
  (wf blank /\
   Create 257 blank [10; 20; 10; 30] [50; 60; 70; 80] 2 2 2 true 8 = Some small_raw /\
   Create 257 blank [10; 20; 10; 30] [50; 60; 70; 80] 2 2 2 false 0
   = Some small_curve0 /\
   0 <= 20 < 30 /\ 30 < 256 /\ rd (div small_raw) 20 <> 0 /\
   rd (div small_raw) 30 <> 0 /\
   (forall q, 20 < q < 30 -> rd (div small_raw) q = 0) /\ 20 <= 25 <= 30) /\
  Z.min (rd (curve small_raw) 20) (rd (curve small_raw) 30)
  <= rd (curve small_curve0) 25
  <= Z.max (rd (curve small_raw) 20) (rd (curve small_raw) 30).
Proof.
  assert (wf blank) as H1 by exact wf_blank.
  assert (Create 257 blank [10; 20; 10; 30] [50; 60; 70; 80] 2 2 2 true 8
          = Some small_raw) as H2 by (vm_compute; reflexivity).
  assert (Create 257 blank [10; 20; 10; 30] [50; 60; 70; 80] 2 2 2 false 0
          = Some small_curve0) as H3 by (vm_compute; reflexivity).
  assert (0 <= 20 < 30) as H4 by lia.
  assert (30 < 256) as H5 by lia.
  assert (rd (div small_raw) 20 <> 0) as H6 by (vm_compute; discriminate).
  assert (rd (div small_raw) 30 <> 0) as H7 by (vm_compute; discriminate).
  assert (forall q, 20 < q < 30 -> rd (div small_raw) q = 0) as H8.
  { intros q Hq.
    assert (q = 21 \/ q = 22 \/ q = 23 \/ q = 24 \/ q = 25 \/ q = 26 \/ q = 27
            \/ q = 28 \/ q = 29) as Hcases by lia.
    repeat (destruct Hcases as [->|Hcases]; [vm_compute; reflexivity|]).
    subst q. vm_compute. reflexivity. }
  assert (20 <= 25 <= 30) as H9 by lia.
  split; [exact (conj H1 (conj H2 (conj H3 (conj H4 (conj H5 (conj H6 (conj H7
            (conj H8 H9))))))))|].
  exact (interpolation_between 257 blank [10; 20; 10; 30] [50; 60; 70; 80] 2 2 2 8
           small_raw small_curve0 20 30 25 H1 H2 H3 H4 H5 H6 H7 H8 H9).
Defined.

(** ** Smoothing *)

Lemma range_sum_nil c lo hi : hi <= lo -> range_sum c lo hi = 0.
Proof. intros H. unfold range_sum. by rewrite for_up_nil. Qed.

Lemma range_sum_snoc c lo hi :
  lo <= hi -> range_sum c lo (hi + 1) = range_sum c lo hi + rd c hi.
Proof. intros H. unfold range_sum. by rewrite for_up_snoc. Qed.

Lemma range_sum_bound c lo hi a b :
  lo <= hi -> (forall j, lo <= j < hi -> a <= rd c j <= b) ->
  a * (hi - lo) <= range_sum c lo hi <= b * (hi - lo).
Proof.
  intros Hle Hc. unfold range_sum.
  apply (for_up_ind (fun k acc => a * (k - lo) <= acc <= b * (k - lo)));
    [done | lia |].
  intros k acc Hk Hacc. specialize (Hc k Hk). lia.
Qed.

Lemma to_int_wrap z : 2 ^ 31 <= z < 2 ^ 32 + 2 ^ 31 -> to_int z = z - 2 ^ 32.
Proof.
  intros Hz. unfold to_int.
  replace (z + 2 ^ 31) with (z + 2 ^ 31 - 2 ^ 32 + 1 * 2 ^ 32) by ring.
  rewrite Z.mod_add by lia. rewrite Z.mod_small by lia. lia.
Qed.

(** Whether the smoothing takes the entry [i + t] into the mean. *)
Lemma smooth_test w i t :
  0 < w < 2 ^ 31 -> 0 <= i < 256 -> - w <= t < w ->
  (0 <=? to_int (i + t)) && (to_int (i + t) <? 256)
  = (0 <=? i + t) && (i + t <? 256).
Proof.
  intros Hw Hi Ht. destruct (Z_lt_le_dec (i + t) (2 ^ 31)).
  - by rewrite to_int_small by lia.
  - rewrite to_int_wrap by lia.
    destruct (Z.leb_spec 0 (i + t - 2 ^ 32)); [lia|].
    destruct (Z.ltb_spec (i + t) 256); [lia|]. by rewrite andb_false_r.
Qed.

Lemma smooth_one_window w i s :
  wf s -> curve_ok s -> 0 < w < 2 ^ 31 -> 0 <= i < 256 ->
  let s' := smooth_one w i s in
  wf s' /\ curve s' = curve s /\
  (forall j, 0 <= j -> j <> i ->
     rd (sum s') j = rd (sum s) j /\ rd (div s') j = rd (div s) j) /\
  rd (sum s') i = range_sum (curve s) (window_lo w i) (window_hi w i) /\
  rd (div s') i = window_hi w i - window_lo w i.
Proof.
  intros Hwf Hok Hw Hi. unfold smooth_one.
  set (lo := window_lo w i). set (hi := window_hi w i).
  assert (0 <= lo <= i /\ i < hi <= 256) as Hlh by (unfold lo, hi, window_lo, window_hi; lia).
  cut (let s' := for_up (- w) w
         (fun j s0 =>
            let ij := to_int (i + j) in
            if (0 <=? ij) && (ij <? 256)
            then let s1 := set_sum s0 i (wrap_uint (rd (sum s0) i + rd (curve s0) ij)) in
                 set_div s1 i (wrap_uint (rd (div s1) i + 1))
            else s0)
         (set_div (set_sum s i 0) i 0) in
       wf s' /\ curve s' = curve s /\
       (forall j, 0 <= j -> j <> i ->
          rd (sum s') j = rd (sum s) j /\ rd (div s') j = rd (div s) j) /\
       rd (sum s') i = range_sum (curve s) lo (Z.max lo (Z.min hi (i + w))) /\
       rd (div s') i = Z.max lo (Z.min hi (i + w)) - lo).
  { cbv zeta. replace (Z.max lo (Z.min hi (i + w))) with hi
      by (unfold lo, hi, window_lo, window_hi; lia). done. }
  apply (for_up_ind (fun t s' =>
    wf s' /\ curve s' = curve s /\
    (forall j, 0 <= j -> j <> i ->
       rd (sum s') j = rd (sum s) j /\ rd (div s') j = rd (div s) j) /\
    rd (sum s') i = range_sum (curve s) lo (Z.max lo (Z.min hi (i + t))) /\
    rd (div s') i = Z.max lo (Z.min hi (i + t)) - lo)); [lia | | ].
  - destruct Hwf as (Hs & Hd & Hc).
    split; [by apply wf_set_div, wf_set_sum|]. split; [done|]. split; [|split].
    + intros j Hj Hne. simpl. by rewrite !rd_wr_ne by lia.
    + simpl. rewrite rd_wr_eq by lia.
      rewrite range_sum_nil; [done|]. unfold lo, hi, window_lo, window_hi. lia.
    + simpl. rewrite rd_wr_eq by lia. unfold lo, hi, window_lo, window_hi. lia.
  - intros t s' Ht (Hwf' & Hcv & Hoth & Hsum & Hdiv). cbv zeta.
    rewrite (smooth_test w i t) by (done || lia).
    destruct (Z.leb_spec 0 (i + t)) as [H0|H0];
      [destruct (Z.ltb_spec (i + t) 256) as [H1|H1]|]; cbn [andb].
    + assert (Z.max lo (Z.min hi (i + t)) = i + t) as Ea
        by (unfold lo, hi, window_lo, window_hi; lia).
      assert (Z.max lo (Z.min hi (i + (t + 1))) = i + t + 1) as Eb
        by (unfold lo, hi, window_lo, window_hi; lia).
      rewrite Ea in Hsum, Hdiv. rewrite Eb.
      rewrite (to_int_small (i + t)) by lia.
      assert (0 <= range_sum (curve s) lo (i + t) <= 255 * (i + t - lo)) as Hb.
      { assert (lo <= i + t) as Hle by lia.
        pose proof (range_sum_bound (curve s) lo (i + t) 0 255 Hle) as Hrb.
        destruct Hrb as [Hr1 Hr2]; [|lia].
        intros j Hj. pose proof (Hok j ltac:(lia)). lia. }
      pose proof (Hok (i + t) ltac:(lia)) as Hc1.
      destruct Hwf' as (Hs & Hd & Hc).
      split; [by apply wf_set_div, wf_set_sum|]. split; [done|]. split; [|split].
      * intros j Hj Hne. simpl. rewrite !rd_wr_ne by lia. by apply Hoth.
      * simpl. rewrite rd_wr_eq by lia. rewrite Hsum, Hcv.
        assert (lo <= i + t) by lia.
        rewrite wrap_uint_small by lia.
        replace (i + t + 1) with ((i + t) + 1) by lia.
        by rewrite range_sum_snoc.
      * simpl. rewrite rd_wr_eq by lia. rewrite Hdiv.
        rewrite wrap_uint_small by lia. lia.
    + replace (Z.max lo (Z.min hi (i + (t + 1)))) with (Z.max lo (Z.min hi (i + t)))
        by (unfold lo, hi, window_lo, window_hi; lia). done.
    + replace (Z.max lo (Z.min hi (i + (t + 1)))) with (Z.max lo (Z.min hi (i + t)))
        by (unfold lo, hi, window_lo, window_hi; lia). done.
Qed.

Lemma smooth_window w s :
  wf s -> curve_ok s -> 0 < w < 2 ^ 31 ->
  wf (smooth w s) /\ curve (smooth w s) = curve s /\
  forall i, 0 <= i < 256 ->
    rd (sum (smooth w s)) i = range_sum (curve s) (window_lo w i) (window_hi w i) /\
    rd (div (smooth w s)) i = window_hi w i - window_lo w i.
Proof.
  intros Hwf Hok Hw. unfold smooth.
  destruct (Z.ltb_spec 0 w); [|lia].
  cut (let s' := for_up 0 256 (smooth_one w) s in
       wf s' /\ curve s' = curve s /\
       forall i, 0 <= i < 256 ->
         rd (sum s') i = range_sum (curve s) (window_lo w i) (window_hi w i) /\
         rd (div s') i = window_hi w i - window_lo w i).
  { cbv zeta. done. }
  apply (for_up_ind (fun k s' =>
    wf s' /\ curve s' = curve s /\
    forall i, 0 <= i < k ->
      rd (sum s') i = range_sum (curve s) (window_lo w i) (window_hi w i) /\
      rd (div s') i = window_hi w i - window_lo w i)); [lia | | ].
  - split; [done|]. split; [done|]. intros i Hi. lia.
  - intros k s' Hk (Hwf' & Hcv & Hdone).
    assert (curve_ok s') as Hok' by (intros j Hj; rewrite Hcv; by apply Hok).
    destruct (smooth_one_window w k s' Hwf' Hok' Hw Hk)
      as (Hwf1 & Hcv1 & Hoth & Hs1 & Hd1).
    split; [done|]. split; [congruence|]. intros i Hi.
    destruct (Z.eq_dec i k) as [->|Hne].
    + rewrite Hs1, Hd1, Hcv. done.
    + destruct (Hoth i ltac:(lia) Hne) as [-> ->]. apply Hdone. lia.
Qed.

Lemma range_sum_const c lo hi v :
  lo <= hi -> (forall j, lo <= j < hi -> rd c j = v) ->
  range_sum c lo hi = v * (hi - lo).
Proof.
  intros Hle Hc.
  pose proof (range_sum_bound c lo hi v v Hle) as Hb.
  destruct Hb as [Hb1 Hb2]; [|lia]. intros j Hj. rewrite (Hc j Hj). lia.
Qed.

Lemma nearest_away_exact q y : 0 < y -> nearest_away (q * y) y q.
Proof.
  intros Hy. unfold nearest_away. replace (q * y - q * y) with 0 by lia.
  simpl. lia.
Qed.

Lemma window_bounds w i :
  0 < w -> 0 <= i < 256 -> 0 <= window_lo w i <= i /\ i < window_hi w i <= 256.
Proof. unfold window_lo, window_hi. lia. Qed.

Lemma postprocess_smoothing fuel w s s0 st i :
  wf s -> consistent s -> curve_ok s -> 0 < w <= INT_MAX ->
  postprocess fuel 0 s = Some s0 -> postprocess fuel w s = Some st ->
  0 <= i < 256 ->
  nearest_away (range_sum (curve s0) (window_lo w i) (window_hi w i))
    (window_hi w i - window_lo w i) (rd (curve st) i).
Proof.
  intros Hwf Hcons Hok Hw Hp0 Hpw Hi.
  pose proof (window_bounds w i ltac:(lia) Hi) as Hlh.
  destruct (Z.eq_dec (find_flat s) (-1)) as [Hflat|Hflat].
  - destruct (postprocess_bytes fuel 0 s s0 Hwf Hcons Hok Hp0) as [Hwf0 Hok0].
    destruct (postprocess_window0 fuel s s0 Hwf Hcons Hflat Hp0) as (Hint & _).
    rewrite postprocess_not_flat, Hint in Hpw by done.
    apply (inj Some) in Hpw. subst st.
    destruct (smooth_window w s0 Hwf0 Hok0) as (Hwf1 & Hcv & Hsd);
      [unfold INT_MAX in Hw; lia|].
    destruct (final_curve_spec _ Hwf1) as (_ & _ & _ & Hc).
    rewrite (Hc i Hi). destruct (Hsd i Hi) as [Hs1 Hd1].
    pose proof (range_sum_bound (curve s0) (window_lo w i) (window_hi w i) 0 255
                  ltac:(lia)) as Hb.
    destruct Hb as [Hb1 Hb2];
      [intros j Hj; pose proof (Hok0 j ltac:(lia)); lia|].
    assert (0 <= (window_hi w i - window_lo w i) / 2 <= 128) as Hhalf
      by (split; [apply Z.div_pos; lia | apply Z.div_le_upper_bound; lia]).
    destruct (raw_value_mean _ i _ _ Hs1 Hd1) as (-> & Hn & _);
      unfold INT_MAX; (done || lia).
  - rewrite postprocess_flat in Hp0, Hpw by done.
    apply (inj Some) in Hp0. apply (inj Some) in Hpw. subst s0 st.
    destruct (find_flat_some s Hflat) as (Hk & _).
    destruct (uniform_spec (find_flat s) s Hwf Hk) as (_ & _ & _ & Hc).
    rewrite (Hc i Hi).
    rewrite (range_sum_const _ _ _ (rd (curve s) (find_flat s)))
      by (lia || (intros j Hj; apply Hc; lia)).
    apply nearest_away_exact. lia.
Qed.

(** X15.  With a smoothing window [w > 0], entry [i] of the curve is the
    mean, rounded to nearest, of the entries [i - w .. i + w - 1] of the
    curve that [Create] gives without smoothing, as far as these indices
    fall into 0..255: the window reaches one entry further down than
    up. *)
Theorem Create_smoothing fuel this ptr1 ptr2 width height stride w s0 st i :
  wf this -> 0 < w <= INT_MAX ->
  Create fuel this ptr1 ptr2 width height stride false 0 = Some s0 ->
  Create fuel this ptr1 ptr2 width height stride false w = Some st ->
  0 <= i < 256 ->
  nearest_away (range_sum (curve s0) (window_lo w i) (window_hi w i))
    (window_hi w i - window_lo w i) (rd (curve st) i).
Proof.
  intros Hwf Hw H0 Hst Hi. rewrite Create_not_raw in H0, Hst.
  destruct (accumulate_consistent this ptr1 ptr2 width height stride Hwf)
    as [Hwf0 Hcons0].
  pose proof (curve_ok_accumulate this ptr1 ptr2 width height stride Hwf) as Hok.
  exact (postprocess_smoothing fuel w _ s0 st i Hwf0 Hcons0 Hok Hw H0 Hst Hi).
Qed.

Lemma Create_smoothing_witness :
  (wf blank /\ 0 < 8 <= INT_MAX /\
   Create 257 blank [10; 20; 10; 30] [50; 60; 70; 80] 2 2 2 false 0
   = Some small_curve0 /\
   Create 257 blank [10; 20; 10; 30] [50; 60; 70; 80] 2 2 2 false 8
   = Some small_curve /\
   0 <= 25 < 256) /\
  nearest_away (range_sum (curve small_curve0) (window_lo 8 25) (window_hi 8 25))
    (window_hi 8 25 - window_lo 8 25) (rd (curve small_curve) 25).
Proof.
  assert (wf blank) as H1 by exact wf_blank.
  assert (0 < 8 <= INT_MAX) as H2 by (vm_compute; split; [reflexivity|discriminate]).
  assert (Create 257 blank [10; 20; 10; 30] [50; 60; 70; 80] 2 2 2 false 0
          = Some small_curve0) as H3 by (vm_compute; reflexivity).
  assert (Create 257 blank [10; 20; 10; 30] [50; 60; 70; 80] 2 2 2 false 8
          = Some small_curve) as H4 by (vm_compute; reflexivity).
  assert (0 <= 25 < 256) as H5 by lia.
  split; [exact (conj H1 (conj H2 (conj H3 (conj H4 H5))))|].
  exact (Create_smoothing 257 blank [10; 20; 10; 30] [50; 60; 70; 80] 2 2 2 8
           small_curve0 small_curve 25 H1 H2 H3 H4 H5).
Defined.

(** ** Matching a plane against itself, with smoothing *)

Lemma range_sum_identity c lo hi :
  lo <= hi -> (forall j, lo <= j < hi -> rd c j = j) ->
  2 * range_sum c lo hi = (hi - lo) * (lo + hi - 1).
Proof.
  intros Hle Hc. unfold range_sum.
  apply (for_up_ind (fun k acc => 2 * acc = (k - lo) * (lo + k - 1)));
    [done | lia |].
  intros k acc Hk Hacc. rewrite (Hc k Hk). lia.
Qed.

Lemma nearest_away_half x y q :
  0 < q -> 0 < y -> 2 * (q * y - x) = y -> nearest_away x y q.
Proof.
  intros Hq Hy Hx. unfold nearest_away.
  assert (y <= q * y) by nia.
  rewrite (Z.abs_neq (x - q * y)) by lia.
  rewrite (Z.abs_eq (q * y)) by lia.
  split; [lia|]. intros _. lia.
Qed.

Lemma smoothed_identity_mean w i x :
  0 < w <= 128 -> 0 <= i < 256 ->
  2 * x = (window_hi w i - window_lo w i) * (window_lo w i + window_hi w i - 1) ->
  nearest_away x (window_hi w i - window_lo w i) (smoothed_identity w i).
Proof.
  intros Hw Hi Hx. unfold smoothed_identity.
  destruct (Z.ltb_spec i w) as [Hlow|Hlow];
    [|destruct (Z.leb_spec i (256 - w)) as [Hmid|Hhigh]].
  - assert (window_lo w i = 0) as Elo by (unfold window_lo; lia).
    assert (window_hi w i = i + w) as Ehi by (unfold window_hi; lia).
    rewrite Elo, Ehi in *. rewrite Z.sub_0_r in *.
    set (q := (i + w) / 2).
    assert (i + w = 2 * q \/ i + w = 2 * q + 1) as [E|E]
      by (unfold q; clear; pose proof (Z.div_mod (i + w) 2 ltac:(lia));
          pose proof (Z.mod_pos_bound (i + w) 2 ltac:(lia)); lia).
    + rewrite E in *. assert (x = q * (2 * q) - q) as -> by nia.
      apply nearest_away_half; lia.
    + rewrite E in *. assert (x = q * (2 * q + 1)) as -> by nia.
      apply nearest_away_exact. lia.
  - assert (window_lo w i = i - w) as Elo by (unfold window_lo; lia).
    assert (window_hi w i = i + w) as Ehi by (unfold window_hi; lia).
    rewrite Elo, Ehi in *.
    replace (i + w - (i - w)) with (2 * w) in * by lia.
    assert (x = i * (2 * w) - w) as -> by nia.
    apply nearest_away_half; lia.
  - assert (window_lo w i = i - w) as Elo by (unfold window_lo; lia).
    assert (window_hi w i = 256) as Ehi by (unfold window_hi; lia).
    rewrite Elo, Ehi in *.
    set (q := (i - w + 256) / 2).
    assert (i - w + 256 = 2 * q \/ i - w + 256 = 2 * q + 1) as [E|E]
      by (unfold q; clear; pose proof (Z.div_mod (i - w + 256) 2 ltac:(lia));
          pose proof (Z.mod_pos_bound (i - w + 256) 2 ltac:(lia)); lia).
    + clearbody q. assert (i = 2 * q + w - 256) as -> by lia.
      replace (256 - (2 * q + w - 256 - w)) with (512 - 2 * q) in * by lia.
      assert (x = q * (512 - 2 * q) - (256 - q)) as -> by nia.
      apply nearest_away_half; lia.
    + clearbody q. assert (i = 2 * q + 1 + w - 256) as -> by lia.
      replace (256 - (2 * q + 1 + w - 256 - w)) with (511 - 2 * q) in * by lia.
      assert (x = q * (511 - 2 * q)) as -> by nia.
      apply nearest_away_exact. lia.
Qed.

Lemma postprocess_returns fuel w s :
  wf s -> consistent s -> two_defined s -> (257 <= fuel)%nat ->
  exists st, postprocess fuel w s = Some st.
Proof.
  intros Hwf Hcons Htwo Hfuel.
  destruct (interpolate_terminates fuel s Hwf Hcons Htwo Hfuel) as (s' & Hint & _).
  destruct Htwo as (a & b & Hab & Hb & Hda & Hdb).
  rewrite postprocess_not_flat by exact (find_flat_two s a b Hab Hb Hda Hdb).
  rewrite Hint. by eexists.
Qed.

(** X16.  Matching a plane (of at least two pixel values) against itself
    with a smoothing window [w > 0] does not give the identity curve at
    both ends: a value below [w] maps to [(i + w) / 2], a value above
    [256 - w] to [(i - w + 256) / 2], and only the values in between map to
    themselves.  With the default window of 8, 0 maps to 4 and 255 to
    251. *)
Theorem self_match_smoothed fuel this ptr width height stride w :
  wf this -> plane_ok ptr width height stride -> 0 <= width -> 0 <= height ->
  255 * (width * height) + width * height / 2 <= INT_MAX ->
  two_key_values ptr width height stride -> (257 <= fuel)%nat ->
  0 < w <= 128 ->
  exists st,
    Create fuel this ptr ptr width height stride false w = Some st /\
    forall i, 0 <= i < 256 -> rd (curve st) i = smoothed_identity w i.
Proof.
  intros Hwf Hp Hw Hh Hmax Hkeys Hfuel Hwin.
  pose proof (accumulate_identity this ptr width height stride Hwf Hp Hw Hh Hmax)
    as Hid.
  destruct (accumulate_consistent this ptr ptr width height stride Hwf)
    as [Hwf0 Hcons0].
  pose proof (curve_ok_accumulate this ptr ptr width height stride Hwf) as Hok.
  assert (0 <= width * height) as Hn by nia.
  assert (0 <= width * height / 2) as Hn2 by (apply Z.div_pos; lia).
  assert (width * height < 2 ^ 32) as Hsize by (unfold INT_MAX in Hmax; lia).
  pose proof (two_keys_two_defined this ptr ptr width height stride
                Hwf Hp Hp Hsize Hkeys) as Htwo.
  destruct (postprocess0_returns fuel _ Hwf0 Hcons0 Htwo Hfuel)
    as (s0 & Hp0 & Hint & Hall).
  destruct (postprocess_returns fuel w _ Hwf0 Hcons0 Htwo Hfuel) as (st & Hpw).
  exists st. rewrite Create_not_raw. split; [done|]. intros i Hi.
  pose proof (interpolate_identity fuel _ s0 Hwf0 Hid Hint) as Hid0.
  pose proof (window_bounds w i ltac:(lia) Hi) as Hlh.
  pose proof (postprocess_smoothing fuel w _ s0 st i Hwf0 Hcons0 Hok
                ltac:(unfold INT_MAX; lia) Hp0 Hpw Hi) as Hnear.
  apply (nearest_away_unique
           (range_sum (curve s0) (window_lo w i) (window_hi w i))
           (window_hi w i - window_lo w i)); [lia | done |].
  apply smoothed_identity_mean; [done | done |].
  apply range_sum_identity; [lia|].
  intros j Hj. apply Hid0; [lia|]. apply Hall. lia.
Qed.

Lemma self_match_smoothed_witness :
  (wf blank /\ plane_ok [10; 20; 10; 30] 2 2 2 /\ 0 <= 2 /\ 0 <= 2 /\
   255 * (2 * 2) + 2 * 2 / 2 <= INT_MAX /\
   two_key_values [10; 20; 10; 30] 2 2 2 /\ (257 <= 257)%nat /\ 0 < 8 <= 128) /\
  exists st,
    Create 257 blank [10; 20; 10; 30] [10; 20; 10; 30] 2 2 2 false 8 = Some st /\
    forall i, 0 <= i < 256 -> rd (curve st) i = smoothed_identity 8 i.
Proof.
  assert (wf blank) as H1 by exact wf_blank.
  assert (plane_ok [10; 20; 10; 30] 2 2 2) as H2
    by (apply plane_okb_correct; vm_compute; reflexivity).
  assert (0 <= 2) as H3 by lia.
  assert (255 * (2 * 2) + 2 * 2 / 2 <= INT_MAX) as H4 by (vm_compute; discriminate).
  assert (two_key_values [10; 20; 10; 30] 2 2 2) as H5.
  { exists 0, 0, 0, 1. split; [lia|]. split; [lia|]. vm_compute. discriminate. }
  assert (257 <= 257)%nat as H6 by lia.
  assert (0 < 8 <= 128) as H7 by lia.
  split; [exact (conj H1 (conj H2 (conj H3 (conj H3 (conj H4 (conj H5
            (conj H6 H7)))))))|].
  exact (self_match_smoothed 257 blank [10; 20; 10; 30] 2 2 2 8
           H1 H2 H3 H3 H4 H5 H6 H7).
Defined.

(** ** MatchHistogramCreate: the filter it creates *)

Lemma select_planes_content n planes : forall process process',
  0 <= n <= 3 -> length process = 3%nat ->
  select_planes n planes process = inr process' ->
  length process' = 3%nat /\
  forall o, 0 <= o < 3 ->
    (o ∈ planes -> rd process' o = 1) /\
    (o ∉ planes -> rd process' o = rd process o).
Proof.
  induction planes as [|v rest IH]; intros process process' Hn Hl.
  - simpl. intros [= <-]. split; [done|]. intros o Ho.
    split; [by intros Hin; apply elem_of_nil in Hin | done].
  - cbn [select_planes]. cbv zeta.
    destruct (int64ToIntS_in_range v n Hn) as [Hrange Hsat].
    destruct ((int64ToIntS v <? 0) || (n <=? int64ToIntS v)) eqn:E; [done|].
    assert (0 <= v < n) as Hv by (by apply Hrange). rewrite (Hsat Hv).
    destruct (Z.eqb_spec (rd process v) 0) as [Hz|Hz]; cbn [negb]; [|done].
    intros Hsel.
    destruct (IH (wr process v 1) process' Hn) as [Hl' Hc];
      [by rewrite length_wr | done |].
    split; [done|]. intros o Ho. destruct (Hc o Ho) as [Hin Hout].
    destruct (decide (o ∈ rest)) as [Hr|Hr].
    + split; [intros _; by apply Hin|].
      intros Hno. exfalso. apply Hno, elem_of_cons. by right.
    + rewrite (Hout Hr), rd_wr by lia. split.
      * intros [->|?]%elem_of_cons; [|done].
        by destruct (Z.eqb_spec v v).
      * intros Hno. destruct (Z.eqb_spec v o) as [->|]; [|done].
        exfalso. apply Hno, elem_of_cons. by left.
Qed.

Lemma select_planes_error n planes : forall process d,
  select_planes n planes process <> inl (Filter d).
Proof.
  induction planes as [|v rest IH]; intros process d; [done|].
  cbn [select_planes]. cbv zeta.
  destruct ((int64ToIntS v <? 0) || (n <=? int64ToIntS v)); [done|].
  destruct (negb (rd process (int64ToIntS v) =? 0)); [done|]. apply IH.
Qed.

(** What a successful [MatchHistogramCreate] went through. *)
Lemma MatchHistogramCreate_Filter a d :
  MatchHistogramCreate a = Filter d ->
  exists fmt process',
    VS.format (arg_clip1 a) = Some fmt /\
    select_planes (VS.numPlanes fmt) (planes_of a)
      (if match arg_planes a with
          | Some l => Z.of_nat (length l)
          | None => -1
          end <=? 0 then [1; 0; 0] else [0; 0; 0]) = inr process' /\
    0 <= match arg_smoothing_window a with
         | Some v => int64ToIntS v
         | None => 8
         end /\
    VS.colorFamily fmt <> VS.cmRGB /\ VS.bitsPerSample fmt <= 8 /\
    VS.width (arg_clip1 a) <> 0 /\ VS.height (arg_clip1 a) <> 0 /\
    VS.width (clip3_info a) <> 0 /\ VS.height (clip3_info a) <> 0 /\
    VS.format (clip3_info a) = Some fmt /\
    (show_in_effect a = true ->
     256 <= VS.width (arg_clip1 a) /\ 256 <= VS.height (arg_clip1 a) /\
     256 <= VS.width (clip3_info a) /\ 256 <= VS.height (clip3_info a)) /\
    (flag (arg_debug a) = true -> selected_count process' <= 1) /\
    d = mkData (flag (arg_raw a)) (show_in_effect a) (flag (arg_debug a))
          match arg_smoothing_window a with
          | Some v => int64ToIntS v
          | None => 8
          end
          process'
          (if flag (arg_debug a)
           then VS.mkVideoInfo (Some fmt) 256 256
           else clip3_info a).
Proof.
  unfold MatchHistogramCreate. cbv zeta.
  change (match arg_clip3 a with Some c => c | None => arg_clip1 a end)
    with (clip3_info a).
  fold (planes_of a).
  destruct (Z.ltb_spec
              match arg_smoothing_window a with
              | Some v => int64ToIntS v
              | None => 8
              end 0) as [Hsw|Hsw]; [done|].
  destruct (bool_decide_reflect (VS.format (arg_clip1 a) = VS.format (arg_clip2 a)))
    as [Hf2|Hf2]; cbn [negb orb]; [|done].
  destruct (bool_decide_reflect (VS.format (arg_clip1 a) = VS.format (clip3_info a)))
    as [Hf3|Hf3]; cbn [negb]; [|done].
  destruct (Z.eqb_spec (VS.width (arg_clip1 a)) (VS.width (arg_clip2 a)))
    as [Hw2|Hw2]; cbn [negb orb]; [|done].
  destruct (Z.eqb_spec (VS.height (arg_clip1 a)) (VS.height (arg_clip2 a)))
    as [Hh2|Hh2]; cbn [negb]; [|done].
  destruct (VS.format (arg_clip1 a)) as [fmt|] eqn:Hfmt; [|done].
  destruct (Z.eqb_spec (VS.width (arg_clip1 a)) 0) as [Hw1|Hw1]; cbn [orb]; [done|].
  destruct (Z.eqb_spec (VS.height (arg_clip1 a)) 0) as [Hh1|Hh1]; cbn [orb]; [done|].
  destruct (Z.eqb_spec (VS.width (clip3_info a)) 0) as [Hw3|Hw3]; cbn [orb]; [done|].
  destruct (Z.eqb_spec (VS.height (clip3_info a)) 0) as [Hh3|Hh3]; [done|].
  destruct (bool_decide_reflect (VS.colorFamily fmt = VS.cmRGB)) as [Hrgb|Hrgb];
    cbn [orb]; [done|].
  destruct (Z.ltb_spec 8 (VS.bitsPerSample fmt)) as [Hbits|Hbits]; [done|].
  destruct (select_planes (VS.numPlanes fmt) (planes_of a) _) as [err|process']
    eqn:Hsel.
  { intros ->. by apply select_planes_error in Hsel. }
  assert (show_in_effect a = if flag (arg_debug a) then false else flag (arg_show a))
    as Hshow by (unfold show_in_effect; by destruct (flag (arg_debug a)), (flag (arg_show a))).
  rewrite <- Hshow.
  destruct (show_in_effect a) eqn:Eshow; cbn [andb].
  - destruct (Z.ltb_spec (VS.width (arg_clip1 a)) 256) as [Hs1|Hs1]; cbn [orb]; [done|].
    destruct (Z.ltb_spec (VS.height (arg_clip1 a)) 256) as [Hs2|Hs2]; cbn [orb]; [done|].
    destruct (Z.ltb_spec (VS.width (clip3_info a)) 256) as [Hs3|Hs3]; cbn [orb]; [done|].
    destruct (Z.ltb_spec (VS.height (clip3_info a)) 256) as [Hs4|Hs4]; [done|].
    assert (flag (arg_debug a) = false) as Hdbg
      by (unfold show_in_effect in Eshow; by destruct (flag (arg_debug a)), (flag (arg_show a))).
    rewrite Hdbg. intros [= <-]. exists fmt, process'.
    repeat (split; [done || lia|]). reflexivity.
  - destruct (flag (arg_debug a)) eqn:Hdbg.
    + destruct (Z.ltb_spec 1 (rd process' 0 + rd process' 1 + rd process' 2))
        as [Hmany|Hmany]; [done|].
      intros [= <-]. exists fmt, process'.
      repeat (split; [done || lia|]). done.
    + intros [= <-]. exists fmt, process'.
      repeat (split; [done || lia|]). done.
Qed.

Lemma int64ToIntS_range i : INT_MIN <= int64ToIntS i <= INT_MAX.
Proof.
  unfold int64ToIntS, INT_MIN, INT_MAX.
  destruct (Z.ltb_spec (2 ^ 31 - 1) i), (Z.ltb_spec i (- 2 ^ 31)); lia.
Qed.

(** X17.  The data of a filter that [MatchHistogramCreate] creates: the
    smoothing window lies in 0..INT_MAX (8 when absent); [raw] and [debug]
    are as requested and [show] is dropped when [debug] is set, so the two
    are never set together; the format is known, not RGB and of at most 8
    bits; the frames are 256 x 256 with at most one plane selected under
    [debug], and otherwise as those of clip3 (of clip1 when clip3 is
    absent), at least 256 x 256 under [show]. *)
Theorem MatchHistogramCreate_data a d :
  MatchHistogramCreate a = Filter d ->
  0 <= smoothing_window d <= INT_MAX /\
  (arg_smoothing_window a = None -> smoothing_window d = 8) /\
  raw d = flag (arg_raw a) /\ debug d = flag (arg_debug a) /\
  show d = flag (arg_show a) && negb (flag (arg_debug a)) /\
  (exists fmt, VS.format (vi d) = Some fmt /\ VS.colorFamily fmt <> VS.cmRGB /\
               VS.bitsPerSample fmt <= 8) /\
  (debug d = true ->
   VS.width (vi d) = 256 /\ VS.height (vi d) = 256 /\
   selected_count (process d) <= 1) /\
  (debug d = false -> vi d = clip3_info a) /\
  (show d = true -> 256 <= VS.width (vi d) /\ 256 <= VS.height (vi d)) /\
  VS.width (vi d) <> 0 /\ VS.height (vi d) <> 0.
Proof.
  intros Hc.
  destruct (MatchHistogramCreate_Filter a d Hc)
    as (fmt & process' & Hfmt & Hsel & Hsw & Hrgb & Hbits & Hw1 & Hh1 & Hw3 & Hh3
        & Hf3 & Hshow & Hdbg & ->).
  cbn [smoothing_window raw debug show process vi].
  split.
  { split; [done|]. destruct (arg_smoothing_window a); [apply int64ToIntS_range|].
    unfold INT_MAX. lia. }
  split; [by intros ->|]. split; [done|]. split; [done|]. split; [done|].
  destruct (flag (arg_debug a)) eqn:Ed.
  - split; [by exists fmt|]. split; [intros _; auto|]. split; [done|].
    unfold show_in_effect. rewrite Ed, andb_false_r.
    cbn [VS.width VS.height]. split; [done|]. lia.
  - split; [by exists fmt|]. split; [done|]. split; [done|].
    split; [|done]. intros Hs. specialize (Hshow Hs). lia.
Qed.

Lemma MatchHistogramCreate_data_witness :
  MatchHistogramCreate default_args = Filter default_data /\
  0 <= smoothing_window default_data <= INT_MAX /\
  (arg_smoothing_window default_args = None -> smoothing_window default_data = 8) /\
  raw default_data = flag (arg_raw default_args) /\
  debug default_data = flag (arg_debug default_args) /\
  show default_data
  = flag (arg_show default_args) && negb (flag (arg_debug default_args)) /\
  (exists fmt, VS.format (vi default_data) = Some fmt /\
               VS.colorFamily fmt <> VS.cmRGB /\ VS.bitsPerSample fmt <= 8) /\
  (debug default_data = true ->
   VS.width (vi default_data) = 256 /\ VS.height (vi default_data) = 256 /\
   selected_count (process default_data) <= 1) /\
  (debug default_data = false -> vi default_data = clip3_info default_args) /\
  (show default_data = true ->
   256 <= VS.width (vi default_data) /\ 256 <= VS.height (vi default_data)) /\
  VS.width (vi default_data) <> 0 /\ VS.height (vi default_data) <> 0.
Proof.
  assert (MatchHistogramCreate default_args = Filter default_data) as H1
    by (vm_compute; reflexivity).
  split; [exact H1|].
  exact (MatchHistogramCreate_data default_args default_data H1).
Defined.

(** X18.  The planes that the created filter processes are those listed in
    [planes], and plane 0 alone when [planes] is absent or empty. *)
Theorem MatchHistogramCreate_planes a d p :
  formats_ok a -> MatchHistogramCreate a = Filter d -> 0 <= p < 3 ->
  length (process d) = 3%nat /\
  (plane_selected d p = true <->
   (planes_of a = [] /\ p = 0) \/ p ∈ planes_of a).
Proof.
  intros Hok Hc Hp.
  destruct (MatchHistogramCreate_Filter a d Hc)
    as (fmt & process' & Hfmt & Hsel & _ & _ & _ & _ & _ & _ & _ & _ & _ & _ & ->).
  unfold plane_selected. cbn [process].
  pose proof (Hok fmt Hfmt) as Hn.
  unfold planes_of in *.
  destruct (arg_planes a) as [[|v l]|]; cbn [default from_option id length] in *.
  - apply (inj inr) in Hsel. subst process'. split; [done|].
    assert (p = 0 \/ p = 1 \/ p = 2) as [-> | [-> | ->]] by lia; cbn.
    + split; [by left | done].
    + split; [done | intros [[_ ?]|Hin]; [done | by apply elem_of_nil in Hin]].
    + split; [done | intros [[_ ?]|Hin]; [done | by apply elem_of_nil in Hin]].
  - destruct (Z.leb_spec (Z.of_nat (S (length l))) 0) as [Hle|_]; [lia|].
    assert (0 <= VS.numPlanes fmt <= 3) as Hn' by lia.
    destruct (select_planes_content (VS.numPlanes fmt) (v :: l) [0; 0; 0] process'
                Hn' eq_refl Hsel) as [Hl Hcont].
    split; [done|]. destruct (Hcont p Hp) as [Hin Hout].
    destruct (decide (p ∈ v :: l)) as [Hd|Hd].
    + rewrite (Hin Hd). split; [by right | done].
    + rewrite (Hout Hd).
      assert (rd [0; 0; 0] p = 0) as ->
        by (assert (p = 0 \/ p = 1 \/ p = 2) as [-> | [-> | ->]] by lia; reflexivity).
      split; [done | by intros [[? _]|?]].
  - apply (inj inr) in Hsel. subst process'. split; [done|].
    assert (p = 0 \/ p = 1 \/ p = 2) as [-> | [-> | ->]] by lia; cbn.
    + split; [by left | done].
    + split; [done | intros [[_ ?]|Hin]; [done | by apply elem_of_nil in Hin]].
    + split; [done | intros [[_ ?]|Hin]; [done | by apply elem_of_nil in Hin]].
Qed.

Lemma MatchHistogramCreate_planes_witness :
  (formats_ok default_args /\
   MatchHistogramCreate default_args = Filter default_data /\ 0 <= 1 < 3) /\
  length (process default_data) = 3%nat /\
  (plane_selected default_data 1 = true <->
   (planes_of default_args = [] /\ 1 = 0) \/ 1 ∈ planes_of default_args).
Proof.
  assert (formats_ok default_args) as H1.
  { intros fmt Hfmt. apply (inj Some) in Hfmt. subst fmt. vm_compute.
    split; discriminate. }
  assert (MatchHistogramCreate default_args = Filter default_data) as H2
    by (vm_compute; reflexivity).
  assert (0 <= 1 < 3) as H3 by lia.
  split; [exact (conj H1 (conj H2 H3))|].
  exact (MatchHistogramCreate_planes default_args default_data 1 H1 H2 H3).
Defined.

(** ** MatchHistogramGetFrame: the curve object *)

(** Two runs of a loop over the planes from related states. *)
Lemma plane_loop_rel {St} (R : St -> St -> Prop) (body : Z -> St -> option St) ps :
  (forall p s1 s2, R s1 s2 ->
     match body p s1, body p s2 with
     | Some a, Some b => R a b
     | None, None => True
     | _, _ => False
     end) ->
  forall s1 s2, R s1 s2 ->
    match plane_loop body ps s1, plane_loop body ps s2 with
    | Some a, Some b => R a b
    | None, None => True
    | _, _ => False
    end.
Proof.
  intros Hbody. induction ps as [|p ps IH]; intros s1 s2 HR; [done|].
  cbn [plane_loop]. specialize (Hbody p s1 s2 HR).
  destruct (body p s1) as [a|], (body p s2) as [b|]; try done. by apply IH.
Qed.

(** The states of the plane loops that differ in the curve object only. *)
Lemma frame_step_curve d fmt fuel src1 src2 src3 p (s1 s2 : CurveData * VS.Frame) :
  wf (fst s1) /\ wf (fst s2) /\ snd s1 = snd s2 ->
  match frame_step d fmt fuel src1 src2 src3 p s1,
        frame_step d fmt fuel src1 src2 src3 p s2 with
  | Some a, Some b => wf (fst a) /\ wf (fst b) /\ snd a = snd b
  | None, None => True
  | _, _ => False
  end.
Proof.
  destruct s1 as [c1 dst], s2 as [c2 dst2]. cbn [fst snd].
  intros (Hwf1 & Hwf2 & <-). unfold frame_step.
  destruct (plane_selected d p) eqn:Hsel.
  - rewrite (Create_fresh fuel c1 c2 _ _ _ _ _ _ _ Hwf1 Hwf2).
    destruct (Create fuel c2 _ _ _ _ _ _ _) as [c'|] eqn:Hc; [|exact I].
    destruct (Create_state _ _ _ _ _ _ _ _ _ _ Hwf2 Hc) as [Hwf' _].
    destruct (show d); exact (conj Hwf' (conj Hwf' eq_refl)).
  - destruct (show d); exact (conj Hwf1 (conj Hwf2 eq_refl)).
Qed.

Lemma debug_step_curve d fuel src1 src2 p (s1 s2 : CurveData * VS.Frame) :
  wf (fst s1) /\ wf (fst s2) /\ snd s1 = snd s2 ->
  match debug_step d fuel src1 src2 p s1, debug_step d fuel src1 src2 p s2 with
  | Some a, Some b => wf (fst a) /\ wf (fst b) /\ snd a = snd b
  | None, None => True
  | _, _ => False
  end.
Proof.
  destruct s1 as [c1 dst], s2 as [c2 dst2]. cbn [fst snd].
  intros (Hwf1 & Hwf2 & <-). unfold debug_step. cbv zeta.
  destruct (plane_selected d p) eqn:Hsel; cbn [negb].
  - rewrite (Create_fresh fuel c1 c2 _ _ _ _ _ _ _ Hwf1 Hwf2).
    destruct (Create fuel c2 _ _ _ _ _ _ _) as [c'|] eqn:Hc; [|exact I].
    destruct (Create_state _ _ _ _ _ _ _ _ _ _ Hwf2 Hc) as [Hwf' _].
    exact (conj Hwf' (conj Hwf' eq_refl)).
  - exact (conj Hwf1 (conj Hwf2 eq_refl)).
Qed.

(** X19.  The frame that [MatchHistogramGetFrame] returns does not depend
    on the contents of its local curve object, which is not initialised:
    every use of the curve follows a [Create] for the same plane. *)
Theorem GetFrame_curve_object d fuel c c' fresh src1 src2 src3 :
  wf c -> wf c' ->
  MatchHistogramGetFrame d fuel c fresh src1 src2 src3
  = MatchHistogramGetFrame d fuel c' fresh src1 src2 src3.
Proof.
  intros Hwf Hwf'. unfold MatchHistogramGetFrame.
  destruct (VS.format (vi d)) as [fmt|]; [|done].
  destruct (debug d).
  - pose proof (plane_loop_rel
        (fun s1 s2 => wf (fst s1) /\ wf (fst s2) /\ snd s1 = snd s2)
        (debug_step d fuel src1 src2) (seqZ 0 (VS.numPlanes fmt))
        (fun p s1 s2 => debug_step_curve d fuel src1 src2 p s1 s2)
        (c, fresh) (c', fresh) (conj Hwf (conj Hwf' eq_refl))) as H.
    destruct (plane_loop _ _ (c, fresh)) as [[a1 a2]|],
      (plane_loop _ _ (c', fresh)) as [[b1 b2]|]; try done.
    cbn in *. destruct H as (_ & _ & ->). done.
  - cbv zeta.
    pose proof (plane_loop_rel
        (fun s1 s2 => wf (fst s1) /\ wf (fst s2) /\ snd s1 = snd s2)
        (frame_step d fmt fuel src1 src2 src3) (seqZ 0 (VS.numPlanes fmt))
        (fun p s1 s2 => frame_step_curve d fmt fuel src1 src2 src3 p s1 s2)) as H.
    match goal with
    | |- option_map snd (plane_loop _ _ (c, ?dst)) = _ =>
        specialize (H (c, dst) (c', dst) (conj Hwf (conj Hwf' eq_refl)));
        destruct (plane_loop _ _ (c, dst)) as [[a1 a2]|],
          (plane_loop _ _ (c', dst)) as [[b1 b2]|]; try done
    end.
    cbn in *. destruct H as (_ & _ & ->). done.
Qed.

Lemma GetFrame_curve_object_witness :
  (wf blank /\ wf scenario_curve) /\
  MatchHistogramGetFrame plain_request 257 blank small_fresh
    small_src1 small_src2 small_src3
  = MatchHistogramGetFrame plain_request 257 scenario_curve small_fresh
      small_src1 small_src2 small_src3.
Proof.
  assert (wf blank) as H1 by exact wf_blank.
  assert (wf scenario_curve) as H2 by (apply wf_set_curve; exact wf_blank).
  split; [exact (conj H1 H2)|].
  exact (GetFrame_curve_object plain_request 257 blank scenario_curve small_fresh
           small_src1 small_src2 small_src3 H1 H2).
Defined.

(** ** MatchHistogramGetFrame: the planes of the frame *)

(** An invariant of a loop over the planes [0 .. n - 1] that depends on the
    plane that the loop has reached. *)
Lemma plane_loop_from {St} (P : Z -> St -> Prop) (body : Z -> St -> option St)
    (m : nat) : forall lo st st',
  P lo st ->
  (forall k s s1, lo <= k < lo + Z.of_nat m -> P k s -> body k s = Some s1 ->
     P (k + 1) s1) ->
  plane_loop body (seqZ lo (Z.of_nat m)) st = Some st' ->
  P (lo + Z.of_nat m) st'.
Proof.
  induction m as [|m IH]; intros lo st st' HP Hstep.
  - cbn. intros H%(inj Some). subst st'. by rewrite Z.add_0_r.
  - rewrite seqZ_cons by lia. cbn [plane_loop].
    destruct (body lo st) as [s1|] eqn:Hb; [|done].
    replace (Z.pred (Z.of_nat (S m))) with (Z.of_nat m) by lia.
    intros Hloop.
    replace (lo + Z.of_nat (S m)) with (Z.succ lo + Z.of_nat m) by lia.
    apply (IH (Z.succ lo) s1 st'); [|intros k s s2 Hk; apply Hstep; lia | done].
    replace (Z.succ lo) with (lo + 1) by lia.
    apply (Hstep lo st s1); [lia | done | done].
Qed.

Lemma plane_loop_seqZ {St} (P : Z -> St -> Prop) (body : Z -> St -> option St)
    n st st' :
  0 <= n -> P 0 st ->
  (forall k s s1, 0 <= k < n -> P k s -> body k s = Some s1 -> P (k + 1) s1) ->
  plane_loop body (seqZ 0 n) st = Some st' -> P n st'.
Proof.
  intros Hn HP Hstep Hloop.
  pose proof (plane_loop_from P body (Z.to_nat n) 0 st st' HP) as H.
  rewrite Z2Nat.id in H by done. apply H; [|done].
  intros k s s1 Hk. apply Hstep. lia.
Qed.

Lemma frame_step_noshow d fmt fuel src1 src2 src3 q c dst :
  show d = false ->
  frame_step d fmt fuel src1 src2 src3 q (c, dst)
  = if plane_selected d q then
      match Create fuel c
              (VS.p_data (plane_at src1 q)) (VS.p_data (plane_at src2 q))
              (VS.p_width (plane_at src1 q)) (VS.p_height (plane_at src1 q))
              (VS.p_stride (plane_at src1 q)) (raw d) (smoothing_window d) with
      | Some c' =>
          Some (c', with_data dst q
                      (Process c' (VS.p_data (plane_at src3 q))
                         (VS.p_data (plane_at dst q))
                         (VS.p_width (plane_at src3 q))
                         (VS.p_height (plane_at src3 q))
                         (VS.p_stride (plane_at dst q))))
      | None => None
      end
    else Some (c, dst).
Proof.
  intros Hshow. unfold frame_step. rewrite Hshow.
  destruct (plane_selected d q); [|reflexivity].
  destruct (Create _ _ _ _ _ _ _ _ _); reflexivity.
Qed.

Lemma length_newVideoFrame2 n plane_src planes fresh :
  0 <= n -> Z.of_nat (length (newVideoFrame2 n plane_src planes fresh)) = n.
Proof.
  intros Hn. unfold newVideoFrame2. rewrite length_fmap, length_seqZ. lia.
Qed.

(** X20.  Without [show] and [debug], a selected plane of the output frame
    is the plane of clip3 sent by [Process] through the curve that
    [Create] computes from the same plane of clip1 and clip2; no other
    plane and no earlier curve enters it. *)
Theorem GetFrame_selected_plane d fuel c fresh src1 src2 src3 fmt out p :
  show d = false -> debug d = false -> VS.format (vi d) = Some fmt ->
  0 <= p < VS.numPlanes fmt -> p < 3 -> plane_selected d p = true -> wf c ->
  MatchHistogramGetFrame d fuel c fresh src1 src2 src3 = Some out ->
  exists st,
    Create fuel blank
      (VS.p_data (plane_at src1 p)) (VS.p_data (plane_at src2 p))
      (VS.p_width (plane_at src1 p)) (VS.p_height (plane_at src1 p))
      (VS.p_stride (plane_at src1 p)) (raw d) (smoothing_window d) = Some st /\
    VS.p_data (plane_at out p)
    = Process st (VS.p_data (plane_at src3 p)) (VS.p_data (plane_at fresh p))
        (VS.p_width (plane_at src3 p)) (VS.p_height (plane_at src3 p))
        (VS.p_stride (plane_at fresh p)).
Proof.
  intros Hshow Hdebug Hfmt Hp Hp3 Hsel Hwf.
  generalize wf_blank. generalize blank. intros b Hb.
  unfold MatchHistogramGetFrame.
  rewrite Hfmt, Hdebug. cbv zeta.
  set (dst0 := newVideoFrame2 _ _ _ _).
  assert (plane_at dst0 p = plane_at fresh p) as Hinit.
  { unfold dst0. rewrite newVideoFrame2_plane by lia.
    assert (p = 0 \/ p = 1 \/ p = 2) as [-> | [-> | ->]] by lia;
      cbn; rewrite Hsel; reflexivity. }
  assert (Z.of_nat (length dst0) = VS.numPlanes fmt) as Hlen
    by (apply length_newVideoFrame2; lia).
  clearbody dst0.
  destruct (plane_loop _ _ _) as [[c1 dst1]|] eqn:E; [|done].
  intros H%(inj Some). cbn in H. subst dst1.
  pose proof (plane_loop_seqZ
    (fun k (s : CurveData * VS.Frame) =>
       wf (fst s) /\ length (snd s) = length dst0 /\
       if p <? k
       then exists st,
              Create fuel b
                (VS.p_data (plane_at src1 p)) (VS.p_data (plane_at src2 p))
                (VS.p_width (plane_at src1 p)) (VS.p_height (plane_at src1 p))
                (VS.p_stride (plane_at src1 p)) (raw d) (smoothing_window d)
              = Some st /\
              VS.p_data (plane_at (snd s) p)
              = Process st (VS.p_data (plane_at src3 p))
                  (VS.p_data (plane_at fresh p))
                  (VS.p_width (plane_at src3 p)) (VS.p_height (plane_at src3 p))
                  (VS.p_stride (plane_at fresh p))
       else plane_at (snd s) p = plane_at fresh p)
    (frame_step d fmt fuel src1 src2 src3) (VS.numPlanes fmt) (c, dst0) (c1, out)
    ltac:(lia)) as Hloop.
  cbn [fst snd] in Hloop.
  destruct Hloop as (_ & _ & Hres); [| |exact E|].
  - split; [done|]. split; [done|]. by destruct (Z.ltb_spec p 0); [lia|].
  - intros k [ck dk] [ck' dk'] Hk (Hwfk & Hlk & Hpk). cbn [fst snd] in *.
    rewrite frame_step_noshow by done.
    destruct (plane_selected d k) eqn:Hselk.
    + rewrite (Create_fresh fuel ck b _ _ _ _ _ _ _ Hwfk Hb).
      destruct (Create fuel b
                  (VS.p_data (plane_at src1 k)) (VS.p_data (plane_at src2 k))
                  (VS.p_width (plane_at src1 k)) (VS.p_height (plane_at src1 k))
                  (VS.p_stride (plane_at src1 k)) (raw d) (smoothing_window d))
        as [ck2|] eqn:Hc; [|intros Hnone; discriminate Hnone].
      intros H%(inj Some). apply (f_equal fst) in H as Hc1.
      apply (f_equal snd) in H as Hd1. cbn [fst snd] in Hc1, Hd1. subst ck' dk'.
      destruct (Create_state _ _ _ _ _ _ _ _ _ _ Hb Hc) as [Hwf' _].
      split; [done|]. split; [by rewrite length_with_data|].
      destruct (Z.eq_dec k p) as [->|Hne].
      * destruct (Z.ltb_spec p (p + 1)); [|lia].
        destruct (Z.ltb_spec p p); [lia|].
        exists ck2. split; [done|].
        destruct (plane_at_with_data_eq dk p
                    (Process ck2 (VS.p_data (plane_at src3 p))
                       (VS.p_data (plane_at dk p)) (VS.p_width (plane_at src3 p))
                       (VS.p_height (plane_at src3 p)) (VS.p_stride (plane_at dk p))))
          as [-> _]; [lia|].
        by rewrite Hpk.
      * rewrite plane_at_with_data_ne by lia.
        destruct (Z.ltb_spec p k), (Z.ltb_spec p (k + 1)); done || lia.
    + intros H%(inj Some). apply (f_equal fst) in H as Hc1.
      apply (f_equal snd) in H as Hd1. cbn [fst snd] in Hc1, Hd1. subst ck' dk'.
      split; [done|]. split; [done|].
      assert (k <> p) by (intros ->; congruence).
      destruct (Z.ltb_spec p k), (Z.ltb_spec p (k + 1)); done || lia.
  - destruct (Z.ltb_spec p (VS.numPlanes fmt)); [done | lia].
Qed.

Lemma GetFrame_selected_plane_witness :
  (show plain_request = false /\ debug plain_request = false /\
   VS.format (vi plain_request) = Some yuv444 /\
   0 <= 0 < VS.numPlanes yuv444 /\ 0 < 3 /\
   plane_selected plain_request 0 = true /\ wf blank /\
   MatchHistogramGetFrame plain_request 257 blank small_fresh
     small_src1 small_src2 small_src3 = Some plain_output) /\
  exists st,
    Create 257 blank
      (VS.p_data (plane_at small_src1 0)) (VS.p_data (plane_at small_src2 0))
      (VS.p_width (plane_at small_src1 0)) (VS.p_height (plane_at small_src1 0))
      (VS.p_stride (plane_at small_src1 0)) (raw plain_request)
      (smoothing_window plain_request) = Some st /\
    VS.p_data (plane_at plain_output 0)
    = Process st (VS.p_data (plane_at small_src3 0))
        (VS.p_data (plane_at small_fresh 0))
        (VS.p_width (plane_at small_src3 0)) (VS.p_height (plane_at small_src3 0))
        (VS.p_stride (plane_at small_fresh 0)).
Proof.
  assert (0 <= 0 < VS.numPlanes yuv444) as Hp
    by (vm_compute; split; [discriminate | reflexivity]).
  assert (0 < 3) as Hp3 by (vm_compute; reflexivity).
  assert (MatchHistogramGetFrame plain_request 257 blank small_fresh
            small_src1 small_src2 small_src3 = Some plain_output) as Hout
    by (vm_compute; reflexivity).
  split; [exact (conj eq_refl (conj eq_refl (conj eq_refl
                   (conj Hp (conj Hp3 (conj eq_refl (conj wf_blank Hout)))))))|].
  exact (GetFrame_selected_plane plain_request 257 blank small_fresh
           small_src1 small_src2 small_src3 yuv444 plain_output 0
           eq_refl eq_refl eq_refl Hp Hp3 eq_refl wf_blank Hout).
Defined.

(** ** MatchHistogramGetFrame: the frame under debug *)

Lemma plane_at_with_data f p data q :
  0 <= p < Z.of_nat (length f) -> 0 <= q ->
  plane_at (with_data f p data) q
  = if p =? q then set_data (plane_at f p) data else plane_at f q.
Proof.
  intros Hp Hq. destruct (Z.eqb_spec p q) as [<-|Hne].
  - unfold with_data, plane_at at 1.
    rewrite list_lookup_total_alt, list_lookup_insert_eq by lia. done.
  - by apply plane_at_with_data_ne; [lia | |].
Qed.

Lemma debug_step_eq d fuel src1 src2 k c dst :
  debug_step d fuel src1 src2 k (c, dst)
  = let dst1 :=
      with_data dst k
        (VS.p_data (filled (plane_at dst k) (if k =? 0 then 0 else 128))) in
    if plane_selected d k then
      match Create fuel c
              (VS.p_data (plane_at src1 k)) (VS.p_data (plane_at src2 k))
              (VS.p_width (plane_at src1 k)) (VS.p_height (plane_at src1 k))
              (VS.p_stride (plane_at src1 k)) (raw d) (smoothing_window d) with
      | Some c' =>
          Some (c', with_data dst1 0
                      (Debug c' (VS.p_data (plane_at dst1 0))
                         (VS.p_stride (plane_at dst1 0))))
      | None => None
      end
    else Some (c, dst1).
Proof.
  unfold debug_step. cbv zeta. destruct (plane_selected d k); reflexivity.
Qed.

Lemma set_data_filled pl v :
  set_data pl (VS.p_data (filled pl v)) = filled pl v.
Proof. reflexivity. Qed.

(** A loop over the planes whose body returns keeps an invariant that
    depends on the plane it has reached, and returns. *)
Lemma plane_loop_total {St} (P : Z -> St -> Prop) (body : Z -> St -> option St)
    (m : nat) : forall lo st,
  P lo st ->
  (forall k s, lo <= k < lo + Z.of_nat m -> P k s ->
     exists s1, body k s = Some s1 /\ P (k + 1) s1) ->
  exists st', plane_loop body (seqZ lo (Z.of_nat m)) st = Some st' /\
              P (lo + Z.of_nat m) st'.
Proof.
  induction m as [|m IH]; intros lo st HP Hstep.
  - exists st. split; [reflexivity|]. by rewrite Z.add_0_r.
  - rewrite seqZ_cons by lia. cbn [plane_loop].
    destruct (Hstep lo st ltac:(lia) HP) as (s1 & -> & HP1).
    replace (Z.pred (Z.of_nat (S m))) with (Z.of_nat m) by lia.
    replace (lo + Z.of_nat (S m)) with (Z.succ lo + Z.of_nat m) by lia.
    apply IH; [by replace (Z.succ lo) with (lo + 1) by lia|].
    intros k s Hk. apply Hstep. lia.
Qed.

Lemma debug_loop d fuel src1 src2 fresh n q st : forall c,
  0 <= q < n -> n <= Z.of_nat (length fresh) ->
  plane_selected d q = true ->
  (forall p, 0 <= p < n -> p <> q -> plane_selected d p = false) ->
  wf c -> wf st ->
  (forall c0, wf c0 ->
     Create fuel c0
       (VS.p_data (plane_at src1 q)) (VS.p_data (plane_at src2 q))
       (VS.p_width (plane_at src1 q)) (VS.p_height (plane_at src1 q))
       (VS.p_stride (plane_at src1 q)) (raw d) (smoothing_window d) = Some st) ->
  exists out,
    plane_loop (debug_step d fuel src1 src2) (seqZ 0 n) (c, fresh) = Some out /\
    plane_at (snd out) 0
    = set_data (plane_at fresh 0)
        (Debug st (VS.p_data (filled (plane_at fresh 0) 0))
           (VS.p_stride (plane_at fresh 0))) /\
    forall p, 1 <= p < n -> plane_at (snd out) p = filled (plane_at fresh p) 128.
Proof.
  intros c Hq Hn Hsel Hothers Hwf Hwfst Hcreate.
  pose proof (plane_loop_total
    (fun k (s : CurveData * VS.Frame) =>
       wf (fst s) /\ length (snd s) = length fresh /\
       forall p, 0 <= p < n ->
         plane_at (snd s) p
         = if p =? 0 then
             if q <? k then
               set_data (plane_at fresh 0)
                 (Debug st (VS.p_data (filled (plane_at fresh 0) 0))
                    (VS.p_stride (plane_at fresh 0)))
             else if 0 <? k then filled (plane_at fresh 0) 0
             else plane_at fresh 0
           else if p <? k then filled (plane_at fresh p) 128
           else plane_at fresh p)
    (debug_step d fuel src1 src2) (Z.to_nat n) 0 (c, fresh)) as Hloop.
  rewrite Z2Nat.id in Hloop by lia. rewrite !Z.add_0_l in Hloop.
  cbn [fst snd] in Hloop.
  destruct Hloop as (out & Hout & _ & _ & Hplanes).
  - split; [done|]. split; [done|]. intros p Hp.
    destruct (Z.eqb_spec p 0) as [->|].
    + destruct (Z.ltb_spec q 0); [lia|]. by destruct (Z.ltb_spec 0 0); [lia|].
    + by destruct (Z.ltb_spec p 0); [lia|].
  - intros k [ck dk] Hk (Hwfk & Hlk & Hpk). cbn [fst snd] in *.
    rewrite debug_step_eq. cbv zeta.
    assert (0 <= k < Z.of_nat (length dk)) as Hkl by lia.
    assert (0 <= 0 < Z.of_nat (length dk)) as H0l by lia.
    assert (plane_at dk k = plane_at fresh k) as Hkfresh.
    { rewrite (Hpk k ltac:(lia)).
      destruct (Z.eqb_spec k 0) as [->|].
      - destruct (Z.ltb_spec q 0); [lia|]. by destruct (Z.ltb_spec 0 0); [lia|].
      - by destruct (Z.ltb_spec k k); [lia|]. }
    rewrite Hkfresh.
    destruct (Z.eq_dec k q) as [->|Hne].
    + rewrite Hsel, (Hcreate ck Hwfk). eexists. split; [reflexivity|].
      cbn [fst snd]. split; [done|].
      split; [by rewrite !length_with_data|]. intros p Hp.
      assert (0 <= 0 < Z.of_nat (length (with_data dk q
                (VS.p_data (filled (plane_at fresh q) (if q =? 0 then 0 else 128))))))
        as H0l' by (rewrite length_with_data; lia).
      rewrite (plane_at_with_data _ 0 _ p H0l') by lia.
      rewrite !plane_at_with_data by lia.
      destruct (Z.ltb_spec q (q + 1)); [|lia].
      destruct (Z.eqb_spec 0 p) as [<-|Hp0].
      * destruct (Z.eqb_spec 0 0); [|done].
        destruct (Z.eqb_spec q 0) as [->|Hq0].
        -- rewrite Hkfresh. reflexivity.
        -- rewrite (Hpk 0 ltac:(lia)). cbn [Z.eqb].
           destruct (Z.ltb_spec q q); [lia|].
           destruct (Z.ltb_spec 0 q); [|lia]. reflexivity.
      * destruct (Z.eqb_spec p 0); [lia|].
        destruct (Z.eqb_spec q p) as [->|Hqp].
        -- destruct (Z.ltb_spec p (p + 1)); [|lia].
           destruct (Z.eqb_spec p 0); [lia|]. rewrite Hkfresh. reflexivity.
        -- rewrite (Hpk p Hp). destruct (Z.eqb_spec p 0); [lia|].
           destruct (Z.ltb_spec p q), (Z.ltb_spec p (q + 1)); done || lia.
    + rewrite (Hothers k Hk Hne). eexists. split; [reflexivity|].
      cbn [fst snd]. split; [done|].
      split; [by rewrite length_with_data|]. intros p Hp.
      rewrite plane_at_with_data by lia.
      destruct (Z.eqb_spec k p) as [<-|Hkp].
      * rewrite Hkfresh, set_data_filled.
        destruct (Z.eqb_spec k 0) as [->|Hk0].
        -- destruct (Z.ltb_spec q (0 + 1)); [lia|].
           by destruct (Z.ltb_spec 0 (0 + 1)); [|lia].
        -- by destruct (Z.ltb_spec k (k + 1)); [|lia].
      * rewrite (Hpk p Hp). destruct (Z.eqb_spec p 0) as [->|Hp0].
        -- destruct (Z.ltb_spec q k), (Z.ltb_spec q (k + 1)); try lia; [done|].
           destruct (Z.ltb_spec 0 k), (Z.ltb_spec 0 (k + 1)); done || lia.
        -- destruct (Z.ltb_spec p k), (Z.ltb_spec p (k + 1)); done || lia.
  - exists out. split; [done|]. split.
    + rewrite (Hplanes 0 ltac:(lia)). cbn [Z.eqb].
      by destruct (Z.ltb_spec q n); [|lia].
    + intros p Hp. rewrite (Hplanes p ltac:(lia)).
      destruct (Z.eqb_spec p 0); [lia|]. by destruct (Z.ltb_spec p n); [|lia].
Qed.

(** X21.  Under [debug], with one plane [q] selected, the frame that
    [MatchHistogramGetFrame] returns holds the graph alone: plane 0 is
    filled with 0 and then drawn on by [Debug] with the curve of plane [q]
    of clip1 and clip2, every other plane is filled with 128, and clip3 does
    not enter the frame. *)
Theorem GetFrame_debug d fuel c fresh src1 src2 src3 fmt q st :
  debug d = true -> VS.format (vi d) = Some fmt ->
  0 <= q < VS.numPlanes fmt -> VS.numPlanes fmt <= Z.of_nat (length fresh) ->
  plane_selected d q = true ->
  (forall p, 0 <= p < VS.numPlanes fmt -> p <> q -> plane_selected d p = false) ->
  wf c ->
  Create fuel blank
    (VS.p_data (plane_at src1 q)) (VS.p_data (plane_at src2 q))
    (VS.p_width (plane_at src1 q)) (VS.p_height (plane_at src1 q))
    (VS.p_stride (plane_at src1 q)) (raw d) (smoothing_window d) = Some st ->
  exists out,
    MatchHistogramGetFrame d fuel c fresh src1 src2 src3 = Some out /\
    VS.p_data (plane_at out 0)
    = Debug st
        (fillPlane (VS.p_data (plane_at fresh 0)) (VS.p_width (plane_at fresh 0))
           (VS.p_height (plane_at fresh 0)) (VS.p_stride (plane_at fresh 0)) 0)
        (VS.p_stride (plane_at fresh 0)) /\
    forall p, 1 <= p < VS.numPlanes fmt ->
      VS.p_data (plane_at out p)
      = fillPlane (VS.p_data (plane_at fresh p)) (VS.p_width (plane_at fresh p))
          (VS.p_height (plane_at fresh p)) (VS.p_stride (plane_at fresh p)) 128.
Proof.
  intros Hdebug Hfmt Hq Hn Hsel Hothers Hwf Hcreate.
  revert Hcreate. generalize wf_blank. generalize blank. intros b Hb Hcreate.
  destruct (Create_state _ _ _ _ _ _ _ _ _ _ Hb Hcreate) as [Hwfst _].
  destruct (debug_loop d fuel src1 src2 fresh (VS.numPlanes fmt) q st c
              Hq Hn Hsel Hothers Hwf Hwfst) as (out & Hout & H0 & Hrest).
  { intros c0 Hc0. rewrite <- Hcreate. by apply Create_fresh. }
  exists (snd out). unfold MatchHistogramGetFrame. rewrite Hfmt, Hdebug, Hout.
  split; [reflexivity|]. split.
  - rewrite H0. reflexivity.
  - intros p Hp. rewrite (Hrest p Hp). reflexivity.
Qed.

Lemma GetFrame_debug_witness :
  (debug debug_request = true /\ VS.format (vi debug_request) = Some yuv444 /\
   0 <= 0 < VS.numPlanes yuv444 /\
   VS.numPlanes yuv444 <= Z.of_nat (length black_frame) /\
   plane_selected debug_request 0 = true /\
   (forall p, 0 <= p < VS.numPlanes yuv444 -> p <> 0 ->
      plane_selected debug_request p = false) /\
   wf blank /\
   Create 257 blank
     (VS.p_data (plane_at small_src1 0)) (VS.p_data (plane_at small_src2 0))
     (VS.p_width (plane_at small_src1 0)) (VS.p_height (plane_at small_src1 0))
     (VS.p_stride (plane_at small_src1 0)) (raw debug_request)
     (smoothing_window debug_request) = Some small_curve) /\
  exists out,
    MatchHistogramGetFrame debug_request 257 blank black_frame
      small_src1 small_src2 small_src3 = Some out /\
    VS.p_data (plane_at out 0)
    = Debug small_curve
        (fillPlane (VS.p_data (plane_at black_frame 0))
           (VS.p_width (plane_at black_frame 0))
           (VS.p_height (plane_at black_frame 0))
           (VS.p_stride (plane_at black_frame 0)) 0)
        (VS.p_stride (plane_at black_frame 0)) /\
    forall p, 1 <= p < VS.numPlanes yuv444 ->
      VS.p_data (plane_at out p)
      = fillPlane (VS.p_data (plane_at black_frame p))
          (VS.p_width (plane_at black_frame p))
          (VS.p_height (plane_at black_frame p))
          (VS.p_stride (plane_at black_frame p)) 128.
Proof.
  assert (0 <= 0 < VS.numPlanes yuv444) as H3
    by (vm_compute; split; [discriminate | reflexivity]).
  assert (VS.numPlanes yuv444 <= Z.of_nat (length black_frame)) as H4
    by (cbn; lia).
  assert (forall p, 0 <= p < VS.numPlanes yuv444 -> p <> 0 ->
            plane_selected debug_request p = false) as H6.
  { intros p Hp Hne. change (VS.numPlanes yuv444) with 3 in Hp.
    assert (p = 1 \/ p = 2) as [-> | ->] by lia; reflexivity. }
  assert (Create 257 blank
            (VS.p_data (plane_at small_src1 0)) (VS.p_data (plane_at small_src2 0))
            (VS.p_width (plane_at small_src1 0)) (VS.p_height (plane_at small_src1 0))
            (VS.p_stride (plane_at small_src1 0)) (raw debug_request)
            (smoothing_window debug_request) = Some small_curve) as H8
    by (vm_compute; reflexivity).
  split; [exact (conj eq_refl (conj eq_refl (conj H3 (conj H4 (conj eq_refl
                   (conj H6 (conj wf_blank H8)))))))|].
  exact (GetFrame_debug debug_request 257 blank black_frame small_src1 small_src2
           small_src3 yuv444 0 small_curve eq_refl eq_refl H3 H4 eq_refl H6
           wf_blank H8).
Defined.

(** ** MatchHistogramGetFrame: the frame under show *)

Lemma frame_step_show_selected d fmt fuel src1 src2 src3 k c dst st :
  show d = true -> plane_selected d k = true ->
  Create fuel c
    (VS.p_data (plane_at src1 k)) (VS.p_data (plane_at src2 k))
    (VS.p_width (plane_at src1 k)) (VS.p_height (plane_at src1 k))
    (VS.p_stride (plane_at src1 k)) (raw d) (smoothing_window d) = Some st ->
  frame_step d fmt fuel src1 src2 src3 k (c, dst)
  = Some (st,
          let processed :=
            with_data dst k
              (Process st (VS.p_data (plane_at src3 k)) (VS.p_data (plane_at dst k))
                 (VS.p_width (plane_at src3 k)) (VS.p_height (plane_at src3 k))
                 (VS.p_stride (plane_at dst k))) in
          let graph :=
            with_data processed k
              (fillPlane (VS.p_data (plane_at processed k))
                 (Z.shiftr 256 (if k =? 0 then 0 else VS.subSamplingW fmt))
                 (Z.shiftr 256 (if k =? 0 then 0 else VS.subSamplingH fmt))
                 (VS.p_stride (plane_at dst k)) (if k =? 0 then 16 else 128)) in
          with_data graph 0
            (Show st (VS.p_data (plane_at graph 0)) (VS.p_stride (plane_at graph 0))
               (rd [235; 160; 96] k))).
Proof.
  intros Hshow Hsel Hc. unfold frame_step. rewrite Hsel, Hc, Hshow. reflexivity.
Qed.

Lemma frame_step_show_unselected d fmt fuel src1 src2 src3 k c dst :
  show d = true -> plane_selected d k = false ->
  frame_step d fmt fuel src1 src2 src3 k (c, dst)
  = Some (c,
          with_data dst k
            (fillPlane (VS.p_data (plane_at dst k))
               (Z.shiftr 256 (if k =? 0 then 0 else VS.subSamplingW fmt))
               (Z.shiftr 256 (if k =? 0 then 0 else VS.subSamplingH fmt))
               (VS.p_stride (plane_at dst k)) (if k =? 0 then 16 else 128))).
Proof.
  intros Hshow Hsel. unfold frame_step. rewrite Hsel, Hshow. reflexivity.
Qed.

Lemma show_loop d fmt fuel src1 src2 src3 n : forall c dst,
  show d = true -> 1 <= n -> n <= Z.of_nat (length dst) ->
  (forall p, 1 <= p < n -> plane_selected d p = false) ->
  exists out,
    plane_loop (frame_step d fmt fuel src1 src2 src3) (seqZ 1 (n - 1)) (c, dst)
    = Some out /\
    plane_at (snd out) 0 = plane_at dst 0 /\
    forall p, 1 <= p < n ->
      plane_at (snd out) p
      = set_data (plane_at dst p)
          (fillPlane (VS.p_data (plane_at dst p))
             (Z.shiftr 256 (VS.subSamplingW fmt)) (Z.shiftr 256 (VS.subSamplingH fmt))
             (VS.p_stride (plane_at dst p)) 128).
Proof.
  intros c dst Hshow Hn Hlen Hothers.
  pose proof (plane_loop_total
    (fun k (s : CurveData * VS.Frame) =>
       length (snd s) = length dst /\
       forall p, 0 <= p < n ->
         plane_at (snd s) p
         = if (1 <=? p) && (p <? k)
           then set_data (plane_at dst p)
                  (fillPlane (VS.p_data (plane_at dst p))
                     (Z.shiftr 256 (VS.subSamplingW fmt))
                     (Z.shiftr 256 (VS.subSamplingH fmt))
                     (VS.p_stride (plane_at dst p)) 128)
           else plane_at dst p)
    (frame_step d fmt fuel src1 src2 src3) (Z.to_nat (n - 1)) 1 (c, dst)) as Hloop.
  rewrite Z2Nat.id in Hloop by lia.
  replace (1 + (n - 1)) with n in Hloop by lia. cbn [fst snd] in Hloop.
  destruct Hloop as (out & Hout & _ & Hplanes).
  - split; [done|]. intros p Hp.
    destruct (Z.leb_spec 1 p), (Z.ltb_spec p 1); cbn [andb]; done || lia.
  - intros k [ck dk] Hk (Hlk & Hpk). cbn [fst snd] in *.
    rewrite frame_step_show_unselected by (done || (apply Hothers; lia)).
    eexists. split; [reflexivity|]. cbn [fst snd].
    split; [by rewrite length_with_data|]. intros p Hp.
    rewrite plane_at_with_data by lia.
    destruct (Z.eqb_spec k 0); [lia|].
    destruct (Z.eqb_spec k p) as [<-|Hkp].
    + rewrite (Hpk k ltac:(lia)).
      destruct (Z.leb_spec 1 k), (Z.ltb_spec k k), (Z.ltb_spec k (k + 1));
        cbn [andb]; done || lia.
    + rewrite (Hpk p Hp).
      destruct (Z.leb_spec 1 p), (Z.ltb_spec p k), (Z.ltb_spec p (k + 1));
        cbn [andb]; done || lia.
  - exists out. split; [done|]. split.
    + by rewrite (Hplanes 0 ltac:(lia)).
    + intros p Hp. rewrite (Hplanes p ltac:(lia)).
      destruct (Z.leb_spec 1 p), (Z.ltb_spec p n); cbn [andb]; done || lia.
Qed.

(** X22.  Under [show], with plane 0 alone selected, plane 0 of the frame
    is clip3 sent through the curve, then covered in its 256 x 256 corner
    by the value 16 and by the graph of the curve in the value 235; every
    other plane is the plane of clip3 with its corner covered by 128. *)
Theorem GetFrame_show d fuel c fresh src1 src2 src3 fmt st :
  show d = true -> debug d = false -> VS.format (vi d) = Some fmt ->
  1 <= VS.numPlanes fmt <= 3 ->
  plane_selected d 0 = true ->
  (forall p, 1 <= p < VS.numPlanes fmt -> plane_selected d p = false) ->
  wf c ->
  Create fuel blank
    (VS.p_data (plane_at src1 0)) (VS.p_data (plane_at src2 0))
    (VS.p_width (plane_at src1 0)) (VS.p_height (plane_at src1 0))
    (VS.p_stride (plane_at src1 0)) (raw d) (smoothing_window d) = Some st ->
  exists out,
    MatchHistogramGetFrame d fuel c fresh src1 src2 src3 = Some out /\
    VS.p_data (plane_at out 0)
    = Show st
        (fillPlane
           (Process st (VS.p_data (plane_at src3 0)) (VS.p_data (plane_at fresh 0))
              (VS.p_width (plane_at src3 0)) (VS.p_height (plane_at src3 0))
              (VS.p_stride (plane_at fresh 0)))
           256 256 (VS.p_stride (plane_at fresh 0)) 16)
        (VS.p_stride (plane_at fresh 0)) 235 /\
    forall p, 1 <= p < VS.numPlanes fmt ->
      VS.p_data (plane_at out p)
      = fillPlane (VS.p_data (plane_at src3 p))
          (Z.shiftr 256 (VS.subSamplingW fmt)) (Z.shiftr 256 (VS.subSamplingH fmt))
          (VS.p_stride (plane_at src3 p)) 128.
Proof.
  intros Hshow Hdebug Hfmt Hn Hsel Hothers Hwf Hcreate.
  revert Hcreate. generalize wf_blank. generalize blank. intros b Hb Hcreate.
  unfold MatchHistogramGetFrame. rewrite Hfmt, Hdebug. cbv zeta.
  set (dst0 := newVideoFrame2 _ _ _ _).
  assert (plane_at dst0 0 = plane_at fresh 0) as Hinit0.
  { unfold dst0. rewrite newVideoFrame2_plane by lia. cbn. by rewrite Hsel. }
  assert (forall p, 1 <= p < VS.numPlanes fmt -> plane_at dst0 p = plane_at src3 p)
    as Hinit.
  { intros p Hp. unfold dst0. rewrite newVideoFrame2_plane by lia.
    pose proof (Hothers p Hp) as Hpsel.
    assert (p = 1 \/ p = 2) as [-> | ->] by lia; cbn; rewrite Hpsel; reflexivity. }
  assert (Z.of_nat (length dst0) = VS.numPlanes fmt) as Hlen
    by (apply length_newVideoFrame2; lia).
  clearbody dst0.
  rewrite seqZ_cons by lia. cbn [plane_loop].
  replace (Z.succ 0) with 1 by lia.
  replace (Z.pred (VS.numPlanes fmt)) with (VS.numPlanes fmt - 1) by lia.
  rewrite (frame_step_show_selected d fmt fuel src1 src2 src3 0 c dst0 st Hshow Hsel)
    by (rewrite <- Hcreate; by apply Create_fresh).
  cbv zeta. cbn [Z.eqb]. change (Z.shiftr 256 0) with 256.
  change (rd [235; 160; 96] 0) with 235.
  match goal with
  | |- exists out, option_map snd (plane_loop _ _ (st, ?dst1)) = _ /\ _ =>
      set (dst := dst1)
  end.
  assert (0 <= 0 < Z.of_nat (length dst0)) as H0l by lia.
  assert (length dst = length dst0) as Hldst
    by (unfold dst; by rewrite !length_with_data).
  assert (VS.p_data (plane_at dst 0)
          = Show st
              (fillPlane
                 (Process st (VS.p_data (plane_at src3 0))
                    (VS.p_data (plane_at fresh 0))
                    (VS.p_width (plane_at src3 0)) (VS.p_height (plane_at src3 0))
                    (VS.p_stride (plane_at fresh 0)))
                 256 256 (VS.p_stride (plane_at fresh 0)) 16)
              (VS.p_stride (plane_at fresh 0)) 235) as Hd0.
  { unfold dst.
    rewrite !plane_at_with_data by (rewrite ?length_with_data; lia).
    cbn [Z.eqb]. rewrite Hinit0. reflexivity. }
  assert (forall p, 1 <= p < VS.numPlanes fmt -> plane_at dst p = plane_at src3 p)
    as Hdp.
  { intros p Hp. unfold dst.
    rewrite !plane_at_with_data by (rewrite ?length_with_data; lia).
    destruct (Z.eqb_spec 0 p); [lia|]. by apply Hinit. }
  clearbody dst.
  destruct (show_loop d fmt fuel src1 src2 src3 (VS.numPlanes fmt) st dst Hshow
              ltac:(lia) ltac:(lia) Hothers) as (out & Hout & H0 & Hrest).
  exists (snd out). rewrite Hout. split; [reflexivity|]. split.
  - rewrite H0. exact Hd0.
  - intros p Hp. rewrite (Hrest p Hp), (Hdp p Hp). reflexivity.
Qed.

Lemma GetFrame_show_witness :
  (show show_request = true /\ debug show_request = false /\
   VS.format (vi show_request) = Some yuv444 /\
   1 <= VS.numPlanes yuv444 <= 3 /\ plane_selected show_request 0 = true /\
   (forall p, 1 <= p < VS.numPlanes yuv444 ->
      plane_selected show_request p = false) /\
   wf blank /\
   Create 0 blank
     (VS.p_data (plane_at small_src1 0)) (VS.p_data (plane_at small_src2 0))
     (VS.p_width (plane_at small_src1 0)) (VS.p_height (plane_at small_src1 0))
     (VS.p_stride (plane_at small_src1 0)) (raw show_request)
     (smoothing_window show_request) = Some small_raw) /\
  exists out,
    MatchHistogramGetFrame show_request 0 blank black_frame
      small_src1 small_src2 black_frame = Some out /\
    VS.p_data (plane_at out 0)
    = Show small_raw
        (fillPlane
           (Process small_raw (VS.p_data (plane_at black_frame 0))
              (VS.p_data (plane_at black_frame 0))
              (VS.p_width (plane_at black_frame 0))
              (VS.p_height (plane_at black_frame 0))
              (VS.p_stride (plane_at black_frame 0)))
           256 256 (VS.p_stride (plane_at black_frame 0)) 16)
        (VS.p_stride (plane_at black_frame 0)) 235 /\
    forall p, 1 <= p < VS.numPlanes yuv444 ->
      VS.p_data (plane_at out p)
      = fillPlane (VS.p_data (plane_at black_frame p))
          (Z.shiftr 256 (VS.subSamplingW yuv444))
          (Z.shiftr 256 (VS.subSamplingH yuv444))
          (VS.p_stride (plane_at black_frame p)) 128.
Proof.
  assert (1 <= VS.numPlanes yuv444 <= 3) as H4
    by (vm_compute; split; discriminate).
  assert (forall p, 1 <= p < VS.numPlanes yuv444 ->
            plane_selected show_request p = false) as H6.
  { intros p Hp. change (VS.numPlanes yuv444) with 3 in Hp.
    assert (p = 1 \/ p = 2) as [-> | ->] by lia; reflexivity. }
  assert (Create 0 blank
            (VS.p_data (plane_at small_src1 0)) (VS.p_data (plane_at small_src2 0))
            (VS.p_width (plane_at small_src1 0)) (VS.p_height (plane_at small_src1 0))
            (VS.p_stride (plane_at small_src1 0)) (raw show_request)
            (smoothing_window show_request) = Some small_raw) as H8
    by (vm_compute; reflexivity).
  split; [exact (conj eq_refl (conj eq_refl (conj eq_refl (conj H4 (conj eq_refl
                   (conj H6 (conj wf_blank H8)))))))|].
  exact (GetFrame_show show_request 0 blank black_frame small_src1 small_src2
           black_frame yuv444 small_raw eq_refl eq_refl eq_refl H4 eq_refl H6
           wf_blank H8).
Defined.

(** * Divisions without a result *)

Lemma IntDiv_traps_ok x y : y <> 0 -> y <> -1 -> IntDiv_traps x y = false.
Proof.
  intros H0 H1. unfold IntDiv_traps. cbv zeta.
  destruct (Z.eqb_spec y 0); [done|]. destruct (Z.eqb_spec y (-1)); [done|].
  by rewrite andb_false_r.
Qed.

Lemma to_int_count d :
  1 <= d <= 2 ^ 32 - 2 -> to_int d <> 0 /\ to_int d <> -1.
Proof.
  intros H. destruct (Z_lt_le_dec d (2 ^ 31)).
  - rewrite to_int_small by lia. lia.
  - rewrite to_int_wrap by lia. lia.
Qed.

Lemma existsb_false {A} (f : A -> bool) (l : list A) :
  (forall x, x ∈ l -> f x = false) -> existsb f l = false.
Proof.
  induction l as [|a l IH]; intros H; [done|]. cbn [existsb].
  rewrite (H a) by (apply elem_of_cons; by left).
  apply IH. intros x Hx. apply H, elem_of_cons. by right.
Qed.

Lemma raw_traps_counts s : counts_ok s -> raw_traps s = false.
Proof.
  intros Hc. unfold raw_traps. apply existsb_false. intros i Hi.
  apply elem_of_seqZ in Hi.
  destruct (Z.eqb_spec (rd (div s) i) 0) as [|Hd]; [done|]. cbn [negb andb].
  destruct (to_int_count (rd (div s) i)); [apply Hc; [lia | done]|].
  by apply IntDiv_traps_ok.
Qed.

Lemma final_traps_counts s :
  counts_ok s -> all_defined s -> final_traps s = false.
Proof.
  intros Hc Hall. unfold final_traps. apply existsb_false. intros i Hi.
  apply elem_of_seqZ in Hi.
  destruct (to_int_count (rd (div s) i)); [apply Hc; [lia | apply Hall; lia]|].
  by apply IntDiv_traps_ok.
Qed.

(** The divisor of the gap interpolation is the distance of two indices. *)
Lemma fill_one_traps_false i s : 0 <= i < 256 -> fill_one_traps i s = false.
Proof.
  intros Hi. unfold fill_one_traps.
  destruct (Z.eqb_spec (rd (div s) i) 0) as [Hz|Hz]; [|done].
  pose proof (scan_down_spec (div s) (Z.to_nat i) (i - 1) ltac:(lia)) as Hp.
  pose proof (scan_up_spec (div s) (Z.to_nat (255 - i)) (i + 1) ltac:(lia)) as Hn.
  cbv zeta in Hp, Hn. cbv zeta.
  set (prev := scan_down (div s) (i - 1) (Z.to_nat i)) in *.
  set (next := scan_up (div s) (i + 1) (Z.to_nat (255 - i))) in *.
  destruct (Z.eqb_spec prev (-1)) as [Hp1|Hp1]; cbn [negb andb]; [done|].
  destruct (Z.eqb_spec next (-1)) as [Hn1|Hn1]; cbn [negb andb]; [done|].
  destruct Hp as [[? _]|(Hpr & _)]; [lia|].
  destruct Hn as [[? _]|(Hnr & _)]; [lia|].
  apply IntDiv_traps_ok; lia.
Qed.

Lemma fill_gaps_traps_false s : fill_gaps_traps s = false.
Proof.
  unfold fill_gaps_traps.
  apply (for_up_ind (fun _ (st : CurveData * bool) => snd st = false));
    [lia | done |].
  intros i st Hi Hst. cbn [snd]. by rewrite Hst, fill_one_traps_false.
Qed.

Lemma counts_mark s i v :
  wf s -> counts_ok s -> 0 <= i < 256 -> counts_ok (mark s i v).
Proof.
  intros Hwf Hc Hi j Hj Hd. rewrite mark_div by (done || lia).
  destruct (Z.eqb_spec i j) as [->|Hne]; [lia|].
  apply Hc; [done|]. apply mark_defined in Hd; [|done | done | lia].
  destruct Hd as [->|Hd]; done.
Qed.

Lemma interpolate_counts fuel s s' :
  wf s -> counts_ok s -> interpolate fuel s = Some s' -> counts_ok s'.
Proof.
  intros Hwf Hc Hint. unfold interpolate in Hint.
  destruct (fill_gaps_inv counts_ok) with (s := s) as [Hwf1 Hc1];
    [|done | done|].
  { intros s1 i prev next Hwf1 Hc1 Hp Hn _ _ _. apply counts_mark; [done | done | lia]. }
  destruct (extend_loop_inv counts_ok) with (fuel := fuel) (s := fill_gaps s)
    (s' := s') as [_ Hc2]; try done.
  - intros s1 i first Hwf' Hc' Hi Hm _ _ _. apply counts_mark; [done | done | lia].
  - intros s1 i last Hwf' Hc' Hi Hm Hl _ _ _. apply counts_mark; [done | done | lia].
Qed.

Lemma smooth_counts w s :
  wf s -> consistent s -> all_defined s -> counts_ok s ->
  INT_MIN <= w <= INT_MAX ->
  counts_ok (smooth w s) /\ all_defined (smooth w s).
Proof.
  intros Hwf Hcons Hall Hc Hw.
  destruct (Z_lt_le_dec 0 w) as [Hpos|Hneg].
  - assert (curve_ok s) as Hok.
    { intros i Hi. rewrite (Hcons i Hi (Hall i Hi)). apply to_uchar_range. }
    destruct (smooth_window w s Hwf Hok) as (_ & _ & Hsd);
      [unfold INT_MAX in Hw; lia|].
    assert (forall i, 0 <= i < 256 -> 1 <= rd (div (smooth w s)) i <= 256) as Hd.
    { intros i Hi. destruct (Hsd i Hi) as [_ ->].
      pose proof (window_bounds w i Hpos Hi). lia. }
    split.
    + intros i Hi _. specialize (Hd i Hi). lia.
    + intros i Hi. unfold defined. specialize (Hd i Hi). lia.
  - unfold smooth. destruct (Z.ltb_spec 0 w); [lia|]. done.
Qed.

(** Two defined indices leave at most 254 undefined ones. *)
Lemma undefined_count_two s : two_defined s -> (undefined_count s <= 254)%nat.
Proof.
  intros (a & b & Hab & Hb & Hda & Hdb).
  assert (forall j, 0 <= j < 256 -> ~ defined blank j) as Hblank.
  { intros j Hj Hd. apply Hd. unfold blank. cbn [div]. by apply rd_replicate. }
  set (s1 := mark blank a 0). set (s2 := mark s1 b 0).
  assert (wf s1) as Hwf1 by (apply wf_mark, wf_blank).
  assert (extends blank s1) as He1 by (intros j Hj Hd; by apply Hblank in Hd).
  assert (extends s1 s2) as He2
    by (intros j Hj Hd; apply mark_defined; [done | lia | lia | by right]).
  assert (extends s2 s) as He3.
  { intros j Hj Hd. apply mark_defined in Hd; [|done | lia | lia].
    destruct Hd as [->|Hd]; [done|].
    apply mark_defined in Hd; [|exact wf_blank | lia | lia].
    destruct Hd as [->|Hd]; [done|]. by apply Hblank in Hd. }
  pose proof (undefined_count_bound blank) as H0.
  assert (undefined_count s1 < undefined_count blank)%nat as H1.
  { apply undefined_count_lt; [done|]. exists a. split; [lia|].
    split; [apply Hblank; lia|].
    apply mark_defined; [exact wf_blank | lia | lia | by left]. }
  assert (undefined_count s2 < undefined_count s1)%nat as H2.
  { apply undefined_count_lt; [done|]. exists b. split; [lia|]. split.
    - intros Hd. apply mark_defined in Hd; [|exact wf_blank | lia | lia].
      destruct Hd as [?|Hd]; [lia|]. apply (Hblank b); [lia | done].
    - apply mark_defined; [done | lia | lia | by left]. }
  pose proof (undefined_count_mono s2 s He3). lia.
Qed.

(** The body of [if (!raw)] on a state in which some index is defined: it
    returns, no division is without a result, and the [while] loop ends
    within 255 evaluations of its condition. *)
Lemma postprocess_outcome fuel w s :
  wf s -> consistent s -> counts_ok s ->
  (exists k, 0 <= k < 256 /\ defined s k) ->
  INT_MIN <= w <= INT_MAX -> (255 <= fuel)%nat ->
  (exists st, postprocess fuel w s = Some st) /\
  postprocess_traps fuel w s = false /\
  (find_flat s = -1 -> exists s', extend_loop fuel (fill_gaps s) = Some s').
Proof.
  intros Hwf Hcons Hc (k & Hk & Hdk) Hw Hfuel.
  assert (find_flat s = -1 ->
          exists s', interpolate fuel s = Some s' /\ good s' /\ all_defined s')
    as Hloop.
  { intros Hflat. destruct (find_flat_none s Hflat) as [Hnone|Htwo].
    { exfalso. by apply Hdk, Hnone. }
    destruct (fill_gaps_spec s Hwf Hcons) as (Hwf1 & Hcons1 & Hext & Hcont).
    assert (two_defined (fill_gaps s)) as Htwo1.
    { destruct Htwo as (a & b & Hab & Hb & Hda & Hdb).
      exists a, b. repeat (split; [done|]). split; apply Hext; (done || lia). }
    pose proof (undefined_count_two _ Htwo1) as Hcount.
    destruct (extend_loop_terminates fuel (fill_gaps s)) as (s' & Hs' & Hg & _ & Hall);
      [exact (conj Hwf1 (conj Hcons1 (conj Hcont Htwo1))) | lia |].
    by exists s'. }
  destruct (Z.eq_dec (find_flat s) (-1)) as [Hflat|Hflat].
  - destruct (Hloop Hflat) as (s' & Hint & (Hwf' & Hcons' & _) & Hall).
    split; [|split].
    + rewrite postprocess_not_flat, Hint by done. by eexists.
    + unfold postprocess_traps. rewrite Hflat. cbn [Z.eqb negb].
      rewrite fill_gaps_traps_false, Hint. cbn [orb].
      pose proof (interpolate_counts fuel s s' Hwf Hc Hint) as Hc'.
      destruct (smooth_counts w s' Hwf' Hcons' Hall Hc' Hw) as [Hc2 Hall2].
      by apply final_traps_counts.
    + intros _. exists s'. exact Hint.
  - split; [|split].
    + rewrite postprocess_flat by done. by eexists.
    + unfold postprocess_traps. destruct (Z.eqb_spec (find_flat s) (-1)); done.
    + done.
Qed.

Lemma accumulation_pass_wf this ptr1 ptr2 width height stride :
  wf this ->
  wf (accumulation_pass this ptr1 ptr2 width height stride) /\
  div (accumulate this ptr1 ptr2 width height stride)
  = div (accumulation_pass this ptr1 ptr2 width height stride).
Proof.
  intros Hwf. unfold accumulate.
  assert (wf (accumulation_pass this ptr1 ptr2 width height stride)) as Hwf1.
  { unfold accumulation_pass. rewrite populate_pixels.
    destruct (clear_data_spec this Hwf) as (Hwf0 & _). by apply wf_tally_all. }
  split; [done|]. by destruct (raw_curve_spec _ Hwf1) as (_ & _ & ? & _).
Qed.

Lemma accumulate_counts this ptr1 ptr2 width height stride :
  wf this ->
  plane_ok ptr1 width height stride -> plane_ok ptr2 width height stride ->
  0 <= width -> 0 <= height -> width * height < 2 ^ 32 - 1 ->
  counts_ok (accumulation_pass this ptr1 ptr2 width height stride) /\
  counts_ok (accumulate this ptr1 ptr2 width height stride).
Proof.
  intros Hwf H1 H2 Hw Hh Hn.
  destruct (accumulation_pass_wf this ptr1 ptr2 width height stride Hwf)
    as [_ Hdiv].
  assert (counts_ok (accumulation_pass this ptr1 ptr2 width height stride)) as Hc.
  { intros i Hi Hd. unfold defined in Hd.
    destruct (accumulation_pass_spec this ptr1 ptr2 width height stride i
                Hwf H1 H2 Hi) as [_ Hdv].
    pose proof (exact_count_nonneg (plane_pixels ptr1 ptr2 width height stride) i)
      as Hcnt.
    rewrite (length_plane_pixels ptr1 ptr2 width height stride Hw Hh) in Hcnt.
    rewrite wrap_uint_small in Hdv by lia. lia. }
  split; [done|]. intros i Hi Hd. unfold defined in Hd. rewrite Hdiv in *.
  by apply Hc.
Qed.

Lemma Create_traps_not_raw fuel this ptr1 ptr2 width height stride w :
  Create_traps fuel this ptr1 ptr2 width height stride false w
  = raw_traps (accumulation_pass this ptr1 ptr2 width height stride)
    || postprocess_traps fuel w (accumulate this ptr1 ptr2 width height stride).
Proof. unfold Create_traps, accumulate. cbv zeta. cbn [negb]. reflexivity. Qed.

Lemma Create_traps_raw fuel this ptr1 ptr2 width height stride w :
  Create_traps fuel this ptr1 ptr2 width height stride true w
  = raw_traps (accumulation_pass this ptr1 ptr2 width height stride).
Proof. unfold Create_traps. cbv zeta. cbn [negb]. apply orb_false_r. Qed.

(** C2 (amended).  For planes of at least one and fewer than 2^32 - 1
    pixels and a smoothing window that is an [int], [Create] with
    [raw = false] returns: no division is without a result, gap
    interpolation leaves the defined indices contiguous, and when [flat] is
    [-1] the [while] loop of the boundary extrapolation ends within 255
    evaluations of its condition. *)
Theorem C2_create_terminates this ptr1 ptr2 width height stride
    smoothing_window fuel :
  wf this ->
  plane_ok ptr1 width height stride -> plane_ok ptr2 width height stride ->
  1 <= width -> 1 <= height -> width * height < 2 ^ 32 - 1 ->
  INT_MIN <= smoothing_window <= INT_MAX ->
  (255 <= fuel)%nat ->
  (exists st,
     Create_outcome fuel this ptr1 ptr2 width height stride false smoothing_window
     = Returns st) /\
  contiguous (fill_gaps (accumulate this ptr1 ptr2 width height stride)) /\
  (find_flat (accumulate this ptr1 ptr2 width height stride) = -1 ->
   exists s',
     extend_loop fuel (fill_gaps (accumulate this ptr1 ptr2 width height stride))
     = Some s').
Proof.
  intros Hwf H1 H2 Hw1 Hh1 Hn Hw Hfuel.
  destruct (accumulate_consistent this ptr1 ptr2 width height stride Hwf)
    as [Hwf0 Hc0].
  destruct (accumulate_counts this ptr1 ptr2 width height stride Hwf H1 H2)
    as [Hcp Hca]; [lia | lia | done |].
  destruct (key_defined this ptr1 ptr2 width height stride 0 0 Hwf H1 H2)
    as [Hk Hd]; [lia | lia | lia |].
  destruct (postprocess_outcome fuel smoothing_window _ Hwf0 Hc0 Hca
              (ex_intro _ _ (conj Hk Hd)) Hw Hfuel) as ((st & Hst) & Htr & Hloop).
  split; [|split; [by apply fill_gaps_spec | exact Hloop]].
  exists st. unfold Create_outcome.
  rewrite Create_traps_not_raw, (raw_traps_counts _ Hcp), Htr, Create_not_raw, Hst.
  reflexivity.
Qed.

Lemma C2_witness :
  (wf blank /\ plane_ok [10; 20; 10; 30] 2 2 2 /\ plane_ok [50; 60; 70; 80] 2 2 2 /\
   1 <= 2 /\ 1 <= 2 /\ 2 * 2 < 2 ^ 32 - 1 /\ INT_MIN <= 8 <= INT_MAX /\
   (255 <= 255)%nat) /\
  (exists st,
     Create_outcome 255 blank [10; 20; 10; 30] [50; 60; 70; 80] 2 2 2 false 8
     = Returns st) /\
  contiguous (fill_gaps (accumulate blank [10; 20; 10; 30] [50; 60; 70; 80] 2 2 2)) /\
  (find_flat (accumulate blank [10; 20; 10; 30] [50; 60; 70; 80] 2 2 2) = -1 ->
   exists s',
     extend_loop 255
       (fill_gaps (accumulate blank [10; 20; 10; 30] [50; 60; 70; 80] 2 2 2))
     = Some s').
Proof.
  destruct small_planes_ok as (Hwf & H1 & H2 & _).
  assert (1 <= 2) as Hone by (vm_compute; discriminate).
  assert (2 * 2 < 2 ^ 32 - 1) as Hn by (vm_compute; reflexivity).
  assert (INT_MIN <= 8 <= INT_MAX) as Hw by (vm_compute; split; discriminate).
  assert (255 <= 255)%nat as Hfuel by lia.
  split; [exact (conj Hwf (conj H1 (conj H2 (conj Hone (conj Hone (conj Hn
                   (conj Hw Hfuel)))))))|].
  exact (C2_create_terminates blank [10; 20; 10; 30] [50; 60; 70; 80] 2 2 2 8 255
           Hwf H1 H2 Hone Hone Hn Hw Hfuel).
Defined.

(** C2 as stated fails for a key plane of 65536 x 65536 equal pixels: the
    count wraps to 0, no index is defined, no division is reached and the
    [while] loop never ends. *)
Lemma C2_counterexample :
  plane_ok (flat_plane (65536 * 65536) 0) 65536 65536 65536 /\
  forall fuel,
    Create_outcome fuel blank (flat_plane (65536 * 65536) 0)
      (flat_plane (65536 * 65536) 0) 65536 65536 65536 false 8 = Unfinished.
Proof.
  assert (plane_ok (flat_plane (65536 * 65536) 0) 65536 65536 65536) as H
    by (apply plane_ok_flat; lia).
  split; [exact H|]. intros fuel.
  destruct (accumulate_constant_key blank (flat_plane (65536 * 65536) 0)
              (flat_plane (65536 * 65536) 0) 65536 65536 65536 0 wf_blank H H)
    as (Hwf & _ & Hd & Hother & _); [lia | lia | lia | apply constant_key_flat; lia |].
  destruct (accumulation_pass_wf blank (flat_plane (65536 * 65536) 0)
              (flat_plane (65536 * 65536) 0) 65536 65536 65536 wf_blank)
    as [_ Hdiv].
  assert (forall i, 0 <= i < 256 ->
            rd (div (accumulate blank (flat_plane (65536 * 65536) 0)
                       (flat_plane (65536 * 65536) 0) 65536 65536 65536)) i = 0)
    as Hnone.
  { intros i Hi. destruct (Z.eq_dec i 0) as [->|Hne]; [exact Hd | by apply Hother]. }
  unfold Create_outcome.
  rewrite Create_traps_not_raw, Create_not_raw.
  rewrite raw_traps_counts
    by (intros i Hi Hdef; exfalso; apply Hdef; rewrite <- Hdiv; by apply Hnone).
  cbn [orb]. unfold postprocess_traps.
  rewrite postprocess_not_flat by (by apply find_flat_undefined).
  rewrite find_flat_undefined by exact Hnone. cbn [Z.eqb negb].
  rewrite fill_gaps_traps_false, interpolate_none by exact Hnone.
  reflexivity.
Qed.

(** A call of [IntDiv] whose division has no result: [IntDiv(-2147483647,
    -1)] divides [INT_MIN] by -1.  The loop "Raw curve" makes this call
    when [div[i]] is 2^32 - 1 and [sum[i]] is 2^31 + 1. *)
Example IntDiv_traps_example :
  to_int (2 ^ 31 + 1) = -2147483647 /\ to_int (2 ^ 32 - 1) = -1 /\
  IntDiv_traps (-2147483647) (-1) = true.
Proof. vm_compute. done. Qed.

(** C10.  With [raw = true], what [Create] does is the same whatever the
    smoothing window is: the same [sum], [div] and [curve] when it returns,
    the same stop at a division without a result otherwise; and the
    [while] loop is not entered. *)
Theorem C10_raw_ignores_window fuel this ptr1 ptr2 width height stride w1 w2 :
  Create fuel this ptr1 ptr2 width height stride true w1
  = Create fuel this ptr1 ptr2 width height stride true w2 /\
  Create_outcome fuel this ptr1 ptr2 width height stride true w1
  = Create_outcome fuel this ptr1 ptr2 width height stride true w2 /\
  Create_outcome fuel this ptr1 ptr2 width height stride true w1 <> Unfinished.
Proof.
  split; [reflexivity|]. unfold Create_outcome.
  rewrite !Create_traps_raw, !Create_raw. split; [reflexivity|].
  destruct (raw_traps _); discriminate.
Qed.
